(** * IoTAir: the Express backend of the air-quality dashboard

    A shallow embedding of [server.js] (the second document of
    [src/public/js/register.js]): the CSV-backed user store, the session
    gates, the authentication and administration routes and the sensor
    feed reader, followed by the properties of the specification that
    concern them, and of the scripts of the pages as far as they decide
    what is sent to the server.

    Conventions of the embedding.
    - A JavaScript string is a [string], one character per UTF-16 code
      unit; the code units are those below 256, so that a text with
      other characters (or with a lone surrogate, which the file does
      not keep) is outside the model.
    - A JavaScript value is a [jsval]; a Number is a binary64; an
      object is the list of its properties, each key once.  The fields
      of [req.body] are values: [express.json] delivers whatever JSON
      the client sent, [JUndefined] standing for a missing field; a
      request without body has the body [{}].
    - [users.csv] and [feeds.csv] are held as the record sequences that
      [Papa.parse] yields for them; the text of the files and the CSV
      codec are the subject of the module [Csv] below.  A row of
      [users.csv] has its four cells, as every row that the routes
      write; a row of [feeds.csv] may be short.
    - What a handler passes to [res.json] is a [jsval]; [wire] gives
      what the client reads once it is serialised.  The status set by
      [res.status] defaults to 200.
    - [bcrypt] is an interface ([Bcrypt]); nothing is assumed of its two
      functions on strings.  The library rejects data that is not a
      string, which the handlers meet in their [catch] branch.
    - Two conversions of the language on values that no property
      depends on (a number to its text, a text to a number outside
      [parseFloat]) are an interface ([Engine]).
    - The exceptions that a request can cause are followed into the
      [catch] branches answering 500: the rejection by [bcrypt] and the
      TypeError of a conversion to a primitive value.
    - A write that fails is taken to leave the file as it was: the
      failure of [fs.writeFile] that [writeCSV] turns into [false]
      happens before the file is touched.  ([fs.writeFile] can also
      fail after it has truncated the file; that is not modelled.) *)

From Stdlib Require Import ZArith List String Ascii Bool Lia SpecFloat.
From stdpp Require Import base option list gmap strings.

Local Open Scope string_scope.
Local Open Scope list_scope.

(** ** JavaScript values *)

(** A Number: a binary64, that is a [spec_float] of precision 53 and
    [emax] 1024. *)
Definition jsnum := spec_float.

Definition NaN : jsnum := S754_nan.
Definition zero : jsnum := S754_zero false.

(** The Number of an integer, and of a natural number. *)
Definition of_Z (z : Z) : jsnum := binary_normalize 53 1024 z 0 false.
Definition of_nat (n : nat) : jsnum := of_Z (Z.of_nat n).

(** The mathematical value of a numeric literal, before it is rounded
    to a Number: an infinity, or the signed decimal [mant * 10^exp]. *)
Inductive mvalue :=
| Inf (negative : bool)
| Dec (negative : bool) (mant : N) (exp : Z).

(** The Number value for a mathematical value: the binary64 nearest to
    it, the even one of two that are as near; an infinity when the
    value is beyond the range, a zero of its sign when it is below. *)
Definition Number_of (x : mvalue) : jsnum :=
  match x with
  | Inf sg => S754_infinity sg
  | Dec sg N0 _ => S754_zero sg
  | Dec sg (Npos m) Z0 => binary_round 53 1024 sg m 0
  | Dec sg (Npos m) (Zpos k) => binary_round 53 1024 sg (m * 10 ^ k) 0
  | Dec sg (Npos m) (Zneg k) =>
      SFdiv 53 1024 (S754_finite sg m 0) (S754_finite false (10 ^ k) 0)
  end.

(** The Boolean reading of a number: NaN, +0 and -0 are false. *)
Definition num_truthy (x : jsnum) : bool :=
  match x with
  | S754_nan | S754_zero _ => false
  | S754_infinity _ | S754_finite _ _ _ => true
  end.

(** [x || 0] *)
Definition or_zero (x : jsnum) : jsnum :=
  if num_truthy x then x else zero.

Definition is_finite (x : jsnum) : bool :=
  match x with
  | S754_zero _ | S754_finite _ _ _ => true
  | S754_nan | S754_infinity _ => false
  end.

#[local] Set Warnings "-register-all".

Inductive jsval :=
| JUndefined
| JNull
| JBool (b : bool)
| JNum (n : jsnum)
| JStr (s : string)
| JArr (items : list jsval)
| JObj (fields : list (string * jsval)).

Definition of_opt (o : option string) : jsval :=
  match o with
  | Some s => JStr s
  | None => JUndefined
  end.

(** The Boolean reading of a value. *)
Definition js_truthy (v : jsval) : bool :=
  match v with
  | JUndefined | JNull => false
  | JBool b => b
  | JNum n => num_truthy n
  | JStr s => negb (String.eqb s "")
  | JArr _ | JObj _ => true
  end.

(** [a || b] *)
Definition js_or (a b : jsval) : jsval := if js_truthy a then a else b.

(** [v === s] and [s === v] for a string [s]: no value but the string
    itself is equal to it. *)
Definition is_string (s : string) (v : jsval) : bool :=
  match v with
  | JStr t => String.eqb t s
  | _ => false
  end.

Definition strict_eq (s : string) (v : jsval) : bool :=
  match v with
  | JStr t => String.eqb s t
  | _ => false
  end.

(** The non-empty string that [v] is, if it is one. *)
Definition nonempty (v : jsval) : option string :=
  match v with
  | JStr s => if String.eqb s "" then None else Some s
  | _ => None
  end.

(** The keys of an object literal, in the order they are written. *)
Definition keys (v : jsval) : list string :=
  match v with
  | JObj fs => map fst fs
  | _ => []
  end.

Definition get (k : string) (v : jsval) : jsval :=
  match v with
  | JObj fs =>
      match find (fun kv => String.eqb (fst kv) k) fs with
      | Some kv => snd kv
      | None => JUndefined
      end
  | _ => JUndefined
  end.

(** *** Conversions

    The two conversions of the engine that are taken as they are:
    [Number::toString] and [StringToNumber]. *)
Class Engine := {
  number_to_string : jsnum -> string;
  string_to_number : string -> jsnum
}.

Section Conversions.
Context `{Engine}.

(** [ToString]: [None] when it throws a TypeError.  An array is joined
    with commas, [undefined] and [null] giving nothing there.  An
    object of JSON has the [toString] of [Object.prototype], unless a
    key of its own hides it: the value under that key is not a
    function, and the conversion throws. *)
Fixpoint js_to_string (v : jsval) : option string :=
  match v with
  | JUndefined => Some "undefined"
  | JNull => Some "null"
  | JBool true => Some "true"
  | JBool false => Some "false"
  | JNum x => Some (number_to_string x)
  | JStr s => Some s
  | JArr items =>
      (fix join (l : list jsval) : option string :=
         match l with
         | [] => Some ""
         | x :: r =>
             match match x with
                   | JUndefined | JNull => Some ""
                   | _ => js_to_string x
                   end, join r with
             | Some a, Some b =>
                 Some (match r with [] => a | _ :: _ => a +:+ "," +:+ b end)
             | _, _ => None
             end
         end) items
  | JObj fs =>
      if existsb (fun kv => String.eqb (fst kv) "toString") fs then None
      else Some "[object Object]"
  end.

(** [ToPrimitive] of a value compared with a number: an object or an
    array has the [valueOf] of [Object.prototype], which returns the
    object itself, so that the result is its [toString]. *)
Definition to_primitive (v : jsval) : option jsval :=
  match v with
  | JArr _ | JObj _ => option_map JStr (js_to_string v)
  | _ => Some v
  end.

(** [ToNumber] of a primitive value. *)
Definition to_number (p : jsval) : jsnum :=
  match p with
  | JNull => zero
  | JBool true => of_nat 1
  | JBool false => zero
  | JNum x => x
  | JStr s => string_to_number s
  | _ => NaN
  end.

(** [v < n] for a natural number [n]: [None] when the conversion of
    [v] throws; false when [v] converts to NaN. *)
Definition less_than (v : jsval) (n : nat) : option bool :=
  option_map (fun p => SFltb (to_number p) (of_nat n)) (to_primitive v).

(** [v.length < n] for a value [v] that is neither [undefined] nor
    [null]: a string and an array have their length, an object the
    value under its key [length], anything else [undefined]. *)
Definition length_below (v : jsval) (n : nat) : option bool :=
  match v with
  | JStr s => Some (String.length s <? n)%nat
  | JArr items => Some (length items <? n)%nat
  | JObj _ => less_than (get "length" v) n
  | _ => Some false
  end.

(** The text that [Papa.unparse] writes for a cell, before quoting:
    nothing for [undefined] and [null], else [value.toString()]. *)
Definition cell_of (v : jsval) : option string :=
  match v with
  | JUndefined | JNull => Some ""
  | _ => js_to_string v
  end.

End Conversions.

(** What the client reads: the value after [JSON.stringify] and
    [JSON.parse].  A property whose value is [undefined] is left out,
    [undefined] in an array becomes [null], and so does a number that
    is not finite; -0 is written 0. *)
Fixpoint wire (v : jsval) : jsval :=
  match v with
  | JNum x =>
      match x with
      | S754_finite _ _ _ => JNum x
      | S754_zero _ => JNum zero
      | S754_nan | S754_infinity _ => JNull
      end
  | JArr items =>
      JArr ((fix each (l : list jsval) : list jsval :=
               match l with
               | [] => []
               | JUndefined :: r => JNull :: each r
               | x :: r => wire x :: each r
               end) items)
  | JObj fs =>
      JObj ((fix each (l : list (string * jsval)) : list (string * jsval) :=
               match l with
               | [] => []
               | (_, JUndefined) :: r => each r
               | (k, x) :: r => (k, wire x) :: each r
               end) fs)
  | _ => v
  end.

(** ** Data model *)

(** A row of [users.csv], columns [name,email,password,role]. *)
Record user := mkUser {
  name : string;
  email : string;
  password : string;
  role : string
}.

(** A row of [feeds.csv], columns
    [created_at,entry_id,field1,field2,field3]; a short row leaves the
    trailing cells undefined. *)
Record feed := mkFeed {
  created_at : option string;
  entry_id : option string;
  field1 : option string;
  field2 : option string;
  field3 : option string
}.

(** [req.session.user]. *)
Record session_user := mkSession {
  s_name : string;
  s_email : string;
  s_role : string
}.

(** The two files and the session store.  A file that does not exist
    (or cannot be read) is [None]. *)
Record server := mkServer {
  users_csv : option (list user);
  feeds_csv : option (list feed);
  sessions : gmap nat session_user
}.

Definition set_users (st : server) (f : option (list user)) : server :=
  {| users_csv := f; feeds_csv := feeds_csv st; sessions := sessions st |}.

Definition set_sessions (st : server) (m : gmap nat session_user) : server :=
  {| users_csv := users_csv st; feeds_csv := feeds_csv st; sessions := m |}.

(** ** Requests and responses *)

(** The four fields that the handlers read from [req.body]. *)
Record body := mkBody {
  b_name : jsval;
  b_email : jsval;
  b_password : jsval;
  b_role : jsval
}.

Inductive route :=
| POST_register
| POST_login
| GET_logout
| GET_check_auth
| GET_sensors
| GET_users
| POST_users_add
| PUT_users (param_email : string)
| DELETE_users (param_email : string)
| Unmatched.

(** A request: the session id carried by the cookie, the route and the
    parsed JSON body. *)
Record request := mkRequest {
  cookie : nat;
  target : route;
  req_body : body
}.

(** What the handler cannot control during one request: whether
    [fs.writeFile] succeeds and the salt [bcrypt] draws. *)
Record env := mkEnv {
  write_ok : bool;
  salt : string
}.

Inductive reply :=
| Json (v : jsval)
| SendFile (path : string).

Record response := mkResponse {
  status : nat;
  payload : reply
}.

Definition error (msg : string) : jsval := JObj [("error", JStr msg)].
Definition message (msg : string) : jsval := JObj [("message", JStr msg)].

Definition json (code : nat) (v : jsval) : response :=
  {| status := code; payload := Json v |}.

(** ** Helper functions *)

(** [readCSV]: the parsed rows, or [[]] when reading throws. *)
Definition readCSV {A} (file : option (list A)) : list A :=
  match file with
  | Some rows => rows
  | None => []
  end.

(** [writeCSV]: the file after the call and the boolean it returns.  A
    write that fails leaves the file as it was. *)
Definition writeCSV {A} (ok : bool) (file : option (list A)) (data : list A)
  : option (list A) * bool :=
  if ok then (Some data, true) else (file, false).

Class Bcrypt := {
  bcrypt_hash : string -> string -> nat -> string;
  bcrypt_compare : string -> string -> bool
}.

(** [bcrypt.hash(data, 10)] and [bcrypt.compare(data, hash)] on a value
    of the body: the library rejects data that is not a string. *)
Definition hash `{Bcrypt} (e : env) (data : jsval) : option string :=
  match data with
  | JStr s => Some (bcrypt_hash (salt e) s 10)
  | _ => None
  end.

Definition compare `{Bcrypt} (data : jsval) (h : string) : option bool :=
  match data with
  | JStr s => Some (bcrypt_compare s h)
  | _ => None
  end.

(** The row that [Papa.unparse] writes for the object pushed on
    [users]; [None] when a cell cannot be converted, in which case
    [writeCSV] returns [false] before it opens the file. *)
Definition unparse_user `{Engine} (n em : jsval) (hashed : string) (r : jsval)
  : option user :=
  match cell_of n, cell_of em, cell_of r with
  | Some n', Some em', Some r' => Some (mkUser n' em' hashed r')
  | _, _, _ => None
  end.

(** A middleware either answers or calls [next()] ([None]). *)
Definition middleware := option session_user -> option response.

Definition isAuthenticated : middleware := fun sess =>
  match sess with
  | Some _ => None
  | None => Some (json 401 (error "Not authenticated"))
  end.

Definition isAdmin : middleware := fun sess =>
  match sess with
  | Some u =>
      if String.eqb (s_role u) "admin" then None
      else Some (json 403 (error "Admin privileges required"))
  | None => Some (json 403 (error "Admin privileges required"))
  end.

Definition handler := env -> server -> request -> server * response.

(** [app.METHOD(path, m1, ..., mk, h)]: the middlewares run in order on
    the session of the request; the first to answer ends the request. *)
Fixpoint guarded (gates : list middleware) (h : handler) : handler :=
  fun e st rq =>
    match gates with
    | [] => h e st rq
    | m :: rest =>
        match m (sessions st !! cookie rq) with
        | Some r => (st, r)
        | None => guarded rest h e st rq
        end
    end.

(** ** Routes *)

Section Routes.
Context `{Bcrypt} `{Engine}.

(** [POST /api/register] *)
Definition register : handler := fun e st rq =>
  let b := req_body rq in
  let rq_name := b_name b in
  let rq_email := b_email b in
  let rq_password := b_password b in
  if negb (js_truthy rq_name) || negb (js_truthy rq_email)
     || negb (js_truthy rq_password) then
    (st, json 400 (error "All fields are required"))
  else
    match length_below rq_password 6 with
    | None => (st, json 500 (error "Server error during registration"))
    | Some true => (st, json 400 (error "Password must be at least 6 characters"))
    | Some false =>
        let users := readCSV (users_csv st) in
        if existsb (fun u => strict_eq u.(email) rq_email) users then
          (st, json 400 (error "Email already registered"))
        else
          match hash e rq_password with
          | None => (st, json 500 (error "Server error during registration"))
          | Some hashedPassword =>
              match unparse_user rq_name rq_email hashedPassword (JStr "user") with
              | None => (st, json 500 (error "Failed to save user"))
              | Some u =>
                  let users := users ++ [u] in
                  let '(file, success) := writeCSV (write_ok e) (users_csv st) users in
                  if success then
                    (set_users st file, json 200 (message "Registration successful"))
                  else
                    (set_users st file, json 500 (error "Failed to save user"))
              end
          end
    end.

Definition public_user (n e r : string) : jsval :=
  JObj [("name", JStr n); ("email", JStr e); ("role", JStr r)].

(** [POST /api/login] *)
Definition login : handler := fun e st rq =>
  let b := req_body rq in
  let rq_email := b_email b in
  let rq_password := b_password b in
  if negb (js_truthy rq_email) || negb (js_truthy rq_password) then
    (st, json 400 (error "Email and password are required"))
  else
    let users := readCSV (users_csv st) in
    match find (fun u => strict_eq u.(email) rq_email) users with
    | None => (st, json 401 (error "Invalid email or password"))
    | Some user =>
        match compare rq_password user.(password) with
        | None => (st, json 500 (error "Server error during login"))
        | Some validPassword =>
            if negb validPassword then
              (st, json 401 (error "Invalid email or password"))
            else
              let su := mkSession user.(name) user.(email) user.(role) in
              (set_sessions st (<[cookie rq := su]> (sessions st)),
               json 200 (JObj [("message", JStr "Login successful");
                               ("user", public_user user.(name) user.(email)
                                                    user.(role))]))
        end
    end.

(** [GET /api/logout] *)
Definition logout : handler := fun e st rq =>
  (set_sessions st (delete (cookie rq) (sessions st)),
   json 200 (message "Logout successful")).

(** [GET /api/check-auth] *)
Definition check_auth : handler := fun e st rq =>
  match sessions st !! cookie rq with
  | Some u =>
      (st, json 200 (JObj [("authenticated", JBool true);
                           ("user", public_user (s_name u) (s_email u) (s_role u))]))
  | None => (st, json 200 (JObj [("authenticated", JBool false)]))
  end.

(** [GET /api/users] *)
Definition list_users : handler := fun e st rq =>
  let users := readCSV (users_csv st) in
  let safeUsers :=
    map (fun u => public_user u.(name) u.(email) u.(role)) users in
  (st, json 200 (JObj [("users", JArr safeUsers)])).

(** [POST /api/users/add] *)
Definition add_user : handler := fun e st rq =>
  let b := req_body rq in
  let rq_name := b_name b in
  let rq_email := b_email b in
  let rq_password := b_password b in
  let rq_role := b_role b in
  if negb (js_truthy rq_name) || negb (js_truthy rq_email)
     || negb (js_truthy rq_password) then
    (st, json 400 (error "All fields are required"))
  else
    match length_below rq_password 6 with
    | None => (st, json 500 (error "Server error"))
    | Some true => (st, json 400 (error "Password must be at least 6 characters"))
    | Some false =>
        let users := readCSV (users_csv st) in
        if existsb (fun u => strict_eq u.(email) rq_email) users then
          (st, json 400 (error "Email already exists"))
        else
          match hash e rq_password with
          | None => (st, json 500 (error "Server error"))
          | Some hashedPassword =>
              match unparse_user rq_name rq_email hashedPassword
                      (js_or rq_role (JStr "user")) with
              | None => (st, json 500 (error "Failed to add user"))
              | Some u =>
                  let users := users ++ [u] in
                  let '(file, success) := writeCSV (write_ok e) (users_csv st) users in
                  if success then
                    (set_users st file, json 200 (message "User added successfully"))
                  else
                    (set_users st file, json 500 (error "Failed to add user"))
              end
          end
    end.

(** [users[userIndex].role = role] at the first index whose email
    matches; [None] when [findIndex] returns -1. *)
Fixpoint set_role (to_email new_role : string) (users : list user)
  : option (list user) :=
  match users with
  | [] => None
  | u :: rest =>
      if String.eqb u.(email) to_email then
        Some (mkUser u.(name) u.(email) u.(password) new_role :: rest)
      else
        match set_role to_email new_role rest with
        | Some rest' => Some (u :: rest')
        | None => None
        end
  end.

(** [PUT /api/users/:email].  The line written to the log before the
    check converts the role to a string, which throws for an object
    without a [toString] to call.  [includes] compares with the two
    strings by identity, so that only a string passes the check. *)
Definition update_role (param_email : string) : handler := fun e st rq =>
  let rq_role := b_role (req_body rq) in
  match js_to_string rq_role with
  | None => (st, json 500 (error "Server error"))
  | Some _ =>
      match nonempty rq_role with
      | Some r =>
          if negb (existsb (String.eqb r) ["user"; "admin"]) then
            (st, json 400 (error "Invalid role"))
          else
            let users := readCSV (users_csv st) in
            match set_role param_email r users with
            | None => (st, json 404 (error "User not found"))
            | Some users =>
                let '(file, success) := writeCSV (write_ok e) (users_csv st) users in
                if success then
                  (set_users st file, json 200 (message "User role updated successfully"))
                else
                  (set_users st file, json 500 (error "Failed to update user"))
            end
      | None => (st, json 400 (error "Invalid role"))
      end
  end.

(** [DELETE /api/users/:email]; the gates in front of it guarantee
    that [req.session.user] is defined. *)
Definition delete_user (param_email : string) : handler := fun e st rq =>
  match sessions st !! cookie rq with
  | None => (st, json 500 (error "Server error"))
  | Some su =>
      if String.eqb (s_email su) param_email then
        (st, json 400 (error "Cannot delete your own account"))
      else
        let users := readCSV (users_csv st) in
        let filteredUsers :=
          List.filter (fun u => negb (String.eqb u.(email) param_email)) users in
        if (length filteredUsers =? length users)%nat then
          (st, json 404 (error "User not found"))
        else
          let '(file, success) :=
            writeCSV (write_ok e) (users_csv st) filteredUsers in
          if success then
            (set_users st file, json 200 (message "User deleted successfully"))
          else
            (set_users st file, json 500 (error "Failed to delete user"))
  end.

End Routes.

(** ** [parseFloat]

    The built-in of the language, after ECMA-262 (19.2.4): the argument
    is converted to a string, leading white space is dropped, the
    longest prefix that is a [StrDecimalLiteral] is read and its value
    rounded to a Number; NaN when there is none.  The value that is
    rounded is the exact one, as the engine of Node does (the standard
    lets an engine cut a literal after its twentieth significant
    digit). *)

Definition is_digit (c : ascii) : bool :=
  let n := nat_of_ascii c in ((48 <=? n) && (n <=? 57))%nat.

Definition digit_value (c : ascii) : N :=
  N.of_nat (nat_of_ascii c - 48).

(** The white space and the line terminators of the language among
    the code units below 256: TAB, LF, VT, FF, CR, SP and the
    no-break space U+00A0. *)
Definition is_space (c : ascii) : bool :=
  let n := nat_of_ascii c in
  (((9 <=? n) && (n <=? 13)) || (n =? 32) || (n =? 160))%nat.

Fixpoint trim_start (s : string) : string :=
  match s with
  | String c r => if is_space c then trim_start r else s
  | EmptyString => s
  end.

(** The longest run of digits at the head of [s], read in base 10 on
    top of [acc]: its value, its length and what follows it. *)
Fixpoint read_digits (s : string) (acc : N) : N * nat * string :=
  match s with
  | String c r =>
      if is_digit c then
        let '(v, n, rest) := read_digits r (10 * acc + digit_value c)%N in
        (v, S n, rest)
      else (acc, O, s)
  | EmptyString => (acc, O, s)
  end.

(** An [ExponentPart] at the head of [s], if there is a whole one: its
    value and what follows it; otherwise exponent 0 and [s] itself. *)
Definition read_exponent (s : string) : Z * string :=
  match s with
  | String c r =>
      if Ascii.eqb c "e" || Ascii.eqb c "E" then
        match r with
        | String sg r' =>
            if Ascii.eqb sg "+" then
              match read_digits r' 0 with
              | (_, O, _) => (0%Z, s)
              | (v, _, rest) => (Z.of_N v, rest)
              end
            else if Ascii.eqb sg "-" then
              match read_digits r' 0 with
              | (_, O, _) => (0%Z, s)
              | (v, _, rest) => ((- Z.of_N v)%Z, rest)
              end
            else
              match read_digits r 0 with
              | (_, O, _) => (0%Z, s)
              | (v, _, rest) => (Z.of_N v, rest)
              end
        | EmptyString => (0%Z, s)
        end
      else (0%Z, s)
  | EmptyString => (0%Z, s)
  end.

(** [s] without the prefix [p], when it has it. *)
Fixpoint strip_prefix (p s : string) : option string :=
  match p, s with
  | EmptyString, _ => Some s
  | String a p', String b s' => if Ascii.eqb a b then strip_prefix p' s' else None
  | String _ _, EmptyString => None
  end.

(** The longest [StrUnsignedDecimalLiteral] at the head of [s]:
    [Infinity], or digits with an optional fraction and exponent, or a
    fraction that starts with the point. *)
Definition read_unsigned (sg : bool) (s : string) : option (mvalue * string) :=
  match strip_prefix "Infinity" s with
  | Some rest => Some (Inf sg, rest)
  | None =>
      let '(ip, ni, r1) := read_digits s 0 in
      match strip_prefix "." r1 with
      | Some r2 =>
          let '(m, nf, r3) := read_digits r2 ip in
          if ((ni =? 0) && (nf =? 0))%nat then None
          else
            let '(x, rest) := read_exponent r3 in
            Some (Dec sg m (x - Z.of_nat nf), rest)
      | None =>
          if (ni =? 0)%nat then None
          else
            let '(x, rest) := read_exponent r1 in
            Some (Dec sg ip x, rest)
      end
  end.

(** The longest [StrDecimalLiteral] at the head of [s]: an optional
    sign and an unsigned literal. *)
Definition read_decimal (s : string) : option (mvalue * string) :=
  match s with
  | String c r =>
      if Ascii.eqb c "+" then read_unsigned false r
      else if Ascii.eqb c "-" then read_unsigned true r
      else read_unsigned false s
  | EmptyString => read_unsigned false s
  end.

Definition parseFloat (v : option string) : jsnum :=
  let inputString := match v with Some s => s | None => "undefined" end in
  match read_decimal (trim_start inputString) with
  | Some (x, _) => Number_of x
  | None => NaN
  end.

(** ** Sensor feed reader *)

(** [a.slice(-n)]: from index [max (length a - n) 0] to the end. *)
Definition slice_last {A} (n : nat) (a : list A) : list A :=
  skipn (length a - n) a.

(** One element of [processedFeeds]. *)
Definition process (f : feed) : jsval :=
  JObj [("timestamp", of_opt f.(created_at));
        ("entry_id", of_opt f.(entry_id));
        ("field1", JNum (or_zero (parseFloat f.(field1))));
        ("field2", JNum (or_zero (parseFloat f.(field2))));
        ("field3", JNum (or_zero (parseFloat f.(field3))))].

(** The object literal the handler builds for [latest]. *)
Definition latest_view (latest : jsval) : jsval :=
  JObj [("field1", get "field1" latest);
        ("field2", get "field2" latest);
        ("field3", get "field3" latest);
        ("timestamp", get "timestamp" latest)].

(** [GET /api/sensors], behind [isAuthenticated]. *)
Definition sensors : handler := fun e st rq =>
  let feeds := readCSV (feeds_csv st) in
  if (length feeds =? 0)%nat then
    (st, json 200 (JObj [("latest", JObj []);
                         ("history", JArr []);
                         ("recent", JArr [])]))
  else
    let processedFeeds := map process feeds in
    let latest := List.last processedFeeds JUndefined in
    let history := slice_last 20 processedFeeds in
    let recent := rev (slice_last 10 processedFeeds) in
    (st, json 200 (JObj [("latest", latest_view latest);
                         ("history", JArr history);
                         ("recent", JArr recent)])).

(** ** The application *)

Section App.
Context `{Bcrypt} `{Engine}.

(** The routing table, in the order of registration; what matches
    nothing falls to the 404 handler. *)
Definition app : handler := fun e st rq =>
  match target rq with
  | POST_register => register e st rq
  | POST_login => login e st rq
  | GET_logout => logout e st rq
  | GET_check_auth => check_auth e st rq
  | GET_sensors => guarded [isAuthenticated] sensors e st rq
  | GET_users => guarded [isAuthenticated; isAdmin] list_users e st rq
  | POST_users_add => guarded [isAuthenticated; isAdmin] add_user e st rq
  | PUT_users em => guarded [isAuthenticated; isAdmin] (update_role em) e st rq
  | DELETE_users em => guarded [isAuthenticated; isAdmin] (delete_user em) e st rq
  | Unmatched => (st, {| status := 404; payload := SendFile "public/index.html" |})
  end.

(** The seeded administrator. *)
Definition default_admin (e : env) : user :=
  mkUser "Admin User" "admin@example.com" (bcrypt_hash (salt e) "admin123" 10) "admin".

(** The callback of [app.listen]: seeds [users.csv] when it is absent
    or empty and creates an empty [feeds.csv] when it is absent. *)
Definition bootstrap (e : env) (st : server) : server :=
  let st1 :=
    match users_csv st with
    | None => set_users st (fst (writeCSV (write_ok e) None [default_admin e]))
    | Some users =>
        if (length users =? 0)%nat then
          set_users st (fst (writeCSV (write_ok e) (Some users) [default_admin e]))
        else st
    end in
  match feeds_csv st1 with
  | None => {| users_csv := users_csv st1; feeds_csv := Some [];
               sessions := sessions st1 |}
  | Some _ => st1
  end.

(** A run of the server: the requests are served one after the other,
    each in its own environment. *)
Fixpoint serve (st : server) (reqs : list (env * request)) : server * list response :=
  match reqs with
  | [] => (st, [])
  | (e, rq) :: rest =>
      let '(st1, r) := app e st rq in
      let '(st2, rs) := serve st1 rest in
      (st2, r :: rs)
  end.

End App.

(** A stand-in for [bcrypt], to run the handlers on concrete requests:
    the hash is the salt followed by a two-byte checksum of salt and
    password. *)
Module Demo.

Fixpoint checksum (s : string) (acc : N) : N :=
  match s with
  | String c r => checksum r ((31 * acc + N_of_ascii c) mod 65521)%N
  | EmptyString => acc
  end.

Definition digest (s pw : string) : string :=
  let n := checksum (String.append s pw) 7 in
  String (ascii_of_N (n / 256)) (String (ascii_of_N (n mod 256)) "").

Fixpoint salt_of (h : string) : string :=
  match h with
  | String c r => if Ascii.eqb c "$" then "" else String c (salt_of r)
  | EmptyString => ""
  end.

#[global] Instance demo_bcrypt : Bcrypt := {|
  bcrypt_hash := fun s pw cost => String.append s (String "$" (digest s pw));
  bcrypt_compare := fun pw h =>
    String.eqb h (String.append (salt_of h) (String "$" (digest (salt_of h) pw)))
|}.

(** A stand-in for the two conversions of the engine; no request
    below makes the handlers convert a number to its text or a text to
    a number, so that any two functions do. *)
#[global] Instance demo_engine : Engine := {|
  number_to_string := fun _ => "0";
  string_to_number := fun _ => NaN
|}.

(** A server started on an empty directory, and a few requests. *)
Definition env0 : env := mkEnv true "NaCl".

Definition fresh : server := mkServer None None ∅.

Definition booted : server := bootstrap env0 fresh.

Definition no_body : body := mkBody JUndefined JUndefined JUndefined JUndefined.

Definition admin_login : request :=
  mkRequest 1 POST_login
    (mkBody JUndefined (JStr "admin@example.com") (JStr "admin123") JUndefined).

Definition add_superuser : request :=
  mkRequest 1 POST_users_add
    (mkBody (JStr "Eve") (JStr "eve@example.com") (JStr "secret1") (JStr "superuser")).

Definition alice : user := mkUser "Alice" "alice@example.com" "NaCl$xx" "user".

(** A server whose store holds the seeded administrator and Alice, with
    the administrator logged in under cookie 1 and Alice under cookie 2. *)
Definition running : server :=
  mkServer (Some [default_admin env0; alice]) (Some [])
    (<[2 := mkSession "Alice" "alice@example.com" "user"]>
       (<[1 := mkSession "Admin User" "admin@example.com" "admin"]> ∅)).

(** A feed row and a directory with [n] of them. *)
Definition reading (i : nat) : feed :=
  mkFeed (Some "2024-01-01T00:00:00Z")
         (Some (String (ascii_of_nat (65 + i)) ""))
         (Some "23.5") (Some "41") (Some "7e-1").

Definition with_feeds (n : nat) : server :=
  mkServer (users_csv running) (Some (map reading (seq 0 n))) (sessions running).

Definition get_sensors : request := mkRequest 1 GET_sensors no_body.

(** A row whose first cell has text after the number, whose second cell
    is missing and whose third has white space in front. *)
Definition odd_reading : feed :=
  mkFeed (Some "2024-01-01T00:00:00Z") (Some "1") (Some "12abc") None (Some " 7.50").

(** A user whose cells need quoting in the file. *)
Definition pat : user :=
  mkUser (String "034" "Pat, Jr.") " pat@example.com "
         (String "a" (String "013" (String "010" "b"))) "admin".

Definition list_as_alice : request := mkRequest 2 GET_users no_body.

Definition delete_self_alice : request :=
  mkRequest 2 (DELETE_users "alice@example.com") no_body.

Definition delete_self_admin : request :=
  mkRequest 1 (DELETE_users "admin@example.com") no_body.

Definition register_again : request :=
  mkRequest 3 POST_register
    (mkBody (JStr "Mallory") (JStr "alice@example.com") (JStr "abcdef") JUndefined).

Definition register_again_short : request :=
  mkRequest 3 POST_register
    (mkBody (JStr "Mallory") (JStr "alice@example.com") (JStr "abc") JUndefined).

Definition register_bob : request :=
  mkRequest 3 POST_register
    (mkBody (JStr "Bob") (JStr "bob@example.com") (JStr "hunter22") (JStr "admin")).

Definition login_unknown : request :=
  mkRequest 3 POST_login
    (mkBody JUndefined (JStr "nobody@example.com") (JStr "whatever") JUndefined).

Definition login_wrong : request :=
  mkRequest 3 POST_login
    (mkBody JUndefined (JStr "alice@example.com") (JStr "not-the-password") JUndefined).

End Demo.

(** ** The CSV codec

    [readCSV] and [writeCSV] hand the text of the file to Papa Parse, a
    library outside the repository.  The module follows what the library
    does with the options that the two helpers pass.
    - [Papa.unparse(data, {columns, header: true})] writes nothing for
      an empty sequence; otherwise the header and one line per record,
      joined by CRLF, the cells of a line joined by commas.  A cell is
      quoted when it holds a quote, a comma, a CR or an LF, or starts or
      ends with a space; inside the quotes every quote is doubled.
    - [Papa.parse(text, {header: true, skipEmptyLines: true})] guesses
      the delimiter and the line ending.  On a text written by
      [unparse] under one of the two schemas the guesses are the comma
      (every line has the same number of cells, more than one, under
      the comma, and the header is a single cell under any other
      candidate) and CRLF (every CR outside quotes is followed by an
      LF); the module reads with these two.  The rows made of a single
      empty cell are dropped, the first row left is the header, and the
      others become records under it.
    The recovery of the library from misplaced quotes is not followed:
    a quote that closes a cell and is followed by something else than a
    quote, a comma or a line end is kept as text.  A character of the
    file is an [ascii]; the encoding of the file is not modelled. *)
Module Csv.

Definition text := list ascii.

Definition quote : ascii := "034"%char.
Definition comma : ascii := ","%char.
Definition CR : ascii := "013"%char.
Definition LF : ascii := "010"%char.
Definition space : ascii := " "%char.

(** A record as [Papa.parse] returns it: the cells under their column. *)
Definition record := list (string * string).

(** *** Writing *)

Definition is_bad (c : ascii) : bool :=
  Ascii.eqb c quote || Ascii.eqb c comma || Ascii.eqb c CR || Ascii.eqb c LF.

Definition needs_quotes (cell : text) : bool :=
  existsb is_bad cell
  || match cell with
     | c :: _ => Ascii.eqb c space
     | [] => false
     end
  || match rev cell with
     | c :: _ => Ascii.eqb c space
     | [] => false
     end.

(** Every quote doubled. *)
Fixpoint escape (cell : text) : text :=
  match cell with
  | [] => []
  | c :: r => if Ascii.eqb c quote then quote :: quote :: escape r else c :: escape r
  end.

(** [safe] *)
Definition safe (cell : string) : text :=
  let t := list_ascii_of_string cell in
  if needs_quotes t then quote :: escape t ++ [quote] else t.

(** The pieces joined with [sep] between them. *)
Fixpoint join (sep : text) (pieces : list text) : text :=
  match pieces with
  | [] => []
  | [p] => p
  | p :: rest => p ++ sep ++ join sep rest
  end.

Definition line (cells : list string) : text := join [comma] (map safe cells).

(** [row[col]], the empty string when the record lacks the column. *)
Definition cell_of (r : record) (col : string) : string :=
  match find (fun kv => String.eqb (fst kv) col) r with
  | Some kv => snd kv
  | None => ""
  end.

(** [Papa.unparse(data, {columns, header: true})] *)
Definition unparse (columns : list string) (data : list record) : text :=
  match data with
  | [] => []
  | _ => join [CR; LF] (line columns :: map (fun r => line (map (cell_of r) columns)) data)
  end.

(** *** Reading *)

Inductive mode :=
| FieldStart   (* nothing of the cell read yet *)
| Unquoted     (* inside a cell that did not open with a quote *)
| Quoted       (* inside a quoted cell *)
| QuoteSeen.   (* inside a quoted cell, just after a quote *)

Definition cell_text (acc : text) : string := string_of_list_ascii (rev acc).

(** [scan m acc row rows s]: the rows of [s], read in mode [m] with the
    cell [acc], the row [row] (both reversed) and the rows [rows]
    (reversed) already read. *)
Fixpoint scan (m : mode) (acc : text) (row : list string)
  (rows : list (list string)) (s : text) : list (list string) :=
  match s with
  | [] => rev (rev (cell_text acc :: row) :: rows)
  | c :: r =>
      match m with
      | Quoted =>
          if Ascii.eqb c quote then scan QuoteSeen acc row rows r
          else scan Quoted (c :: acc) row rows r
      | _ =>
          if Ascii.eqb c quote then
            match m with
            | FieldStart => scan Quoted [] row rows r
            | QuoteSeen => scan Quoted (quote :: acc) row rows r
            | _ => scan Unquoted (c :: acc) row rows r
            end
          else if Ascii.eqb c comma then
            scan FieldStart [] (cell_text acc :: row) rows r
          else
            match r with
            | c' :: r' =>
                if Ascii.eqb c CR && Ascii.eqb c' LF then
                  scan FieldStart [] [] (rev (cell_text acc :: row) :: rows) r'
                else
                  match m with
                  | QuoteSeen => scan Quoted (c :: quote :: acc) row rows r
                  | _ => scan Unquoted (c :: acc) row rows r
                  end
            | [] =>
                match m with
                | QuoteSeen => scan Quoted (c :: quote :: acc) row rows r
                | _ => scan Unquoted (c :: acc) row rows r
                end
            end
      end
  end.

(** [skipEmptyLines: true] drops the rows made of one empty cell. *)
Definition is_empty_line (row : list string) : bool :=
  match row with
  | [cell] => String.eqb cell ""
  | _ => false
  end.

(** The record of a row under the header; cells beyond the header go
    to [__parsed_extra], which no route reads, and are left out. *)
Definition to_record (header row : list string) : record := combine header row.

(** [Papa.parse(text, {header: true, skipEmptyLines: true})], its
    [data]. *)
Definition parse (s : text) : list record :=
  match List.filter (fun row => negb (is_empty_line row)) (scan FieldStart [] [] [] s) with
  | [] => []
  | header :: rows => map (to_record header) rows
  end.

(** *** The two schemas *)

Definition USERS_COLUMNS : list string := ["name"; "email"; "password"; "role"].
Definition FEEDS_COLUMNS : list string :=
  ["created_at"; "entry_id"; "field1"; "field2"; "field3"].

(** A user as the record that [users.push] appends and [writeCSV]
    receives. *)
Definition of_user (u : user) : record :=
  [("name", u.(name)); ("email", u.(email));
   ("password", u.(password)); ("role", u.(role))].

(** The content of [users.csv] after [writeCSV(USERS_CSV, users, ...)]. *)
Definition save_users (users : list user) : text :=
  unparse USERS_COLUMNS (map of_user users).

(** A parsed row of [users.csv] with its four cells, as the routes read
    it ([u.name], [u.email], [u.password], [u.role]). *)
Definition to_user (r : record) : user :=
  mkUser (cell_of r "name") (cell_of r "email") (cell_of r "password") (cell_of r "role").

(** The records that [readCSV(USERS_CSV)] yields for a text. *)
Definition load_users (s : text) : list user := map to_user (parse s).

(** A record with one cell for each column, in the order of the schema. *)
Definition conforms (columns : list string) (r : record) : Prop :=
  map fst r = columns.

(** What ends a cell: the end of the text, a comma or a line end. *)
Definition at_field_end (tl : text) : bool :=
  match tl with
  | [] => true
  | c :: r =>
      Ascii.eqb c comma
      || (Ascii.eqb c CR && match r with c' :: _ => Ascii.eqb c' LF | [] => false end)
  end.

(** What ends a line: the end of the text or a line end. *)
Definition at_line_end (tl : text) : bool :=
  match tl with
  | [] => true
  | c :: r => Ascii.eqb c CR && match r with c' :: _ => Ascii.eqb c' LF | [] => false end
  end.

(** The rows read once the row [row] (reversed) is complete and [tl]
    remains. *)
Definition row_done (row : list string) (rows : list (list string)) (tl : text)
  : list (list string) :=
  match tl with
  | _ :: _ :: r => scan FieldStart [] [] (rev row :: rows) r
  | _ => rev (rev row :: rows)
  end.

End Csv.

(** ** Vocabulary of the properties *)

(** The routes registered behind [isAuthenticated, isAdmin], with the
    handler that follows the two gates. *)
Definition admin_handler `{Bcrypt} `{Engine} (r : route) : option handler :=
  match r with
  | GET_users => Some list_users
  | POST_users_add => Some add_user
  | PUT_users em => Some (update_role em)
  | DELETE_users em => Some (delete_user em)
  | _ => None
  end.

(** The two ways a login with both credentials present fails, the
    password being a string: no record has the email (the email of
    the request is any value that passes [!email]), or the hash of the
    record does not match the password. *)
Inductive login_failure `{Bcrypt} (st : server) (rq : request) : Prop :=
| NoSuchUser pw :
    js_truthy (b_email (req_body rq)) = true ->
    nonempty (b_password (req_body rq)) = Some pw ->
    find (fun u => strict_eq u.(email) (b_email (req_body rq)))
         (readCSV (users_csv st)) = None ->
    login_failure st rq
| WrongPassword em pw u :
    nonempty (b_email (req_body rq)) = Some em ->
    nonempty (b_password (req_body rq)) = Some pw ->
    find (fun u => String.eqb u.(email) em) (readCSV (users_csv st)) = Some u ->
    bcrypt_compare pw u.(password) = false ->
    login_failure st rq.

(** A field as the pages send it: a string, or nothing. *)
Definition textual (v : jsval) : Prop := v = JUndefined \/ exists s, v = JStr s.

(** A value that passes [!v] and is not a string: a number other than
    0, [true], an array, an object. *)
Definition truthy_non_string (v : jsval) : Prop :=
  js_truthy v = true /\ forall s, v <> JStr s.

(** A request that is refused: the server is as before and the answer
    is an error of status 400 to 500. *)
Definition refused (st : server) (r : server * response) : Prop :=
  exists c m, r = (st, json c (error m)) /\ 400 <= c <= 500.

(** The role enumeration of the data model. *)
Definition valid_role (r : string) : Prop := r = "user" \/ r = "admin".

Definition roles_ok (st : server) : Prop :=
  Forall (fun u => valid_role u.(role)) (readCSV (users_csv st)).

(** The store holds a record with this email. *)
Definition registered (em : string) (st : server) : Prop :=
  exists u, In u (readCSV (users_csv st)) /\ u.(email) = em.

(** What a request does to the server and how it is answered: it is
    refused, or it is one of the ten that follow. *)
Section Outcomes.
Context `{Bcrypt} `{Engine}.
Variables (e : env) (st : server) (rq : request).

Inductive outcome : server * response -> Prop :=
| O_refused c m :
    400 <= c <= 500 ->
    outcome (st, json c (error m))
| O_unmatched :
    target rq = Unmatched ->
    outcome (st, {| status := 404; payload := SendFile "public/index.html" |})
| O_check_auth :
    target rq = GET_check_auth ->
    outcome (check_auth e st rq)
| O_logout :
    target rq = GET_logout ->
    outcome (logout e st rq)
| O_sensors su :
    target rq = GET_sensors ->
    sessions st !! cookie rq = Some su ->
    outcome (sensors e st rq)
| O_list_users su :
    target rq = GET_users ->
    sessions st !! cookie rq = Some su -> s_role su = "admin" ->
    outcome (list_users e st rq)
| O_login em pw u :
    target rq = POST_login ->
    nonempty (b_email (req_body rq)) = Some em ->
    nonempty (b_password (req_body rq)) = Some pw ->
    find (fun u => String.eqb u.(email) em) (readCSV (users_csv st)) = Some u ->
    bcrypt_compare pw u.(password) = true ->
    outcome (set_sessions st
               (<[cookie rq := mkSession u.(name) u.(email) u.(role)]> (sessions st)),
             json 200 (JObj [("message", JStr "Login successful");
                             ("user", public_user u.(name) u.(email) u.(role))]))
| O_register n em pw :
    target rq = POST_register ->
    cell_of (b_name (req_body rq)) = Some n ->
    cell_of (b_email (req_body rq)) = Some em ->
    b_password (req_body rq) = JStr pw ->
    js_truthy (b_name (req_body rq)) = true ->
    js_truthy (b_email (req_body rq)) = true ->
    6 <= String.length pw ->
    existsb (fun u => strict_eq u.(email) (b_email (req_body rq)))
      (readCSV (users_csv st)) = false ->
    write_ok e = true ->
    outcome (set_users st (Some (readCSV (users_csv st)
                                   ++ [mkUser n em (bcrypt_hash (salt e) pw 10) "user"])),
             json 200 (message "Registration successful"))
| O_add su n em pw r :
    target rq = POST_users_add ->
    sessions st !! cookie rq = Some su -> s_role su = "admin" ->
    cell_of (b_name (req_body rq)) = Some n ->
    cell_of (b_email (req_body rq)) = Some em ->
    b_password (req_body rq) = JStr pw ->
    cell_of (js_or (b_role (req_body rq)) (JStr "user")) = Some r ->
    js_truthy (b_name (req_body rq)) = true ->
    js_truthy (b_email (req_body rq)) = true ->
    6 <= String.length pw ->
    existsb (fun u => strict_eq u.(email) (b_email (req_body rq)))
      (readCSV (users_csv st)) = false ->
    write_ok e = true ->
    outcome (set_users st (Some (readCSV (users_csv st)
                                   ++ [mkUser n em (bcrypt_hash (salt e) pw 10) r])),
             json 200 (message "User added successfully"))
| O_update su em r users' :
    target rq = PUT_users em ->
    sessions st !! cookie rq = Some su -> s_role su = "admin" ->
    b_role (req_body rq) = JStr r ->
    valid_role r ->
    set_role em r (readCSV (users_csv st)) = Some users' ->
    write_ok e = true ->
    outcome (set_users st (Some users'),
             json 200 (message "User role updated successfully"))
| O_delete su em :
    target rq = DELETE_users em ->
    sessions st !! cookie rq = Some su -> s_role su = "admin" ->
    s_email su <> em ->
    registered em st ->
    write_ok e = true ->
    outcome (set_users st
               (Some (List.filter (fun u => negb (String.eqb u.(email) em))
                        (readCSV (users_csv st)))),
             json 200 (message "User deleted successfully")).

End Outcomes.

(** The value given to [res.json], [undefined] for a file. *)
Definition body_of (r : response) : jsval :=
  match payload r with
  | Json v => v
  | SendFile _ => JUndefined
  end.

Definition items_of (v : jsval) : list jsval :=
  match v with
  | JArr items => items
  | _ => []
  end.

(** The request with another [role] in its body. *)
Definition with_role (r : jsval) (rq : request) : request :=
  {| cookie := cookie rq; target := target rq;
     req_body := {| b_name := b_name (req_body rq);
                    b_email := b_email (req_body rq);
                    b_password := b_password (req_body rq);
                    b_role := r |} |}.

(** The input validation of registration: the three fields pass [!v]
    (a string does when it is not empty) and the length of the
    password is not below six. *)
Definition valid_registration `{Engine} (b : body) : Prop :=
  js_truthy (b_name b) = true
  /\ js_truthy (b_email b) = true
  /\ js_truthy (b_password b) = true
  /\ length_below (b_password b) 6 = Some false.

(** [k] is a key of [v] or of a value inside it. *)
Fixpoint has_key (k : string) (v : jsval) : bool :=
  match v with
  | JArr items =>
      (fix any (l : list jsval) : bool :=
         match l with
         | [] => false
         | x :: r => has_key k x || any r
         end) items
  | JObj fs =>
      (fix any (l : list (string * jsval)) : bool :=
         match l with
         | [] => false
         | (k', x) :: r => String.eqb k' k || has_key k x || any r
         end) fs
  | _ => false
  end.

Definition reply_has_key (k : string) (r : reply) : bool :=
  match r with
  | Json v => has_key k v
  | SendFile _ => false
  end.

(** The keys that the handlers write. *)
Definition written_keys : list string :=
  ["name"; "email"; "role"; "users"; "error"; "message"; "user"; "authenticated";
   "latest"; "history"; "recent"; "field1"; "field2"; "field3"; "timestamp";
   "entry_id"].

(** Two records that differ at most by their role. *)
Definition same_identity (u u0 : user) : Prop :=
  u.(name) = u0.(name) /\ u.(email) = u0.(email) /\ u.(password) = u0.(password).

(** The store with every password cell blanked. *)
Definition scrub_user (u : user) : user := mkUser u.(name) u.(email) "" u.(role).

Definition scrub (st : server) : server :=
  set_users st (option_map (map scrub_user) (users_csv st)).

(** The request with another [password] in its body. *)
Definition with_password (pw : jsval) (rq : request) : request :=
  {| cookie := cookie rq; target := target rq;
     req_body := {| b_name := b_name (req_body rq);
                    b_email := b_email (req_body rq);
                    b_password := pw;
                    b_role := b_role (req_body rq) |} |}.

(** *** Decimal literals

    The [StrDecimalLiteral]s other than the infinities, as the grammar
    builds them: an optional sign, the digits before the point, the
    point with the digits after it, the exponent with its marker, its
    optional sign and its digits. *)
Record literal := mkLiteral {
  l_sign : option bool;
  l_int : string;
  l_frac : option string;
  l_exp : option (ascii * option bool * string)
}.

Fixpoint all_digits (s : string) : bool :=
  match s with
  | String c r => is_digit c && all_digits r
  | EmptyString => true
  end.

Definition well_formed (l : literal) : Prop :=
  all_digits (l_int l) = true
  /\ match l_frac l with
     | Some fp => all_digits fp = true /\ (l_int l <> "" \/ fp <> "")
     | None => l_int l <> ""
     end
  /\ match l_exp l with
     | Some (marker, _, ds) =>
         (marker = "e"%char \/ marker = "E"%char) /\ all_digits ds = true /\ ds <> ""
     | None => True
     end.

Definition render_sign (sg : option bool) : string :=
  match sg with
  | None => ""
  | Some false => "+"
  | Some true => "-"
  end.

Definition fraction_text (f : option string) : string :=
  match f with
  | Some fp => "." +:+ fp
  | None => ""
  end.

Definition fraction_digits (f : option string) : string :=
  match f with
  | Some fp => fp
  | None => ""
  end.

Definition exponent_text (x : option (ascii * option bool * string)) : string :=
  match x with
  | Some (marker, sg, ds) => String marker (render_sign sg +:+ ds)
  | None => ""
  end.

(** The digits read in base 10, on top of [acc]. *)
Fixpoint digits_value (ds : string) (acc : N) : N :=
  match ds with
  | String c r => digits_value r (10 * acc + digit_value c)%N
  | EmptyString => acc
  end.

Definition is_negative (sg : option bool) : bool :=
  match sg with
  | Some true => true
  | _ => false
  end.

Definition exponent_value (x : option (ascii * option bool * string)) : Z :=
  match x with
  | Some (_, sg, ds) =>
      if is_negative sg then (- Z.of_N (digits_value ds 0))%Z
      else Z.of_N (digits_value ds 0)
  | None => 0%Z
  end.

(** The text of the literal without its sign, and with it. *)
Definition unsigned_text (l : literal) : string :=
  l_int l +:+ fraction_text (l_frac l) +:+ exponent_text (l_exp l).

Definition render (l : literal) : string :=
  render_sign (l_sign l) +:+ unsigned_text l.

(** The mathematical value of the literal: the digits of both sides of
    the point, scaled by the exponent less the number of decimals. *)
Definition literal_value (l : literal) : mvalue :=
  Dec (is_negative (l_sign l))
      (digits_value (l_int l +:+ fraction_digits (l_frac l)) 0)
      (exponent_value (l_exp l) - Z.of_nat (String.length (fraction_digits (l_frac l)))).

Fixpoint all_spaces (s : string) : bool :=
  match s with
  | String c r => is_space c && all_spaces r
  | EmptyString => true
  end.

(** What does not begin with a digit. *)
Definition no_digit_ahead (s : string) : bool :=
  match s with
  | String c _ => negb (is_digit c)
  | EmptyString => true
  end.

(** The first character of [s], when there is one, is not [c]. *)
Definition not_ahead (c : ascii) (s : string) : bool :=
  match s with
  | String x _ => negb (Ascii.eqb c x)
  | EmptyString => true
  end.

(** What follows a literal without continuing it: nothing, or a
    character that is neither a digit, nor the point, nor an exponent
    marker. *)
Definition stops (rest : string) : bool :=
  match rest with
  | String c _ =>
      negb (is_digit c || Ascii.eqb c "." || Ascii.eqb c "e" || Ascii.eqb c "E")
  | EmptyString => true
  end.

(** The string, once an optional sign is removed, begins with
    [Infinity], with a digit, or with the point and a digit. *)
Definition begins_literal (s : string) : bool :=
  let t := match s with
           | String c r => if Ascii.eqb c "+" || Ascii.eqb c "-" then r else s
           | EmptyString => s
           end in
  match strip_prefix "Infinity" t with
  | Some _ => true
  | None =>
      match t with
      | String c r =>
          is_digit c
          || (Ascii.eqb c "."
              && match r with String d _ => is_digit d | EmptyString => false end)
      | EmptyString => false
      end
  end.

(** Every character of [s] passes [p]. *)
Fixpoint all_chars (p : ascii -> bool) (s : string) : bool :=
  match s with
  | String c r => p c && all_chars p r
  | EmptyString => true
  end.

(** The characters a decimal literal with white space in front is made
    of. *)
Definition literal_char (c : ascii) : bool :=
  is_space c || is_digit c || Ascii.eqb c "+" || Ascii.eqb c "-"
  || Ascii.eqb c "." || Ascii.eqb c "e" || Ascii.eqb c "E".

(** [s] is a decimal literal, white space in front apart. *)
Definition decimal_literal (s : string) : Prop :=
  exists ws l, all_spaces ws = true /\ well_formed l /\ s = ws +:+ render l.

(** What the client reads for [x || 0]: the number when it is finite
    and not a zero, 0 for a zero and for NaN, [null] for an infinity. *)
Definition sent (x : jsnum) : jsval :=
  match x with
  | S754_finite _ _ _ => JNum x
  | S754_infinity _ => JNull
  | S754_zero _ | S754_nan => JNum zero
  end.

(** An element of an array as the client reads it. *)
Definition wire_item (x : jsval) : jsval :=
  match x with
  | JUndefined => JNull
  | _ => wire x
  end.

(** The three numeric fields of a processed reading. *)
Definition sensor_fields (f : feed) : list (string * option string) :=
  [("field1", f.(field1)); ("field2", f.(field2)); ("field3", f.(field3))].

(** *** Stores, sessions and requests *)

(** The emails of the store, in order. *)
Definition emails (st : server) : list string :=
  map email (readCSV (users_csv st)).

(** The routes that write [users.csv]. *)
Definition writes_users (r : route) : bool :=
  match r with
  | POST_register | POST_users_add | PUT_users _ | DELETE_users _ => true
  | _ => false
  end.

(** The message of the 500 that such a route answers when [writeCSV]
    returns [false]. *)
Definition failure_message (r : route) : string :=
  match r with
  | POST_register => "Failed to save user"
  | POST_users_add => "Failed to add user"
  | PUT_users _ => "Failed to update user"
  | DELETE_users _ => "Failed to delete user"
  | _ => ""
  end.

(** The routes behind [isAuthenticated]. *)
Definition needs_session (r : route) : bool :=
  match r with
  | GET_sensors | GET_users | POST_users_add | PUT_users _ | DELETE_users _ => true
  | _ => false
  end.

(** A request without body. *)
Definition bare (c : nat) (r : route) : request :=
  mkRequest c r (mkBody JUndefined JUndefined JUndefined JUndefined).

(** The records other than those of email [em], in order. *)
Definition without (em : string) (users : list user) : list user :=
  List.filter (fun u => negb (String.eqb u.(email) em)) users.

(** The login request with these credentials. *)
Definition login_request (c : nat) (em pw : string) : request :=
  mkRequest c POST_login (mkBody JUndefined (JStr em) (JStr pw) JUndefined).

(** ** The pages

    The scripts of the pages ([register.js], [login.js], [admin.js],
    [dashboard.js]) as far as they decide what is sent and what is
    shown; the writes to the document are the results of the
    functions.  A rejected [fetch] (the [catch] branches reporting a
    network error) is not modelled. *)

(** [response.ok] *)
Definition ok (r : response) : bool :=
  ((200 <=? status r) && (status r <=? 299))%nat.

(** What a submit handler does: show an error and send nothing, or
    send the body. *)
Inductive submission :=
| ShowError (msg : string)
| Send (b : body).

(** The submit handler of [registerForm], up to the [fetch]. *)
Definition registerForm_submit (name_ email_ password_ confirmPassword : string)
  : submission :=
  if negb (String.eqb password_ confirmPassword) then
    ShowError "Passwords do not match!"
  else if (String.length password_ <? 6)%nat then
    ShowError "Password must be at least 6 characters long."
  else
    Send (mkBody (JStr name_) (JStr email_) (JStr password_) JUndefined).

(** What the page shows once the answer is there: the success message
    (and the redirect to the login page), or the error. *)
Inductive shown :=
| Success (msg : string)
| Failure (msg : jsval).

Definition registerForm_show (r : response) : shown :=
  if ok r then Success "Registration successful! Redirecting to login..."
  else Failure (js_or (get "error" (body_of r))
                      (JStr "Registration failed. Please try again.")).

(** Where a page goes after its check. *)
Inductive navigation :=
| Stay
| Goto (page : string)
| AlertGoto (msg page : string).

(** [checkAdminAuth] of [admin.js] on the answer of [/api/check-auth]:
    an answer that is not JSON, or whose [user] has no properties to
    read, throws into the [catch] branch. *)
Definition checkAdminAuth (r : response) : navigation :=
  match payload r with
  | SendFile _ => Goto "index.html"
  | Json data =>
      if negb (ok r) || negb (js_truthy (get "authenticated" data)) then
        Goto "index.html"
      else
        match get "user" data with
        | JUndefined | JNull => Goto "index.html"
        | user =>
            if negb (is_string "admin" (get "role" user)) then
              AlertGoto "Access denied. Admin privileges required." "dashboard.html"
            else Stay
        end
  end.

(** [fetchUsers]: the new value of the global [users], when the answer
    is ok. *)
Definition fetchUsers (r : response) : option jsval :=
  if ok r then Some (get "users" (body_of r)) else None.

(** The three counters that [updateStats] writes. *)
Record stats := mkStats {
  totalUsers : Z;
  totalAdmins : Z;
  totalRegular : Z
}.

Definition updateStats (users : list jsval) : stats :=
  let totalUsers := Z.of_nat (length users) in
  let totalAdmins :=
    Z.of_nat (length (List.filter (fun u => is_string "admin" (get "role" u)) users)) in
  let totalRegular := (totalUsers - totalAdmins)%Z in
  mkStats totalUsers totalAdmins totalRegular.

(** [toggleRole(email, currentRole)]: the role it asks for, and the
    request it sends once the dialog is confirmed.  The path parameter
    that Express decodes is the email that [encodeURIComponent]
    encoded. *)
Definition newRole (currentRole : string) : string :=
  if String.eqb currentRole "admin" then "user" else "admin".

(** The emails that reach a route [/api/users/:email] as its
    parameter: the URL of an empty email has no segment for [:email],
    and the segments [.] and [..] are resolved away before the
    request leaves the page. *)
Definition path_segment (s : string) : Prop := s <> "" /\ s <> "." /\ s <> "..".

Definition toggleRole (c : nat) (email_ currentRole : string) : request :=
  mkRequest c (PUT_users email_)
    (mkBody JUndefined JUndefined JUndefined (JStr (newRole currentRole))).

(** [deleteUser(email)]: the request it sends once confirmed. *)
Definition deleteUser (c : nat) (email_ : string) : request :=
  mkRequest c (DELETE_users email_) (mkBody JUndefined JUndefined JUndefined JUndefined).

(** The key, when the cell is there. *)
Definition key_if (o : option string) (k : string) : list string :=
  match o with
  | Some _ => [k]
  | None => []
  end.

(** A finite number, or [null]. *)
Definition finite_or_null (v : jsval) : Prop :=
  v = JNull \/ exists x, v = JNum x /\ is_finite x = true.

(** The row of the reading [f] as the client reads it: the keys
    [timestamp] and [entry_id], each of them when the row of the file
    has the cell, with the text of the cell; then the three fields,
    in this order, each a finite number or [null]. *)
Definition sensor_row (f : feed) (v : jsval) : Prop :=
  keys v = key_if f.(created_at) "timestamp" ++ key_if f.(entry_id) "entry_id"
           ++ ["field1"; "field2"; "field3"]
  /\ get "timestamp" v = of_opt f.(created_at)
  /\ get "entry_id" v = of_opt f.(entry_id)
  /\ forall k, In k ["field1"; "field2"; "field3"] -> finite_or_null (get k v).

(** [latest] for the reading [f] as the client reads it: the three
    fields, then [timestamp] when the row has the cell. *)
Definition sensor_latest (f : feed) (v : jsval) : Prop :=
  keys v = ["field1"; "field2"; "field3"] ++ key_if f.(created_at) "timestamp"
  /\ get "timestamp" v = of_opt f.(created_at)
  /\ forall k, In k ["field1"; "field2"; "field3"] -> finite_or_null (get k v).

(** More requests on the server of [Demo]. *)
Module Scenes.

Definition env_fail : env := mkEnv false "NaCl".

Definition admin_session : session_user :=
  mkSession "Admin User" "admin@example.com" "admin".

Definition alice_session : session_user :=
  mkSession "Alice" "alice@example.com" "user".

Definition promote_alice : request :=
  mkRequest 1 (PUT_users "alice@example.com")
    (mkBody JUndefined JUndefined JUndefined (JStr "admin")).

Definition demote_alice : request :=
  mkRequest 1 (PUT_users "alice@example.com")
    (mkBody JUndefined JUndefined JUndefined (JStr "user")).

Definition delete_alice : request := deleteUser 1 "alice@example.com".

Definition logout_alice : request := bare 2 GET_logout.

Definition carol : body :=
  mkBody (JStr "Carol") (JStr "carol@example.com") (JStr "s3cret!") JUndefined.

(** Two logins whose password is the number 123456, under the email
    of the seeded administrator and under an email without account. *)
Definition login_admin_number : request :=
  mkRequest 7 POST_login
    (mkBody JUndefined (JStr "admin@example.com") (JNum (of_Z 123456)) JUndefined).

Definition login_nobody_number : request :=
  mkRequest 7 POST_login
    (mkBody JUndefined (JStr "nobody@example.com") (JNum (of_Z 123456)) JUndefined).

(** A registration under Alice's email whose password is an object
    with a [length] that cannot be converted to a number. *)
Definition register_again_object : request :=
  mkRequest 3 POST_register
    (mkBody (JStr "Mallory") (JStr "alice@example.com")
       (JObj [("length", JObj [("toString", JNum (of_nat 1))])]) JUndefined).

(** A registration whose email is an array of one string. *)
Definition register_array : request :=
  mkRequest 3 POST_register
    (mkBody (JStr "Mallory") (JArr [JStr "m@example.com"]) (JStr "abcdef") JUndefined).

(** The login with the same email and password. *)
Definition login_array : request :=
  mkRequest 3 POST_login
    (mkBody JUndefined (JArr [JStr "m@example.com"]) (JStr "abcdef") JUndefined).

(** The server of [Demo] with one feed row, the odd one. *)
Definition odd_feed : server :=
  mkServer (users_csv Demo.running) (Some [Demo.odd_reading]) (sessions Demo.running).

End Scenes.

(* PROPERTIES *)

(** * Properties *)

(** ** Access control *)

Section AccessControl.
Context `{Bcrypt} `{Engine}.

Lemma app_admin_route e st rq h :
  admin_handler (target rq) = Some h ->
  app e st rq = guarded [isAuthenticated; isAdmin] h e st rq.
Proof.
  unfold app, admin_handler.
  destruct (target rq); intros Heq; inversion Heq; reflexivity.
Qed.

Lemma guarded_no_session e st rq h :
  sessions st !! cookie rq = None ->
  guarded [isAuthenticated; isAdmin] h e st rq
  = (st, json 401 (error "Not authenticated")).
Proof. intros Hs. simpl. rewrite Hs. reflexivity. Qed.

Lemma guarded_not_admin e st rq h u :
  sessions st !! cookie rq = Some u ->
  s_role u <> "admin" ->
  guarded [isAuthenticated; isAdmin] h e st rq
  = (st, json 403 (error "Admin privileges required")).
Proof.
  intros Hs Hr. simpl. rewrite Hs. simpl.
  destruct (String.eqb_spec (s_role u) "admin") as [Heq | _]; [contradiction | reflexivity].
Qed.

Lemma guarded_admin e st rq h u :
  sessions st !! cookie rq = Some u ->
  s_role u = "admin" ->
  guarded [isAuthenticated; isAdmin] h e st rq = h e st rq.
Proof.
  intros Hs Hr. simpl. rewrite Hs. simpl. rewrite Hr. reflexivity.
Qed.

(** C7. On every route registered behind the two gates: without a
    session the answer is 401 "Not authenticated"; with a session
    whose role is not [admin] it is 403 "Admin privileges required";
    in both cases nothing changes.  The verdict is taken from the
    session alone: whatever [users.csv] holds, a session with role
    [admin] reaches the handler and any other session is refused; and
    a role update leaves every session as it was. *)
Theorem admin_routes_gated e st rq h :
  admin_handler (target rq) = Some h ->
  (sessions st !! cookie rq = None ->
     app e st rq = (st, json 401 (error "Not authenticated")))
  /\ (forall u, sessions st !! cookie rq = Some u -> s_role u <> "admin" ->
        app e st rq = (st, json 403 (error "Admin privileges required")))
  /\ (forall u file, sessions st !! cookie rq = Some u ->
        app e (set_users st file) rq
        = if String.eqb (s_role u) "admin" then h e (set_users st file) rq
          else (set_users st file, json 403 (error "Admin privileges required")))
  /\ (forall em, target rq = PUT_users em ->
        sessions (fst (app e st rq)) = sessions st).
Proof.
  intros Hh. rewrite (app_admin_route _ _ _ _ Hh).
  split; [| split; [| split]].
  - apply guarded_no_session.
  - intros u. apply guarded_not_admin.
  - intros u file Hs.
    rewrite (app_admin_route e (set_users st file) rq h Hh).
    destruct (String.eqb_spec (s_role u) "admin") as [Heq | Hne].
    + apply (guarded_admin _ _ _ _ u); [exact Hs | exact Heq].
    + apply (guarded_not_admin _ _ _ _ u); [exact Hs | exact Hne].
  - intros em Ht. rewrite Ht in Hh. simpl in Hh. inversion Hh; subst h.
    simpl. destruct (sessions st !! cookie rq) as [u |]; [| reflexivity].
    simpl. destruct (String.eqb (s_role u) "admin"); [| reflexivity].
    unfold update_role.
    destruct (js_to_string _); [| reflexivity].
    destruct (nonempty (b_role (req_body rq))) as [r |]; [| reflexivity].
    destruct (negb _); [reflexivity |].
    destruct (set_role em r _); [| reflexivity].
    unfold writeCSV. destruct (write_ok e); reflexivity.
Qed.

End AccessControl.

(** ** Login *)

Section Login.
Context `{Bcrypt} `{Engine}.

Lemma nonempty_text v s :
  nonempty v = Some s -> v = JStr s /\ js_truthy v = true.
Proof.
  destruct v as [| | b | x | t | l | fs]; try discriminate. cbn [nonempty js_truthy].
  destruct (String.eqb t ""); [discriminate |].
  intros Heq. inversion Heq; subst. split; reflexivity.
Qed.

(** The handler on a request whose credentials are non-empty
    strings. *)
Lemma login_text e st rq em pw :
  nonempty (b_email (req_body rq)) = Some em ->
  nonempty (b_password (req_body rq)) = Some pw ->
  login e st rq
  = match find (fun u => String.eqb u.(email) em) (readCSV (users_csv st)) with
    | None => (st, json 401 (error "Invalid email or password"))
    | Some user =>
        if negb (bcrypt_compare pw user.(password)) then
          (st, json 401 (error "Invalid email or password"))
        else
          (set_sessions st
             (<[cookie rq := mkSession user.(name) user.(email) user.(role)]> (sessions st)),
           json 200 (JObj [("message", JStr "Login successful");
                           ("user", public_user user.(name) user.(email) user.(role))]))
    end.
Proof.
  intros He Hp. destruct (nonempty_text _ _ He) as [Hev Het].
  destruct (nonempty_text _ _ Hp) as [Hpv Hpt].
  unfold login. rewrite Het, Hpt. cbn [negb orb]. rewrite Hev, Hpv.
  cbn [strict_eq compare]. reflexivity.
Qed.

Lemma login_failure_response e st rq :
  login_failure st rq ->
  login e st rq = (st, json 401 (error "Invalid email or password")).
Proof.
  intros [pw He Hp Hf | em pw u He Hp Hf Hc].
  - destruct (nonempty_text _ _ Hp) as [_ Hpt].
    unfold login. rewrite He, Hpt. cbn [negb orb]. rewrite Hf. reflexivity.
  - rewrite (login_text e st rq em pw He Hp), Hf, Hc. reflexivity.
Qed.

(** With a password that is a string, a login that fails because no
    record has the email and a login that fails because the password
    does not match the stored hash are answered alike: status 401 and
    the body [{error: 'Invalid email or password'}], with no session
    created. *)
Lemma login_failures_alike e1 st1 rq1 e2 st2 rq2 :
  target rq1 = POST_login -> target rq2 = POST_login ->
  login_failure st1 rq1 -> login_failure st2 rq2 ->
  snd (app e1 st1 rq1) = snd (app e2 st2 rq2)
  /\ status (snd (app e1 st1 rq1)) = 401
  /\ payload (snd (app e1 st1 rq1)) = Json (error "Invalid email or password")
  /\ fst (app e1 st1 rq1) = st1.
Proof.
  intros T1 T2 F1 F2. unfold app. rewrite T1, T2.
  rewrite (login_failure_response e1 st1 rq1 F1).
  rewrite (login_failure_response e2 st2 rq2 F2).
  repeat split.
Qed.

Lemma find_registered em st :
  find (fun u => String.eqb u.(email) em) (readCSV (users_csv st)) <> None
  <-> registered em st.
Proof.
  unfold registered. induction (readCSV (users_csv st)) as [| x users IH]; cbn [find].
  - split; [intros Hf; contradiction | intros [u [[] _]]].
  - destruct (String.eqb_spec x.(email) em) as [Heq | Hne].
    + split; [| discriminate]. intros _. exists x. split; [left; reflexivity | exact Heq].
    + rewrite IH. split; intros [u [Hin Hu]]; exists u.
      * split; [right; exact Hin | exact Hu].
      * destruct Hin as [-> | Hin]; [contradiction |]. split; [exact Hin | exact Hu].
Qed.

(** C3.  The two failures are not answered alike when the password of
    the request is not a string (a number, [true], an array, an
    object): such a password passes the check [!password] and is
    rejected by [bcrypt.compare], but only once a record was found.
    The login is then answered 500 "Server error during login" when
    the email is registered and 401 "Invalid email or password" when
    it is not, so that the answer tells which emails have an account.
    No session is created in either case. *)
Theorem login_tells_registered_email e st rq em :
  target rq = POST_login ->
  nonempty (b_email (req_body rq)) = Some em ->
  truthy_non_string (b_password (req_body rq)) ->
  fst (app e st rq) = st
  /\ (registered em st ->
      snd (app e st rq) = json 500 (error "Server error during login"))
  /\ (~ registered em st ->
      snd (app e st rq) = json 401 (error "Invalid email or password"))
  /\ (status (snd (app e st rq)) = 500 <-> registered em st).
Proof.
  intros Ht He [Hpt Hps]. destruct (nonempty_text _ _ He) as [Hev Het].
  unfold app. rewrite Ht. unfold login. rewrite Het, Hpt. cbn [negb orb].
  rewrite Hev. cbn [strict_eq].
  pose proof (find_registered em st) as Hreg.
  destruct (find _ (readCSV (users_csv st))) as [u |].
  - assert (registered em st) as Hr by (apply Hreg; discriminate).
    assert (compare (b_password (req_body rq)) u.(password) = None) as ->.
    { destruct (b_password (req_body rq)) as [| | b | x | t | l | fs]; try reflexivity.
      exfalso. apply (Hps t). reflexivity. }
    split; [reflexivity |]. split; [reflexivity |]. split; [contradiction |].
    split; [intros _; exact Hr | reflexivity].
  - assert (~ registered em st) as Hr by (intros Hr; apply Hreg in Hr; contradiction).
    split; [reflexivity |]. split; [contradiction |]. split; [reflexivity |].
    split; [discriminate | contradiction].
Qed.

End Login.

(** ** Registration *)

Lemma refused_fst st r : refused st r -> fst r = st.
Proof. intros (c & m & -> & _). reflexivity. Qed.

Lemma refused_status st r : refused st r -> status (snd r) <> 200.
Proof. intros (c & m & -> & Hc). cbn [snd json status]. lia. Qed.

Ltac refuse := left; eexists _, _; (split; [reflexivity | lia]).

Section Registration.
Context `{Bcrypt} `{Engine}.

Lemma existsb_registered em st :
  existsb (fun u => String.eqb u.(email) em) (readCSV (users_csv st)) = true
  <-> registered em st.
Proof.
  unfold registered. rewrite existsb_exists.
  split; intros [u [Hin Hu]]; exists u; split; try exact Hin.
  - apply String.eqb_eq. exact Hu.
  - apply String.eqb_eq. exact Hu.
Qed.

Lemma set_users_same st : set_users st (users_csv st) = st.
Proof. destruct st; reflexivity. Qed.

Lemma unparse_user_text n em h r :
  unparse_user (JStr n) (JStr em) h (JStr r) = Some (mkUser n em h r).
Proof. reflexivity. Qed.

(** The handler on a request whose three fields are non-empty
    strings. *)
Lemma register_text e st rq n em pw :
  nonempty (b_name (req_body rq)) = Some n ->
  nonempty (b_email (req_body rq)) = Some em ->
  nonempty (b_password (req_body rq)) = Some pw ->
  register e st rq
  = if (String.length pw <? 6)%nat then
      (st, json 400 (error "Password must be at least 6 characters"))
    else if existsb (fun u => String.eqb u.(email) em) (readCSV (users_csv st)) then
      (st, json 400 (error "Email already registered"))
    else if write_ok e then
      (set_users st (Some (readCSV (users_csv st)
                             ++ [mkUser n em (bcrypt_hash (salt e) pw 10) "user"])),
       json 200 (message "Registration successful"))
    else (st, json 500 (error "Failed to save user")).
Proof.
  intros Hn He Hp.
  destruct (nonempty_text _ _ Hn) as [Hnv Hnt].
  destruct (nonempty_text _ _ He) as [Hev Het].
  destruct (nonempty_text _ _ Hp) as [Hpv Hpt].
  unfold register. rewrite Hnt, Het, Hpt. cbn [negb orb]. rewrite Hnv, Hev, Hpv.
  cbn [length_below strict_eq hash]. rewrite unparse_user_text.
  destruct (_ <? _)%nat; [reflexivity |].
  destruct (existsb _ _); [reflexivity |].
  unfold writeCSV. destruct (write_ok e); [reflexivity |].
  rewrite set_users_same. reflexivity.
Qed.

(** A registration changes nothing, or appends one record. *)
Lemma register_cases e st rq :
  refused st (register e st rq)
  \/ exists n em pw,
       cell_of (b_name (req_body rq)) = Some n
       /\ cell_of (b_email (req_body rq)) = Some em
       /\ b_password (req_body rq) = JStr pw
       /\ js_truthy (b_name (req_body rq)) = true
       /\ js_truthy (b_email (req_body rq)) = true
       /\ (6 <= String.length pw)%nat
       /\ existsb (fun u => strict_eq u.(email) (b_email (req_body rq)))
            (readCSV (users_csv st)) = false
       /\ write_ok e = true
       /\ register e st rq
          = (set_users st (Some (readCSV (users_csv st)
                                   ++ [mkUser n em (bcrypt_hash (salt e) pw 10) "user"])),
             json 200 (message "Registration successful")).
Proof.
  unfold register.
  destruct (js_truthy (b_name (req_body rq))) eqn:Hnt;
    [| refuse].
  destruct (js_truthy (b_email (req_body rq))) eqn:Het;
    [| refuse].
  destruct (js_truthy (b_password (req_body rq))) eqn:Hpt;
    [| refuse].
  cbn [negb orb].
  destruct (length_below _ 6) as [[|] |] eqn:Hlen;
    try (refuse).
  destruct (existsb _ _) eqn:Hex; [refuse |].
  destruct (b_password (req_body rq)) as [| | b | x | pw | l | fs] eqn:Hpw; cbn [hash];
    try (refuse).
  unfold unparse_user.
  destruct (cell_of (b_name (req_body rq))) as [n |] eqn:Hn;
    [| refuse].
  destruct (cell_of (b_email (req_body rq))) as [em |] eqn:Hem;
    [| refuse].
  cbn [cell_of js_to_string].
  unfold writeCSV. destruct (write_ok e).
  - right. exists n, em, pw.
    cbn [length_below] in Hlen. inversion Hlen as [Hlt].
    apply Nat.ltb_ge in Hlt. repeat split; try reflexivity; assumption.
  - rewrite set_users_same. refuse.
Qed.

(** What a successful registration is: the three fields pass [!v],
    the password is a string of six characters or more, no record has
    the email and the file is written with one more record, of role
    [user]. *)
Lemma register_success e st rq :
  status (snd (register e st rq)) = 200 ->
  exists n em pw,
    cell_of (b_name (req_body rq)) = Some n
    /\ cell_of (b_email (req_body rq)) = Some em
    /\ b_password (req_body rq) = JStr pw
    /\ (6 <= String.length pw)%nat
    /\ existsb (fun u => strict_eq u.(email) (b_email (req_body rq)))
         (readCSV (users_csv st)) = false
    /\ register e st rq
       = (set_users st (Some (readCSV (users_csv st)
                                ++ [mkUser n em (bcrypt_hash (salt e) pw 10) "user"])),
          json 200 (message "Registration successful")).
Proof.
  intros Hok.
  destruct (register_cases e st rq)
    as [Hr | (n & em & pw & Hn & Hem & Hpw & _ & _ & Hlen & Hex & _ & Heq)];
    [apply refused_status in Hr; contradiction |].
  exists n, em, pw. repeat split; assumption.
Qed.

(** [register] never reads [req.body.role]. *)
Lemma register_ignores_role e st rq r :
  register e st (with_role r rq) = register e st rq.
Proof. reflexivity. Qed.

(** C10. A registration answered 200 appends exactly one record, and
    its role is [user]; its name and email are the texts of the name
    and email of the request, which both pass [!v] (for a string: the
    string itself, not empty); the answer and the stored record are
    the same whatever [role] the body carries. *)
Theorem register_role_is_user e st rq :
  target rq = POST_register ->
  status (snd (app e st rq)) = 200 ->
  (exists u, users_csv (fst (app e st rq)) = Some (readCSV (users_csv st) ++ [u])
             /\ u.(role) = "user"
             /\ cell_of (b_name (req_body rq)) = Some u.(name)
             /\ cell_of (b_email (req_body rq)) = Some u.(email)
             /\ js_truthy (b_name (req_body rq)) = true
             /\ js_truthy (b_email (req_body rq)) = true)
  /\ (forall r, app e st (with_role r rq) = app e st rq).
Proof.
  intros Ht Hs. unfold app in *. simpl. rewrite Ht in *. split.
  - destruct (register_cases e st rq)
      as [Hr | (n & em & pw & Hn & Hem & Hpw & Hnt & Het & _ & _ & _ & Heq)];
      [apply refused_status in Hr; contradiction |].
    rewrite Heq. simpl. eexists. split; [reflexivity |]. simpl. auto.
  - intros r. apply register_ignores_role.
Qed.

(** C2, as amended.  When the store holds a record with the email of
    the request, [POST /api/register] leaves the server as it was and
    answers 400; the body is [{error: 'Email already registered'}]
    when the request passes the input validation (name, email and
    password pass [!v], the length of the password is not below six).
    The one other answer is the 500 of the [catch] branch, when the
    password is an object whose length cannot be compared with 6. *)
Theorem register_duplicate e st rq em :
  target rq = POST_register ->
  registered em st ->
  b_email (req_body rq) = JStr em ->
  fst (app e st rq) = st
  /\ (length_below (b_password (req_body rq)) 6 <> None ->
      status (snd (app e st rq)) = 400)
  /\ (status (snd (app e st rq)) = 400 \/ status (snd (app e st rq)) = 500)
  /\ (valid_registration (req_body rq) ->
      snd (app e st rq) = json 400 (error "Email already registered")).
Proof.
  intros Ht Hreg Hem. apply existsb_registered in Hreg.
  unfold app. rewrite Ht. unfold register, valid_registration. rewrite Hem.
  cbn [strict_eq]. rewrite Hreg.
  destruct (js_truthy (b_name (req_body rq))); cbn [negb orb].
  2:{ refine (conj eq_refl (conj (fun _ => eq_refl) (conj (or_introl eq_refl) _))).
      intros [Hn _]; discriminate. }
  destruct (js_truthy (JStr em)); cbn [negb orb].
  2:{ refine (conj eq_refl (conj (fun _ => eq_refl) (conj (or_introl eq_refl) _))).
      intros (_ & He & _); discriminate. }
  destruct (js_truthy (b_password (req_body rq))); cbn [negb orb].
  2:{ refine (conj eq_refl (conj (fun _ => eq_refl) (conj (or_introl eq_refl) _))).
      intros (_ & _ & Hp & _); discriminate. }
  destruct (length_below (b_password (req_body rq)) 6) as [[|] |].
  - refine (conj eq_refl (conj (fun _ => eq_refl) (conj (or_introl eq_refl) _))).
    intros (_ & _ & _ & Hl); discriminate.
  - refine (conj eq_refl (conj (fun _ => eq_refl) (conj (or_introl eq_refl) _))).
    intros _. reflexivity.
  - refine (conj eq_refl (conj _ (conj (or_intror eq_refl) _))).
    + intros Hne. contradiction.
    + intros (_ & _ & _ & Hl); discriminate.
Qed.

End Registration.

(** ** Administration *)

Section Administration.
Context `{Bcrypt} `{Engine}.

Lemma find_none {A} (l : list A) : find (fun _ => false) l = None.
Proof. induction l; [reflexivity | exact IHl]. Qed.

Lemma existsb_none {A} (l : list A) : existsb (fun _ => false) l = false.
Proof. induction l; [reflexivity | exact IHl]. Qed.

(** A login changes nothing, or opens the session of the first record
    that has the email of the request. *)
Lemma login_cases e st rq :
  refused st (login e st rq)
  \/ exists em pw u,
       nonempty (b_email (req_body rq)) = Some em
       /\ nonempty (b_password (req_body rq)) = Some pw
       /\ find (fun u => String.eqb u.(email) em) (readCSV (users_csv st)) = Some u
       /\ bcrypt_compare pw u.(password) = true
       /\ login e st rq
          = (set_sessions st
               (<[cookie rq := mkSession u.(name) u.(email) u.(role)]> (sessions st)),
             json 200 (JObj [("message", JStr "Login successful");
                             ("user", public_user u.(name) u.(email) u.(role))])).
Proof.
  unfold login.
  destruct (js_truthy (b_email (req_body rq))) eqn:Het;
    [| refuse].
  destruct (js_truthy (b_password (req_body rq))) eqn:Hpt;
    [| refuse].
  cbn [negb orb].
  destruct (b_email (req_body rq)) as [| | b | x | em | l | fs] eqn:Hem;
    cbn [strict_eq]; rewrite ?find_none; try (refuse).
  destruct (find _ _) as [u |] eqn:Hf; [| refuse].
  destruct (b_password (req_body rq)) as [| | b | x | pw | l | fs] eqn:Hpw;
    cbn [compare]; try (refuse).
  destruct (bcrypt_compare pw u.(password)) eqn:Hc; cbn [negb];
    [| refuse].
  right. exists em, pw, u.
  cbn [js_truthy] in Het, Hpt. cbn [nonempty].
  destruct (String.eqb em ""); [discriminate |].
  destruct (String.eqb pw ""); [discriminate |].
  repeat split; try reflexivity; assumption.
Qed.

(** An addition changes nothing, or appends one record, whose role is
    the text of the role of the request, [user] when that is missing. *)
Lemma add_user_cases e st rq :
  refused st (add_user e st rq)
  \/ exists n em pw r,
       cell_of (b_name (req_body rq)) = Some n
       /\ cell_of (b_email (req_body rq)) = Some em
       /\ b_password (req_body rq) = JStr pw
       /\ cell_of (js_or (b_role (req_body rq)) (JStr "user")) = Some r
       /\ js_truthy (b_name (req_body rq)) = true
       /\ js_truthy (b_email (req_body rq)) = true
       /\ (6 <= String.length pw)%nat
       /\ existsb (fun u => strict_eq u.(email) (b_email (req_body rq)))
            (readCSV (users_csv st)) = false
       /\ write_ok e = true
       /\ add_user e st rq
          = (set_users st (Some (readCSV (users_csv st)
                                   ++ [mkUser n em (bcrypt_hash (salt e) pw 10) r])),
             json 200 (message "User added successfully")).
Proof.
  unfold add_user.
  destruct (js_truthy (b_name (req_body rq))) eqn:Hnt;
    [| refuse].
  destruct (js_truthy (b_email (req_body rq))) eqn:Het;
    [| refuse].
  destruct (js_truthy (b_password (req_body rq))) eqn:Hpt;
    [| refuse].
  cbn [negb orb].
  destruct (length_below _ 6) as [[|] |] eqn:Hlen;
    try (refuse).
  destruct (existsb _ _) eqn:Hex; [refuse |].
  destruct (b_password (req_body rq)) as [| | b | x | pw | l | fs] eqn:Hpw; cbn [hash];
    try (refuse).
  unfold unparse_user.
  destruct (cell_of (b_name (req_body rq))) as [n |] eqn:Hn;
    [| refuse].
  destruct (cell_of (b_email (req_body rq))) as [em |] eqn:Hem;
    [| refuse].
  destruct (cell_of (js_or _ _)) as [r |] eqn:Hr;
    [| refuse].
  unfold writeCSV. destruct (write_ok e).
  - right. exists n, em, pw, r.
    cbn [length_below] in Hlen. inversion Hlen as [Hlt].
    apply Nat.ltb_ge in Hlt. repeat split; try reflexivity; assumption.
  - rewrite set_users_same. refuse.
Qed.

(** The role check of [PUT /api/users/:email]. *)
Lemma includes_valid_role r :
  existsb (String.eqb r) ["user"; "admin"] = true -> valid_role r.
Proof.
  simpl. unfold valid_role.
  destruct (String.eqb_spec r "user") as [-> | _]; [left; reflexivity |].
  destruct (String.eqb_spec r "admin") as [-> | _]; [right; reflexivity |].
  discriminate.
Qed.

(** A role update changes nothing, or sets a role of the enumeration
    in the first record of the email. *)
Lemma update_role_cases em e st rq :
  refused st (update_role em e st rq)
  \/ exists r users',
       b_role (req_body rq) = JStr r
       /\ valid_role r
       /\ set_role em r (readCSV (users_csv st)) = Some users'
       /\ write_ok e = true
       /\ update_role em e st rq
          = (set_users st (Some users'),
             json 200 (message "User role updated successfully")).
Proof.
  unfold update_role.
  destruct (js_to_string _); [| refuse].
  destruct (nonempty _) as [r |] eqn:Hr; [| refuse].
  destruct (existsb _ _) eqn:Hin; cbn [negb];
    [| refuse].
  destruct (set_role em r _) as [users' |] eqn:Hset;
    [| refuse].
  unfold writeCSV. destruct (write_ok e).
  - right. exists r, users'. destruct (nonempty_text _ _ Hr) as [Hv _].
    repeat split; try reflexivity; try assumption.
    apply includes_valid_role. exact Hin.
  - rewrite set_users_same. refuse.
Qed.

Lemma filter_length_registered em users :
  (length (without em users) =? length users)%nat = false <->
  exists u, In u users /\ u.(email) = em.
Proof.
  unfold without. induction users as [| x users IH].
  - split; [discriminate | intros [u [[] _]]].
  - cbn [List.filter]. destruct (String.eqb_spec x.(email) em) as [Heq | Hne]; cbn [negb].
    + split.
      * intros _. exists x. split; [left; reflexivity | exact Heq].
      * intros _. apply Nat.eqb_neq. cbn [length].
        pose proof (List.filter_length_le
                      (fun u => negb (String.eqb u.(email) em)) users). lia.
    + cbn [length]. change (S ?a =? S ?b)%nat with (a =? b)%nat. rewrite IH.
      split.
      * intros [u [Hin Hu]]. exists u. split; [right; exact Hin | exact Hu].
      * intros [u [[-> | Hin] Hu]]; [contradiction |]. exists u. split; assumption.
Qed.

(** A deletion changes nothing, or removes the records of the email. *)
Lemma delete_user_cases em e st rq :
  refused st (delete_user em e st rq)
  \/ exists su,
       sessions st !! cookie rq = Some su
       /\ s_email su <> em
       /\ registered em st
       /\ write_ok e = true
       /\ delete_user em e st rq
          = (set_users st
               (Some (List.filter (fun u => negb (String.eqb u.(email) em))
                        (readCSV (users_csv st)))),
             json 200 (message "User deleted successfully")).
Proof.
  unfold delete_user.
  destruct (sessions st !! cookie rq) as [su |]; [| refuse].
  destruct (String.eqb_spec (s_email su) em) as [Heq | Hne]; [refuse |].
  destruct (_ =? _)%nat eqn:Hlen; [refuse |].
  apply (filter_length_registered em) in Hlen.
  unfold writeCSV. destruct (write_ok e).
  - right. exists su. repeat split; try reflexivity; assumption.
  - rewrite set_users_same. refuse.
Qed.

(** Every request has one of the outcomes. *)
Lemma app_outcome e st rq : outcome e st rq (app e st rq).
Proof.
  unfold app. destruct (target rq) as [| | | | | | | em | em |] eqn:Ht.
  - destruct (register_cases e st rq)
      as [(c & m & -> & Hc)
         | (n & em & pw & Hn & Hem & Hpw & Hnt & Het & Hlen & Hex & Hw & ->)].
    + apply O_refused. exact Hc.
    + apply O_register; assumption.
  - destruct (login_cases e st rq)
      as [(c & m & -> & Hc) | (em & pw & u & Hem & Hpw & Hf & Hc & ->)].
    + apply O_refused. exact Hc.
    + apply (O_login e st rq em pw u); assumption.
  - apply O_logout. exact Ht.
  - apply O_check_auth. exact Ht.
  - cbn [guarded]. destruct (sessions st !! cookie rq) as [su |] eqn:Hs; cbn [isAuthenticated].
    + apply (O_sensors e st rq su); assumption.
    + apply O_refused. lia.
  - cbn [guarded]. destruct (sessions st !! cookie rq) as [su |] eqn:Hs;
      cbn [isAuthenticated isAdmin]; [| apply O_refused; lia].
    destruct (String.eqb_spec (s_role su) "admin") as [Ha | _]; [| apply O_refused; lia].
    apply (O_list_users e st rq su); assumption.
  - cbn [guarded]. destruct (sessions st !! cookie rq) as [su |] eqn:Hs;
      cbn [isAuthenticated isAdmin]; [| apply O_refused; lia].
    destruct (String.eqb_spec (s_role su) "admin") as [Ha | _]; [| apply O_refused; lia].
    destruct (add_user_cases e st rq)
      as [(c & m & -> & Hc)
         | (n & em & pw & r & Hn & Hem & Hpw & Hr & Hnt & Het & Hlen & Hex & Hw & ->)].
    + apply O_refused. exact Hc.
    + apply (O_add e st rq su); assumption.
  - cbn [guarded]. destruct (sessions st !! cookie rq) as [su |] eqn:Hs;
      cbn [isAuthenticated isAdmin]; [| apply O_refused; lia].
    destruct (String.eqb_spec (s_role su) "admin") as [Ha | _]; [| apply O_refused; lia].
    destruct (update_role_cases em e st rq)
      as [(c & m & -> & Hc) | (r & users' & Hr & Hv & Hset & Hw & ->)].
    + apply O_refused. exact Hc.
    + apply (O_update e st rq su em r); assumption.
  - cbn [guarded]. destruct (sessions st !! cookie rq) as [su |] eqn:Hs;
      cbn [isAuthenticated isAdmin]; [| apply O_refused; lia].
    destruct (String.eqb_spec (s_role su) "admin") as [Ha | _]; [| apply O_refused; lia].
    destruct (delete_user_cases em e st rq)
      as [(c & m & -> & Hc) | (su' & Hs' & Hne & Hreg & Hw & ->)].
    + apply O_refused. exact Hc.
    + rewrite Hs in Hs'. inversion Hs'; subst su'.
      apply (O_delete e st rq su); assumption.
  - apply O_unmatched. exact Ht.
Qed.

(** C6, as amended.  When the session user has email [em], a
    [DELETE /api/users/em] never touches the server, whether or not
    the store has a record with that email: with the role [admin] in
    the session the answer is 400 "Cannot delete your own account";
    with any other role the request stops at the admin gate with 403. *)
Theorem self_delete_refused e st rq em u :
  target rq = DELETE_users em ->
  sessions st !! cookie rq = Some u ->
  s_email u = em ->
  fst (app e st rq) = st
  /\ (s_role u = "admin" ->
      snd (app e st rq) = json 400 (error "Cannot delete your own account"))
  /\ (s_role u <> "admin" ->
      snd (app e st rq) = json 403 (error "Admin privileges required")).
Proof.
  intros Ht Hs He.
  assert (admin_handler (target rq) = Some (delete_user em)) as Hh
    by (rewrite Ht; reflexivity).
  rewrite (app_admin_route e st rq _ Hh).
  destruct (String.eqb_spec (s_role u) "admin") as [Hr | Hr].
  - rewrite (guarded_admin e st rq _ u Hs Hr).
    unfold delete_user. rewrite Hs, He, String.eqb_refl.
    split; [reflexivity |]. split; [reflexivity | contradiction].
  - rewrite (guarded_not_admin e st rq _ u Hs Hr).
    split; [reflexivity |]. split; [contradiction | reflexivity].
Qed.

Lemma set_role_roles em r users users' :
  valid_role r ->
  Forall (fun u => valid_role u.(role)) users ->
  set_role em r users = Some users' ->
  Forall (fun u => valid_role u.(role)) users'.
Proof.
  intros Hr. revert users'.
  induction users as [| u rest IH]; intros users' Hall Hset; [discriminate |].
  inversion Hall as [| ? ? Hu Hrest]; subst. simpl in Hset.
  destruct (String.eqb u.(email) em).
  - inversion Hset; subst. constructor; [exact Hr | exact Hrest].
  - destruct (set_role em r rest) as [rest' |]; [| discriminate].
    inversion Hset; subst. constructor; [exact Hu | apply IH; auto].
Qed.

Lemma roles_ok_set_users st users :
  Forall (fun u => valid_role u.(role)) users ->
  roles_ok (set_users st (Some users)).
Proof. intros Hall. exact Hall. Qed.

(** Registration, role update and deletion keep the roles of the
    store inside the enumeration; so does every route but
    [POST /api/users/add]. *)
Lemma roles_ok_preserved e st rq :
  target rq <> POST_users_add ->
  roles_ok st -> roles_ok (fst (app e st rq)).
Proof.
  intros Hne Hok. unfold app.
  destruct (target rq) as [| | | | | | | em | em |] eqn:Ht; try contradiction.
  - (* register *)
    destruct (register_cases e st rq)
      as [(c & m & -> & _) | (n & em & pw & _ & _ & _ & _ & _ & _ & _ & _ & ->)];
      [exact Hok |].
    apply roles_ok_set_users. apply List.Forall_app. split; [exact Hok |].
    constructor; [left; reflexivity | constructor].
  - (* login *)
    destruct (login_cases e st rq)
      as [(c & m & -> & _) | (em & pw & u & _ & _ & _ & _ & ->)]; exact Hok.
  - exact Hok.
  - unfold check_auth. destruct (_ !! _); exact Hok.
  - simpl. destruct (sessions st !! cookie rq); [| exact Hok]. simpl.
    unfold sensors. destruct (_ =? _)%nat; exact Hok.
  - simpl. destruct (sessions st !! cookie rq) as [u |]; [| exact Hok]. simpl.
    destruct (String.eqb _ _); exact Hok.
  - (* role update *)
    simpl. destruct (sessions st !! cookie rq) as [u |]; [| exact Hok]. simpl.
    destruct (String.eqb _ _); [| exact Hok].
    destruct (update_role_cases em e st rq)
      as [(c & m & -> & _) | (r & users' & _ & Hr & Hset & _ & ->)]; [exact Hok |].
    apply roles_ok_set_users.
    apply (set_role_roles em r (readCSV (users_csv st))); auto.
  - (* deletion *)
    simpl. destruct (sessions st !! cookie rq) as [u |] eqn:Hs; [| exact Hok]. simpl.
    destruct (String.eqb _ _); [| exact Hok].
    destruct (delete_user_cases em e st rq)
      as [(c & m & -> & _) | (su & _ & _ & _ & _ & ->)]; [exact Hok |].
    apply roles_ok_set_users. apply List.Forall_forall. intros x Hx.
    apply List.filter_In in Hx. destruct Hx as [Hx _].
    unfold roles_ok in Hok. rewrite List.Forall_forall in Hok. apply Hok. exact Hx.
  - exact Hok.
Qed.

(** [PUT /api/users/:email] refuses a role outside the enumeration. *)
Lemma update_role_rejects em e st rq r :
  b_role (req_body rq) = JStr r -> ~ valid_role r ->
  update_role em e st rq = (st, json 400 (error "Invalid role")).
Proof.
  intros Hr Hbad. unfold update_role. rewrite Hr. cbn [js_to_string nonempty].
  destruct (String.eqb r ""); [reflexivity |].
  destruct (existsb (String.eqb r) ["user"; "admin"]) eqn:Hex; [| reflexivity].
  exfalso. apply Hbad. apply includes_valid_role. exact Hex.
Qed.

(** [POST /api/users/add] stores the role of the body as it comes. *)
Lemma add_user_stores_role e st rq n em pw r :
  nonempty (b_name (req_body rq)) = Some n ->
  nonempty (b_email (req_body rq)) = Some em ->
  nonempty (b_password (req_body rq)) = Some pw ->
  6 <= String.length pw ->
  ~ registered em st ->
  nonempty (b_role (req_body rq)) = Some r ->
  write_ok e = true ->
  add_user e st rq
  = (set_users st (Some (readCSV (users_csv st)
                           ++ [mkUser n em (bcrypt_hash (salt e) pw 10) r])),
     json 200 (message "User added successfully")).
Proof.
  intros Hn Hem Hpw Hlen Hnew Hr Hw.
  destruct (nonempty_text _ _ Hn) as [Hnv Hnt].
  destruct (nonempty_text _ _ Hem) as [Hev Het].
  destruct (nonempty_text _ _ Hpw) as [Hpv Hpt].
  destruct (nonempty_text _ _ Hr) as [Hrv Hrt].
  unfold add_user, js_or. rewrite Hnt, Het, Hpt, Hrt. cbn [negb orb].
  rewrite Hnv, Hev, Hpv, Hrv. cbn [length_below strict_eq hash].
  rewrite unparse_user_text.
  destruct (Nat.ltb_spec (String.length pw) 6) as [Hlt | _]; [lia |].
  destruct (existsb _ _) eqn:Hex.
  { exfalso. apply Hnew. apply existsb_registered. exact Hex. }
  unfold writeCSV. rewrite Hw. reflexivity.
Qed.

End Administration.

(** ** The role enumeration *)

(** C1, at the failing input.  On a freshly seeded server the
    administrator logs in and posts [{name, email, password, role:
    'superuser'}] to [/api/users/add]: both requests are answered 200
    and the store, whose roles were all in the enumeration, now holds a
    record of role [superuser]. *)
Theorem add_user_breaks_role_enum :
  roles_ok Demo.booted
  /\ map status
       (snd (serve Demo.booted
               [(Demo.env0, Demo.admin_login); (Demo.env0, Demo.add_superuser)]))
     = [200; 200]
  /\ users_csv
       (fst (serve Demo.booted
               [(Demo.env0, Demo.admin_login); (Demo.env0, Demo.add_superuser)]))
     = Some [default_admin Demo.env0;
             mkUser "Eve" "eve@example.com"
                    (bcrypt_hash "NaCl" "secret1" 10) "superuser"]
  /\ ~ roles_ok
        (fst (serve Demo.booted
                [(Demo.env0, Demo.admin_login); (Demo.env0, Demo.add_superuser)])).
Proof.
  split; [| split; [| split]].
  - constructor; [right; reflexivity | constructor].
  - vm_compute. reflexivity.
  - vm_compute. reflexivity.
  - intros Hok. unfold roles_ok in Hok.
    assert (In (mkUser "Eve" "eve@example.com"
                       (bcrypt_hash "NaCl" "secret1" 10) "superuser")
               (readCSV (users_csv
                  (fst (serve Demo.booted
                          [(Demo.env0, Demo.admin_login);
                           (Demo.env0, Demo.add_superuser)]))))) as Hin.
    { vm_compute. right. left. reflexivity. }
    rewrite List.Forall_forall in Hok. destruct (Hok _ Hin) as [Hr | Hr];
      discriminate Hr.
Qed.

(** ** Passwords *)

Section Passwords.
Context `{Bcrypt} `{Engine}.

Lemma eqb_key_false a k : k <> a -> String.eqb a k = false.
Proof. intros Hne. apply String.eqb_neq. congruence. Qed.

Lemma has_key_arr_cons k x items :
  has_key k (JArr (x :: items)) = has_key k x || has_key k (JArr items).
Proof. reflexivity. Qed.

Lemma has_key_arr_app k a b :
  has_key k (JArr (a ++ b)) = has_key k (JArr a) || has_key k (JArr b).
Proof.
  induction a as [| x a IH]; [reflexivity |].
  rewrite <- app_comm_cons, !has_key_arr_cons, IH, orb_assoc. reflexivity.
Qed.

Lemma has_key_arr_false k items :
  has_key k (JArr items) = false <-> Forall (fun v => has_key k v = false) items.
Proof.
  induction items as [| x items IH].
  - split; [constructor | reflexivity].
  - rewrite has_key_arr_cons, orb_false_iff, IH. split.
    + intros [Hx Hi]. constructor; assumption.
    + intros Hall. inversion Hall; subst. split; assumption.
Qed.

Lemma has_key_get k f v : has_key k v = false -> has_key k (get f v) = false.
Proof.
  intros Hv. destruct v as [| | | | | items | fs]; try reflexivity. unfold get.
  induction fs as [| [k' x] fs IH]; [reflexivity |].
  change (String.eqb k' k || has_key k x || has_key k (JObj fs) = false) in Hv.
  apply orb_false_iff in Hv. destruct Hv as [Hv Hrest].
  apply orb_false_iff in Hv. destruct Hv as [_ Hx].
  cbn [find fst snd]. destruct (String.eqb k' f); [exact Hx | apply IH; exact Hrest].
Qed.

Ltac no_key Hk :=
  unfold json, error, message, public_user, latest_view, process;
  cbn [fst snd payload reply_has_key has_key];
  rewrite ?eqb_key_false
    by (intros ->; apply Hk; unfold written_keys; simpl; tauto);
  try reflexivity.

Lemma has_key_public_users k users :
  ~ In k written_keys ->
  has_key k (JArr (map (fun u => public_user u.(name) u.(email) u.(role)) users))
  = false.
Proof.
  intros Hk. apply has_key_arr_false. apply List.Forall_forall.
  intros v Hv. apply in_map_iff in Hv. destruct Hv as [u [<- _]]. no_key Hk.
Qed.

Lemma has_key_processed k feeds :
  ~ In k written_keys ->
  Forall (fun v => has_key k v = false) (map process feeds).
Proof.
  intros Hk. apply List.Forall_forall.
  intros v Hv. apply in_map_iff in Hv. destruct Hv as [f [<- _]]. no_key Hk.
  destruct (created_at f), (entry_id f); reflexivity.
Qed.

Lemma Forall_slice_last {A} (P : A -> Prop) n (l : list A) :
  Forall P l -> Forall P (slice_last n l).
Proof.
  intros Hall. unfold slice_last.
  rewrite <- (firstn_skipn (length l - n) l) in Hall.
  apply List.Forall_app in Hall. apply Hall.
Qed.

Lemma Forall_last {A} (P : A -> Prop) (l : list A) d :
  Forall P l -> P d -> P (List.last l d).
Proof.
  intros Hall Hd. induction Hall as [| x l Hx Hl IH]; [exact Hd |].
  destruct l as [| y l]; [exact Hx | exact IH].
Qed.

(** No answer of the application has, at any depth, a key other than
    the sixteen of [written_keys]. *)
Lemma only_written_keys e st rq k :
  ~ In k written_keys ->
  reply_has_key k (payload (snd (app e st rq))) = false.
Proof.
  intros Hk.
  destruct (app_outcome e st rq)
    as [c m Hc | Ht | Ht | Ht | su Ht Hs | su Ht Hs Ha | em pw u Ht He Hp Hf Hc
       | n em pw Ht Hn He Hp Hnt Het Hl Hex Hw
       | su n em pw r Ht Hs Ha Hn He Hp Hr Hnt Het Hl Hex Hw
       | su em r users' Ht Hs Ha Hr Hv Hset Hw | su em Ht Hs Ha Hne Hreg Hw].
  - no_key Hk.
  - reflexivity.
  - unfold check_auth. destruct (_ !! _) as [u |]; no_key Hk.
  - unfold logout. no_key Hk.
  - 
    unfold sensors.
    destruct (_ =? _)%nat; [no_key Hk |].
    pose proof (has_key_processed k (readCSV (feeds_csv st)) Hk) as Hitems.
    set (items := map process (readCSV (feeds_csv st))) in *.
    assert (has_key k (List.last items JUndefined) = false) as Hlast.
    { apply (Forall_last (fun v => has_key k v = false)); [exact Hitems | reflexivity]. }
    assert (has_key k (JArr (slice_last 20 items)) = false) as Hh.
    { apply has_key_arr_false. apply Forall_slice_last. exact Hitems. }
    assert (has_key k (JArr (rev (slice_last 10 items))) = false) as Hr.
    { apply has_key_arr_false. apply List.Forall_rev.
      apply Forall_slice_last. exact Hitems. }
    unfold json, latest_view. cbn [fst snd payload reply_has_key].
    change (String.eqb "latest" k
            || (String.eqb "field1" k || has_key k (get "field1" (List.last items JUndefined))
                || (String.eqb "field2" k
                    || has_key k (get "field2" (List.last items JUndefined))
                    || (String.eqb "field3" k
                        || has_key k (get "field3" (List.last items JUndefined))
                        || (String.eqb "timestamp" k
                            || has_key k (get "timestamp" (List.last items JUndefined))
                            || false))))
            || (String.eqb "history" k || has_key k (JArr (slice_last 20 items))
                || (String.eqb "recent" k
                    || has_key k (JArr (rev (slice_last 10 items))) || false))
            = false).
    rewrite Hh, Hr, !(has_key_get k _ _ Hlast).
    no_key Hk.
  - 
    unfold list_users, json. cbn [fst snd payload reply_has_key].
    change (String.eqb "users" k
            || has_key k (JArr (map (fun u => public_user u.(name) u.(email) u.(role))
                                    (readCSV (users_csv st))))
            || false = false).
    rewrite (has_key_public_users k _ Hk). no_key Hk.
  - no_key Hk.
  - no_key Hk.
  - no_key Hk.
  - no_key Hk.
  - no_key Hk.
Qed.

(** *** What is written to the store *)

Lemma set_role_identity em r users users' u :
  set_role em r users = Some users' -> In u users' ->
  exists u0, In u0 users /\ same_identity u u0.
Proof.
  revert users'. induction users as [| x rest IH]; intros users' Hset Hin;
    [discriminate |].
  simpl in Hset. destruct (String.eqb x.(email) em).
  - inversion Hset; subst. destruct Hin as [<- | Hin].
    + exists x. split; [left; reflexivity | repeat split].
    + exists u. split; [right; exact Hin | repeat split].
  - destruct (set_role em r rest) as [rest' |]; [| discriminate].
    inversion Hset; subst. destruct Hin as [<- | Hin].
    + exists x. split; [left; reflexivity | repeat split].
    + destruct (IH rest' eq_refl Hin) as [u0 [Hin0 Hsame]].
      exists u0. split; [right; exact Hin0 | exact Hsame].
Qed.

(** Every record of the store after a request is a record of the
    store before it, but for its role, or carries the [bcrypt] hash
    of the password of the request. *)
Lemma nonempty_long pw : 6 <= String.length pw -> nonempty (JStr pw) = Some pw.
Proof. destruct pw; simpl; [lia | reflexivity]. Qed.

Lemma check_auth_fst e st rq : fst (check_auth e st rq) = st.
Proof. unfold check_auth. destruct (_ !! _); reflexivity. Qed.

Lemma sensors_fst e st rq : fst (sensors e st rq) = st.
Proof. unfold sensors. destruct (_ =? _)%nat; reflexivity. Qed.

Lemma stored_passwords_hashed e st rq u :
  In u (readCSV (users_csv (fst (app e st rq)))) ->
  (exists u0, In u0 (readCSV (users_csv st)) /\ same_identity u u0)
  \/ (exists pw, nonempty (b_password (req_body rq)) = Some pw
                 /\ u.(password) = bcrypt_hash (salt e) pw 10).
Proof.
  assert (In u (readCSV (users_csv st)) ->
          (exists u0, In u0 (readCSV (users_csv st)) /\ same_identity u u0)
          \/ (exists pw, nonempty (b_password (req_body rq)) = Some pw
                         /\ u.(password) = bcrypt_hash (salt e) pw 10)) as Hsame.
  { intros Hin. left. exists u. split; [exact Hin | repeat split]. }
  destruct (app_outcome e st rq)
    as [c m Hc | Ht | Ht | Ht | su Ht Hs | su Ht Hs Ha | em pw u' Ht He Hp Hf Hc
       | n em pw Ht Hn He Hp Hnt Het Hl Hex Hw
       | su n em pw r Ht Hs Ha Hn He Hp Hr Hnt Het Hl Hex Hw
       | su em r users' Ht Hs Ha Hr Hv Hset Hw | su em Ht Hs Ha Hne Hreg Hw];
    rewrite ?check_auth_fst, ?sensors_fst; cbn [fst logout list_users set_users
      set_sessions users_csv readCSV]; try exact Hsame.
  - intros Hin. apply in_app_or in Hin. destruct Hin as [Hin | [<- | []]].
    + apply (Hsame Hin).
    + right. exists pw. rewrite Hp. split; [apply nonempty_long; exact Hl | reflexivity].
  - intros Hin. apply in_app_or in Hin. destruct Hin as [Hin | [<- | []]].
    + apply (Hsame Hin).
    + right. exists pw. rewrite Hp. split; [apply nonempty_long; exact Hl | reflexivity].
  - intros Hin. left. apply (set_role_identity em r _ users' u Hset Hin).
  - intros Hin. apply List.filter_In in Hin. apply Hsame. apply Hin.
Qed.

(** *** What the answers depend on *)

Lemma readCSV_scrub st :
  readCSV (users_csv (scrub st)) = map scrub_user (readCSV (users_csv st)).
Proof. unfold scrub. simpl. destruct (users_csv st); reflexivity. Qed.

Lemma existsb_scrub v users :
  existsb (fun u => strict_eq u.(email) v) (map scrub_user users)
  = existsb (fun u => strict_eq u.(email) v) users.
Proof. induction users as [| u rest IH]; simpl; [| rewrite IH]; reflexivity. Qed.

Lemma set_role_scrub em r users :
  set_role em r (map scrub_user users)
  = option_map (map scrub_user) (set_role em r users).
Proof.
  induction users as [| u rest IH]; [reflexivity |]. simpl.
  destruct (String.eqb u.(email) em); [reflexivity |].
  rewrite IH. destruct (set_role em r rest); reflexivity.
Qed.

Lemma filter_scrub em users :
  length (List.filter (fun u => negb (String.eqb u.(email) em)) (map scrub_user users))
  = length (List.filter (fun u => negb (String.eqb u.(email) em)) users).
Proof.
  induction users as [| u rest IH]; [reflexivity |]. simpl.
  destruct (negb (String.eqb u.(email) em)); simpl; rewrite IH; reflexivity.
Qed.

Lemma public_scrub users :
  map (fun u => public_user u.(name) u.(email) u.(role)) (map scrub_user users)
  = map (fun u => public_user u.(name) u.(email) u.(role)) users.
Proof. rewrite map_map. reflexivity. Qed.

(** Outside the login, the answer is the same once every stored
    password is blanked. *)
Lemma answers_ignore_stored_passwords e st rq :
  target rq <> POST_login ->
  snd (app e (scrub st) rq) = snd (app e st rq).
Proof.
  intros Hne. unfold app.
  destruct (target rq) as [| | | | | | | em | em |]; try contradiction;
    try reflexivity.
  - unfold register. rewrite readCSV_scrub, existsb_scrub.
    destruct (negb _ || negb _ || negb _); [reflexivity |].
    destruct (length_below _ _) as [[|] |]; try reflexivity.
    destruct (existsb _ _); [reflexivity |].
    destruct (hash _ _); [| reflexivity].
    destruct (unparse_user _ _ _ _); [| reflexivity].
    unfold writeCSV. destruct (write_ok e); reflexivity.
  - unfold check_auth. simpl. destruct (_ !! _); reflexivity.
  - cbn [guarded]. simpl sessions. destruct (isAuthenticated _); [reflexivity |].
    unfold sensors. simpl. destruct (_ =? _)%nat; reflexivity.
  - cbn [guarded]. simpl sessions. destruct (isAuthenticated _); [reflexivity |].
    destruct (isAdmin _); [reflexivity |].
    unfold list_users. rewrite readCSV_scrub, public_scrub. reflexivity.
  - cbn [guarded]. simpl sessions. destruct (isAuthenticated _); [reflexivity |].
    destruct (isAdmin _); [reflexivity |].
    unfold add_user. rewrite readCSV_scrub, existsb_scrub.
    destruct (negb _ || negb _ || negb _); [reflexivity |].
    destruct (length_below _ _) as [[|] |]; try reflexivity.
    destruct (existsb _ _); [reflexivity |].
    destruct (hash _ _); [| reflexivity].
    destruct (unparse_user _ _ _ _); [| reflexivity].
    unfold writeCSV. destruct (write_ok e); reflexivity.
  - cbn [guarded]. simpl sessions. destruct (isAuthenticated _); [reflexivity |].
    destruct (isAdmin _); [reflexivity |].
    unfold update_role.
    destruct (js_to_string _); [| reflexivity].
    destruct (nonempty _); [| reflexivity].
    rewrite readCSV_scrub, set_role_scrub.
    destruct (negb _); [reflexivity |].
    destruct (set_role _ _ _); [| reflexivity]. simpl.
    unfold writeCSV. destruct (write_ok e); reflexivity.
  - cbn [guarded]. simpl sessions. destruct (isAuthenticated _); [reflexivity |].
    destruct (isAdmin _); [reflexivity |].
    unfold delete_user. simpl sessions.
    destruct (_ !! _); [| reflexivity].
    rewrite readCSV_scrub, filter_scrub, length_map.
    destruct (String.eqb _ _); [reflexivity |].
    destruct (_ =? _)%nat; [reflexivity |].
    unfold writeCSV. destruct (write_ok e); reflexivity.
Qed.

Lemma truthy_long pw : 6 <= String.length pw -> js_truthy (JStr pw) = true.
Proof. destruct pw; simpl; [lia | reflexivity]. Qed.

(** Outside the login, the answer is the same for any two passwords
    that are strings and pass the length check. *)
Lemma answers_ignore_request_password e st rq pw pw' :
  target rq <> POST_login ->
  6 <= String.length pw -> 6 <= String.length pw' ->
  snd (app e st (with_password (JStr pw) rq))
  = snd (app e st (with_password (JStr pw') rq)).
Proof.
  intros Hne Hl Hl'. unfold app, with_password. cbn [target].
  destruct (target rq) as [| | | | | | | em | em |]; try contradiction;
    try reflexivity.
  - unfold register. cbn [req_body b_name b_email b_password].
    rewrite !truthy_long by assumption. cbn [length_below hash].
    destruct (negb _ || negb _ || negb true); [reflexivity |].
    destruct (Nat.ltb_spec (String.length pw) 6); [lia |].
    destruct (Nat.ltb_spec (String.length pw') 6); [lia |].
    destruct (existsb _ _); [reflexivity |].
    unfold unparse_user.
    destruct (cell_of _); [| reflexivity]. destruct (cell_of _); [| reflexivity].
    cbn [cell_of js_to_string].
    unfold writeCSV. destruct (write_ok e); reflexivity.
  - cbn [guarded cookie]. destruct (isAuthenticated _); [reflexivity |].
    destruct (isAdmin _); [reflexivity |].
    unfold add_user. cbn [req_body b_name b_email b_password b_role].
    rewrite !truthy_long by assumption. cbn [length_below hash].
    destruct (negb _ || negb _ || negb true); [reflexivity |].
    destruct (Nat.ltb_spec (String.length pw) 6); [lia |].
    destruct (Nat.ltb_spec (String.length pw') 6); [lia |].
    destruct (existsb _ _); [reflexivity |].
    unfold unparse_user.
    destruct (cell_of _); [| reflexivity]. destruct (cell_of _); [| reflexivity].
    destruct (cell_of _); [| reflexivity].
    unfold writeCSV. destruct (write_ok e); reflexivity.
Qed.

(** The seed of [users.csv] carries a hash as well. *)
Lemma bootstrap_passwords_hashed e st u :
  In u (readCSV (users_csv (bootstrap e st))) ->
  In u (readCSV (users_csv st))
  \/ u.(password) = bcrypt_hash (salt e) "admin123" 10.
Proof.
  unfold bootstrap.
  assert (forall st1, users_csv
            match feeds_csv st1 with
            | Some _ => st1
            | None => {| users_csv := users_csv st1; feeds_csv := Some [];
                         sessions := sessions st1 |}
            end = users_csv st1) as -> by (intros st1; destruct (feeds_csv st1); reflexivity).
  destruct (users_csv st) as [users |] eqn:Hu.
  - destruct users as [| x users]; cbn [length Nat.eqb].
    + unfold writeCSV. destruct (write_ok e); cbn [fst set_users users_csv readCSV].
      * intros [<- | []]. right. reflexivity.
      * intros [].
    + rewrite Hu. intros Hin. left. exact Hin.
  - unfold writeCSV. destruct (write_ok e); cbn [fst set_users users_csv readCSV].
    + intros [<- | []]. right. reflexivity.
    + intros [].
Qed.

(** The four shapes of the answer to a login. *)
Lemma login_answers e st rq :
  snd (login e st rq) = json 400 (error "Email and password are required")
  \/ snd (login e st rq) = json 401 (error "Invalid email or password")
  \/ snd (login e st rq) = json 500 (error "Server error during login")
  \/ exists u, In u (readCSV (users_csv st))
               /\ snd (login e st rq)
                  = json 200 (JObj [("message", JStr "Login successful");
                                    ("user", public_user u.(name) u.(email) u.(role))]).
Proof.
  unfold login.
  destruct (negb _ || negb _); [left; reflexivity |].
  destruct (find _ _) as [u |] eqn:Hf; [| right; left; reflexivity].
  destruct (compare _ _) as [[|] |]; cbn [negb].
  - right; right; right. exists u. split; [| reflexivity].
    apply find_some in Hf. apply Hf.
  - right; left; reflexivity.
  - right; right; left; reflexivity.
Qed.


End Passwords.

(** ** Sensor feed *)

Section SensorFeed.
Context `{Bcrypt} `{Engine}.

(** [slice(-n)] cuts the list in two: what it keeps is the suffix of
    [min n (length a)] elements. *)
Lemma slice_last_suffix {A} n (a : list A) :
  exists older, a = older ++ slice_last n a
                /\ length (slice_last n a) = Nat.min n (length a).
Proof.
  exists (firstn (length a - n) a). unfold slice_last. split.
  - symmetry. apply firstn_skipn.
  - rewrite length_skipn. lia.
Qed.

Lemma slice_last_map {A B} (f : A -> B) n (a : list A) :
  slice_last n (map f a) = map f (slice_last n a).
Proof. unfold slice_last. rewrite length_map. apply skipn_map. Qed.

Lemma latest_view_process f :
  latest_view (process f)
  = JObj [("field1", JNum (or_zero (parseFloat f.(field1))));
          ("field2", JNum (or_zero (parseFloat f.(field2))));
          ("field3", JNum (or_zero (parseFloat f.(field3))));
          ("timestamp", of_opt f.(created_at))].
Proof. reflexivity. Qed.

(** C4, as amended.  With a session, [GET /api/sensors] on a
    non-empty feed answers 200 with [history] the processed readings
    of the last [min 20 n] rows in arrival order, [recent] those of
    the last [min 10 n] rows in reverse order, and [latest] the
    [field1], [field2], [field3] and [timestamp] of the last row
    (its [entry_id] is not part of it); on an empty or missing feed
    it answers [{latest: {}, history: [], recent: []}]. *)
Theorem sensors_windows e st rq su :
  target rq = GET_sensors ->
  sessions st !! cookie rq = Some su ->
  (readCSV (feeds_csv st) = [] ->
     app e st rq = (st, json 200 (JObj [("latest", JObj []);
                                        ("history", JArr []);
                                        ("recent", JArr [])])))
  /\ (forall earlier f, readCSV (feeds_csv st) = earlier ++ [f] ->
      exists old20 last20 old10 last10,
        readCSV (feeds_csv st) = old20 ++ last20
        /\ length last20 = Nat.min 20 (length (readCSV (feeds_csv st)))
        /\ readCSV (feeds_csv st) = old10 ++ last10
        /\ length last10 = Nat.min 10 (length (readCSV (feeds_csv st)))
        /\ app e st rq
           = (st, json 200
                (JObj [("latest",
                        JObj [("field1", JNum (or_zero (parseFloat f.(field1))));
                              ("field2", JNum (or_zero (parseFloat f.(field2))));
                              ("field3", JNum (or_zero (parseFloat f.(field3))));
                              ("timestamp", of_opt f.(created_at))]);
                       ("history", JArr (map process last20));
                       ("recent", JArr (rev (map process last10)))]))).
Proof.
  intros Ht Hs. unfold app. rewrite Ht. cbn [guarded].
  rewrite Hs. cbn [isAuthenticated]. unfold sensors. split.
  - intros ->. reflexivity.
  - intros earlier f Hfeeds.
    set (feeds := readCSV (feeds_csv st)) in *.
    destruct (slice_last_suffix 20 feeds) as [old20 [H20 L20]].
    destruct (slice_last_suffix 10 feeds) as [old10 [H10 L10]].
    exists old20, (slice_last 20 feeds), old10, (slice_last 10 feeds).
    split; [exact H20 |]. split; [exact L20 |].
    split; [exact H10 |]. split; [exact L10 |].
    assert ((length feeds =? 0)%nat = false) as ->.
    { apply Nat.eqb_neq. rewrite Hfeeds, length_app. simpl. lia. }
    rewrite !slice_last_map.
    assert (List.last (map process feeds) JUndefined = process f) as ->.
    { rewrite Hfeeds, map_app. simpl. apply last_last. }
    rewrite latest_view_process. reflexivity.
Qed.

End SensorFeed.

(** ** Numeric coercion *)

Example parseFloat_ex1 : parseFloat (Some "23.50") = Number_of (Dec false 2350 (-2)).
Proof. reflexivity. Qed.
Example parseFloat_ex2 : parseFloat (Some "  -1.5e3xyz") = Number_of (Dec true 15 2).
Proof. reflexivity. Qed.
Example parseFloat_ex3 : parseFloat (Some ".5") = Number_of (Dec false 5 (-1)).
Proof. reflexivity. Qed.
Example parseFloat_ex4 : parseFloat (Some "5.") = Number_of (Dec false 5 0).
Proof. reflexivity. Qed.
Example parseFloat_ex5 : parseFloat (Some "1e") = Number_of (Dec false 1 0).
Proof. reflexivity. Qed.
Example parseFloat_ex6 : parseFloat (Some "-Infinity") = S754_infinity true.
Proof. reflexivity. Qed.
Example parseFloat_ex7 : parseFloat (Some "abc") = NaN.
Proof. reflexivity. Qed.
Example parseFloat_ex8 : parseFloat None = NaN.
Proof. reflexivity. Qed.
Example parseFloat_ex9 : parseFloat (Some "") = NaN.
Proof. reflexivity. Qed.
Example parseFloat_ex10 : parseFloat (Some "1e-2") = Number_of (Dec false 1 (-2)).
Proof. reflexivity. Qed.
Example parseFloat_ex11 : parseFloat (Some ".") = NaN.
Proof. reflexivity. Qed.
Example parseFloat_ex12 : parseFloat (Some "12abc") = of_nat 12.
Proof. vm_compute. reflexivity. Qed.
Example parseFloat_ex13 : parseFloat (Some "0.1") = S754_finite false 7205759403792794 (-56).
Proof. vm_compute. reflexivity. Qed.
Example parseFloat_ex14 : parseFloat (Some "1e400") = S754_infinity false.
Proof. vm_compute. reflexivity. Qed.
Example parseFloat_ex15 : parseFloat (Some "-1e-400") = S754_zero true.
Proof. vm_compute. reflexivity. Qed.
Example parseFloat_ex16 :
  parseFloat (Some "9007199254740993") = S754_finite false 4503599627370496 1.
Proof. vm_compute. reflexivity. Qed.
Example parseFloat_ex17 :
  parseFloat (Some (String "160" " 42")) = of_nat 42.
Proof. vm_compute. reflexivity. Qed.
Example parseFloat_ex18 : parseFloat (Some "5e-324") = S754_finite false 1 (-1074).
Proof. vm_compute. reflexivity. Qed.

Section Coercion.

(** Rounding to a Number never gives NaN. *)
Lemma shr_1_nonneg mrs : (0 <= shr_m mrs)%Z -> (0 <= shr_m (shr_1 mrs))%Z.
Proof.
  destruct mrs as [[| p | p] r s]; cbn [shr_m shr_1]; intros Hm; try lia;
    destruct p; cbn [shr_m]; lia.
Qed.

Lemma iter_shr_1_nonneg p mrs :
  (0 <= shr_m mrs)%Z -> (0 <= shr_m (SpecFloat.iter_pos shr_1 p mrs))%Z.
Proof.
  revert mrs. induction p as [p IH | p IH |]; intros mrs Hm; cbn [SpecFloat.iter_pos].
  - apply IH, IH, shr_1_nonneg, Hm.
  - apply IH, IH, Hm.
  - apply shr_1_nonneg, Hm.
Qed.

Lemma shr_fexp_nonneg m e l :
  (0 <= m)%Z -> (0 <= shr_m (fst (shr_fexp 53 1024 m e l)))%Z.
Proof.
  intros Hm. unfold shr_fexp, shr.
  assert (0 <= shr_m (shr_record_of_loc m l))%Z as Hr by (destruct l as [| []]; exact Hm).
  destruct (_ - e)%Z as [| p | p]; cbn [fst]; try exact Hr.
  apply iter_shr_1_nonneg. exact Hr.
Qed.

Lemma round_nearest_even_nonneg m l : (0 <= m)%Z -> (0 <= round_nearest_even m l)%Z.
Proof.
  intros Hm. destruct l as [| []]; cbn [round_nearest_even]; try lia.
  destruct (Z.even m); lia.
Qed.

Lemma binary_round_aux_not_nan sx mx ex lx :
  (0 <= mx)%Z -> binary_round_aux 53 1024 sx mx ex lx <> S754_nan.
Proof.
  intros Hm. unfold binary_round_aux.
  pose proof (shr_fexp_nonneg mx ex lx Hm) as H1.
  destruct (shr_fexp 53 1024 mx ex lx) as [mrs' e']. cbn [fst] in H1.
  pose proof (shr_fexp_nonneg _ e' loc_Exact
                (round_nearest_even_nonneg _ (loc_of_shr_record mrs') H1)) as H2.
  destruct (shr_fexp 53 1024 _ e' loc_Exact) as [mrs'' e'']. cbn [fst] in H2.
  destruct (shr_m mrs'') as [| p | p]; [discriminate | | lia].
  destruct (e'' <=? _)%Z; discriminate.
Qed.

Lemma binary_round_not_nan sx mx ex : binary_round 53 1024 sx mx ex <> S754_nan.
Proof.
  unfold binary_round. destruct (shl_align _ _ _) as [mz ez].
  apply binary_round_aux_not_nan. lia.
Qed.

Lemma SFdiv_not_nan sx mx ex sy my ey :
  SFdiv 53 1024 (S754_finite sx mx ex) (S754_finite sy my ey) <> S754_nan.
Proof.
  unfold SFdiv, SFdiv_core_binary.
  set (m' := match _ with Z0 => _ | Zpos _ => _ | Zneg _ => _ end).
  assert (0 <= m')%Z as Hm'.
  { subst m'. destruct (_ - _ - _)%Z as [| p | p]; try lia.
    apply Z.shiftl_nonneg. lia. }
  pose proof (Z.div_pos m' (Zpos my) Hm' ltac:(lia)) as Hq.
  unfold Z.div in Hq. destruct (Z.div_eucl m' (Z.pos my)) as [q r]. cbn [fst] in Hq.
  apply binary_round_aux_not_nan. exact Hq.
Qed.

Lemma Number_of_not_nan x : Number_of x <> NaN.
Proof.
  destruct x as [sg | sg [| m] [| k | k]]; cbn [Number_of]; try discriminate.
  - apply binary_round_not_nan.
  - apply binary_round_not_nan.
  - apply SFdiv_not_nan.
Qed.

Lemma append_cons x (a b : string) : String x a +:+ b = String x (a +:+ b).
Proof. reflexivity. Qed.

Lemma append_nil (b : string) : "" +:+ b = b.
Proof. reflexivity. Qed.

Lemma append_nil_r (a : string) : a +:+ "" = a.
Proof.
  induction a as [| x a IH]; [reflexivity |].
  rewrite append_cons, IH. reflexivity.
Qed.

Lemma append_assoc (a b c : string) : (a +:+ b) +:+ c = a +:+ (b +:+ c).
Proof.
  induction a as [| x a IH]; [reflexivity |].
  rewrite !append_cons. f_equal. exact IH.
Qed.

Lemma length_append (a b : string) :
  String.length (a +:+ b) = String.length a + String.length b.
Proof.
  induction a as [| x a IH]; [reflexivity |].
  rewrite append_cons. cbn [String.length]. rewrite IH. reflexivity.
Qed.

Lemma digits_value_append ds ds' acc :
  digits_value (ds +:+ ds') acc = digits_value ds' (digits_value ds acc).
Proof.
  revert acc. induction ds as [| c r IH]; intros acc; [reflexivity |].
  rewrite append_cons. cbn [digits_value]. apply IH.
Qed.

Lemma read_digits_stop s acc :
  no_digit_ahead s = true -> read_digits s acc = (acc, 0, s).
Proof.
  destruct s as [| c r]; [reflexivity |]. simpl.
  destruct (is_digit c); [discriminate | reflexivity].
Qed.

(** [read_digits] takes a run of digits whole. *)
Lemma read_digits_run ds rest acc :
  all_digits ds = true -> no_digit_ahead rest = true ->
  read_digits (ds +:+ rest) acc = (digits_value ds acc, String.length ds, rest).
Proof.
  intros Hds Hrest. revert acc.
  induction ds as [| c r IH]; intros acc.
  - apply read_digits_stop. exact Hrest.
  - simpl in Hds. apply andb_true_iff in Hds. destruct Hds as [Hc Hr].
    rewrite append_cons. cbn [read_digits digits_value String.length].
    rewrite Hc, (IH Hr). reflexivity.
Qed.

Lemma stops_no_digit rest : stops rest = true -> no_digit_ahead rest = true.
Proof.
  destruct rest as [| c r]; [reflexivity |]. simpl.
  destruct (is_digit c); [discriminate | reflexivity].
Qed.

Lemma read_exponent_none rest :
  stops rest = true -> read_exponent rest = (0%Z, rest).
Proof.
  destruct rest as [| c r]; [reflexivity |]. simpl. intros Hs.
  destruct (is_digit c); [discriminate |].
  destruct (Ascii.eqb c "."); [discriminate |].
  destruct (Ascii.eqb c "e"); [discriminate |].
  destruct (Ascii.eqb c "E"); [discriminate |]. reflexivity.
Qed.

Lemma digit_not_sign c :
  is_digit c = true -> Ascii.eqb c "+" = false /\ Ascii.eqb c "-" = false.
Proof.
  intros Hc. split.
  - destruct (Ascii.eqb_spec c "+") as [-> | _]; [discriminate Hc | reflexivity].
  - destruct (Ascii.eqb_spec c "-") as [-> | _]; [discriminate Hc | reflexivity].
Qed.

(** [read_exponent] takes a whole exponent part. *)
Lemma read_exponent_some marker sg ds rest :
  marker = "e"%char \/ marker = "E"%char ->
  all_digits ds = true -> ds <> "" -> no_digit_ahead rest = true ->
  read_exponent (exponent_text (Some (marker, sg, ds)) +:+ rest)
  = (exponent_value (Some (marker, sg, ds)), rest).
Proof.
  intros Hm Hds Hne Hrest.
  assert (Ascii.eqb marker "e" || Ascii.eqb marker "E" = true) as Hmark.
  { destruct Hm as [-> | ->]; reflexivity. }
  destruct ds as [| d ds']; [contradiction |].
  pose proof Hds as Hd. simpl in Hd. apply andb_true_iff in Hd.
  destruct Hd as [Hd _]. destruct (digit_not_sign d Hd) as [Hp Hn].
  pose proof (read_digits_run (String d ds') rest 0 Hds Hrest) as Hrun.
  unfold read_exponent, exponent_text, exponent_value. rewrite append_cons, Hmark.
  destruct sg as [[|] |]; cbn [render_sign is_negative];
    rewrite ?append_cons, ?append_nil.
  - change (Ascii.eqb "-" "+") with false. change (Ascii.eqb "-" "-") with true.
    cbv iota. rewrite <- append_cons, Hrun. reflexivity.
  - change (Ascii.eqb "+" "+") with true.
    cbv iota. rewrite <- append_cons, Hrun. reflexivity.
  - rewrite append_cons. cbv iota. rewrite Hp, Hn, <- append_cons, Hrun. reflexivity.
Qed.

Lemma read_exponent_literal x rest :
  match x with
  | Some (marker, _, ds) =>
      (marker = "e"%char \/ marker = "E"%char) /\ all_digits ds = true /\ ds <> ""
  | None => True
  end ->
  stops rest = true ->
  read_exponent (exponent_text x +:+ rest) = (exponent_value x, rest).
Proof.
  intros Hx Hrest. destruct x as [[[marker sg] ds] |].
  - destruct Hx as (Hm & Hds & Hne).
    apply read_exponent_some; auto using stops_no_digit.
  - apply read_exponent_none. exact Hrest.
Qed.

Lemma strip_prefix_none c p s :
  not_ahead c s = true -> strip_prefix (String c p) s = None.
Proof.
  destruct s as [| x r]; [reflexivity |]. simpl.
  destruct (Ascii.eqb c x); [discriminate | reflexivity].
Qed.

Lemma exponent_ahead x rest :
  match x with
  | Some (marker, _, ds) =>
      (marker = "e"%char \/ marker = "E"%char) /\ all_digits ds = true /\ ds <> ""
  | None => True
  end ->
  stops rest = true ->
  no_digit_ahead (exponent_text x +:+ rest) = true
  /\ not_ahead "." (exponent_text x +:+ rest) = true.
Proof.
  intros Hx Hrest. destruct x as [[[marker sg] ds] |].
  - destruct Hx as ([-> | ->] & _ & _); split; reflexivity.
  - cbn [exponent_text]. rewrite append_nil.
    split; [apply stops_no_digit; exact Hrest |].
    destruct rest as [| c r]; [reflexivity |].
    unfold stops in Hrest. unfold not_ahead. rewrite Ascii.eqb_sym.
    destruct (is_digit c); [discriminate Hrest |].
    destruct (Ascii.eqb c "."); [discriminate Hrest | reflexivity].
Qed.

Lemma digit_ahead_not c d r :
  is_digit d = true -> is_digit c = false -> not_ahead c (String d r) = true.
Proof.
  intros Hd Hc. simpl. destruct (Ascii.eqb_spec c d) as [-> | _]; [congruence | reflexivity].
Qed.

(** [read_unsigned] takes an unsigned literal whole and gives its
    value. *)
Lemma read_unsigned_literal sg l rest :
  well_formed l -> stops rest = true ->
  read_unsigned sg (unsigned_text l +:+ rest)
  = Some (Dec sg (digits_value (l_int l +:+ fraction_digits (l_frac l)) 0)
              (exponent_value (l_exp l)
               - Z.of_nat (String.length (fraction_digits (l_frac l)))),
          rest).
Proof.
  intros (Hint & Hfrac & Hexp) Hrest.
  destruct (exponent_ahead (l_exp l) rest Hexp Hrest) as [Hxd Hxp].
  pose proof (read_exponent_literal (l_exp l) rest Hexp Hrest) as Hx.
  unfold read_unsigned, unsigned_text. rewrite !append_assoc.
  set (tail := exponent_text (l_exp l) +:+ rest) in *.
  destruct (l_frac l) as [fp |]; cbn [fraction_text fraction_digits].
  - destruct Hfrac as [Hfp Hne]. rewrite !append_assoc, append_cons, append_nil.
    assert (strip_prefix "Infinity" (l_int l +:+ String "." (fp +:+ tail)) = None) as ->.
    { apply strip_prefix_none. destruct (l_int l) as [| d r]; [reflexivity |].
      simpl in Hint. apply andb_true_iff in Hint.
      rewrite append_cons. apply digit_ahead_not; [apply Hint | reflexivity]. }
    rewrite (read_digits_run (l_int l) (String "." (fp +:+ tail)) 0 Hint eq_refl).
    cbn [strip_prefix]. change (Ascii.eqb "." ".") with true. cbv iota.
    rewrite (read_digits_run fp tail _ Hfp Hxd).
    assert ((String.length (l_int l) =? 0)%nat && (String.length fp =? 0)%nat = false)
      as ->.
    { destruct (l_int l), fp; try reflexivity. destruct Hne; contradiction. }
    rewrite Hx, digits_value_append. reflexivity.
  - rewrite append_nil, append_nil_r.
    destruct (l_int l) as [| d r] eqn:Hl; [contradiction |].
    assert (strip_prefix "Infinity" (String d r +:+ tail) = None) as ->.
    { apply strip_prefix_none. simpl in Hint. apply andb_true_iff in Hint.
      rewrite append_cons. apply digit_ahead_not; [apply Hint | reflexivity]. }
    rewrite (read_digits_run (String d r) tail 0 Hint Hxd).
    rewrite (strip_prefix_none "." "" tail Hxp).
    cbn [String.length Nat.eqb Z.of_nat]. rewrite Hx, Z.sub_0_r. reflexivity.
Qed.

Lemma trim_start_spaces ws s : all_spaces ws = true -> trim_start (ws +:+ s) = trim_start s.
Proof.
  intros Hws. induction ws as [| c r IH]; [reflexivity |].
  simpl in Hws. apply andb_true_iff in Hws. destruct Hws as [Hc Hr].
  rewrite append_cons. cbn [trim_start]. rewrite Hc. apply IH. exact Hr.
Qed.

Lemma digit_not_space c : is_digit c = true -> is_space c = false.
Proof.
  unfold is_digit, is_space. intros Hc. apply andb_true_iff in Hc.
  destruct Hc as [Hlo Hhi]. apply Nat.leb_le in Hlo. apply Nat.leb_le in Hhi.
  apply orb_false_iff. split; [apply orb_false_iff; split |].
  - apply andb_false_iff. right. apply Nat.leb_gt. lia.
  - apply Nat.eqb_neq. lia.
  - apply Nat.eqb_neq. lia.
Qed.

(** [parseFloat] reads a literal whole, white space before it and
    whatever stops it after it left aside, and gives its value. *)
Lemma parseFloat_literal ws l rest :
  all_spaces ws = true -> well_formed l -> stops rest = true ->
  parseFloat (Some (ws +:+ render l +:+ rest)) = Number_of (literal_value l).
Proof.
  intros Hws Hl Hrest. unfold parseFloat. rewrite (trim_start_spaces _ _ Hws).
  pose proof (read_unsigned_literal (is_negative (l_sign l)) l rest Hl Hrest) as Hu.
  unfold render, literal_value. rewrite append_assoc.
  destruct (l_sign l) as [[|] |]; cbn [render_sign is_negative] in *;
    rewrite ?append_cons, ?append_nil.
  - cbn [trim_start]. change (is_space "-") with false. cbv iota.
    unfold read_decimal. change (Ascii.eqb "-" "+") with false.
    change (Ascii.eqb "-" "-") with true. cbv iota. rewrite Hu. reflexivity.
  - cbn [trim_start]. change (is_space "+") with false. cbv iota.
    unfold read_decimal. change (Ascii.eqb "+" "+") with true.
    cbv iota. rewrite Hu. reflexivity.
  - destruct Hl as (Hint & Hfrac & _).
    assert (exists c r, unsigned_text l +:+ rest = String c r
                        /\ is_space c = false
                        /\ Ascii.eqb c "+" = false /\ Ascii.eqb c "-" = false)
      as (c & r & Heq & Hsp & Hp & Hm).
    { unfold unsigned_text. destruct (l_int l) as [| d ds].
      - destruct (l_frac l) as [fp |]; [| contradiction].
        exists "."%char. eexists. rewrite append_nil. cbn [fraction_text].
        rewrite !append_cons, append_nil. repeat split.
      - exists d. eexists. rewrite !append_cons.
        simpl in Hint. apply andb_true_iff in Hint. destruct Hint as [Hd _].
        split; [reflexivity |]. split; [apply digit_not_space; exact Hd |].
        apply digit_not_sign. exact Hd. }
    rewrite Heq in *. cbn [trim_start]. rewrite Hsp.
    unfold read_decimal. rewrite Hp, Hm, Hu. reflexivity.
Qed.

Lemma read_digits_count s acc :
  snd (fst (read_digits s acc)) = 0 <-> no_digit_ahead s = true.
Proof.
  destruct s as [| c r]; [split; reflexivity |]. simpl.
  destruct (is_digit c); [| split; reflexivity].
  destruct (read_digits r _) as [[v n] rest]. simpl. split; discriminate.
Qed.

Lemma read_unsigned_none sg t :
  read_unsigned sg t = None
  <-> strip_prefix "Infinity" t = None
      /\ match t with
         | String c r =>
             is_digit c
             || (Ascii.eqb c "."
                 && match r with String d _ => is_digit d | EmptyString => false end)
         | EmptyString => false
         end = false.
Proof.
  unfold read_unsigned.
  destruct (strip_prefix "Infinity" t) as [rest |].
  { split; [discriminate | intros [Hs _]; discriminate Hs]. }
  destruct t as [| c r].
  { split; [split; reflexivity | reflexivity]. }
  cbn [read_digits]. destruct (is_digit c) eqn:Hc.
  - destruct (read_digits r _) as [[ip n] r1].
    destruct (strip_prefix "." r1) as [r2 |].
    + destruct (read_digits r2 ip) as [[m nf] r3]. cbn [Nat.eqb andb].
      destruct (read_exponent r3) as [x rest].
      split; [discriminate | intros [_ Hh]; discriminate Hh].
    + cbn [Nat.eqb]. destruct (read_exponent r1) as [x rest].
      split; [discriminate | intros [_ Hh]; discriminate Hh].
  - cbn [strip_prefix orb]. rewrite Ascii.eqb_sym.
    destruct (Ascii.eqb c ".").
    + pose proof (read_digits_count r 0) as Hn.
      destruct (read_digits r 0) as [[m nf] r3]. simpl in Hn.
      cbn [Nat.eqb andb].
      assert (no_digit_ahead r = negb match r with
                                      | String d _ => is_digit d
                                      | EmptyString => false
                                      end) as Hneg by (destruct r; reflexivity).
      destruct nf as [| nf].
      * cbn [Nat.eqb]. destruct Hn as [Hn _]. specialize (Hn eq_refl).
        rewrite Hneg in Hn. apply negb_true_iff in Hn. rewrite Hn.
        split; [split; reflexivity | reflexivity].
      * cbn [Nat.eqb]. destruct (read_exponent r3) as [x rest].
        split; [discriminate |]. intros [_ Hh]. cbn [andb] in Hh.
        destruct Hn as [_ Hn]. rewrite Hneg, Hh in Hn. discriminate (Hn eq_refl).
    + cbn [Nat.eqb andb]. split; [split; reflexivity | reflexivity].
Qed.

(** [parseFloat] gives NaN exactly when no literal begins the string
    once its leading white space is dropped. *)
Lemma parseFloat_nan s :
  parseFloat (Some s) = NaN <-> begins_literal (trim_start s) = false.
Proof.
  unfold parseFloat, begins_literal, read_decimal.
  set (t := trim_start s).
  assert (forall sg u,
            match read_unsigned sg u with Some (x, _) => Number_of x | None => NaN end
            = NaN
            <-> match strip_prefix "Infinity" u with
                | Some _ => true
                | None =>
                    match u with
                    | String c r =>
                        is_digit c
                        || (Ascii.eqb c "."
                            && match r with
                               | String d _ => is_digit d
                               | EmptyString => false
                               end)
                    | EmptyString => false
                    end
                end = false) as Hu.
  { intros sg u. pose proof (read_unsigned_none sg u) as Hn.
    destruct (read_unsigned sg u) as [[x rest] |] eqn:Hr.
    - pose proof (Number_of_not_nan x) as Hx.
      split; [intros Heq; contradiction |].
      intros Hb. destruct (strip_prefix "Infinity" u); [discriminate Hb |].
      destruct Hn as [_ Hn]. discriminate (Hn (conj eq_refl Hb)).
    - destruct Hn as [Hn _]. destruct (Hn eq_refl) as [-> Hh].
      split; [intros _; exact Hh | reflexivity]. }
  destruct t as [| c r]; [apply Hu |].
  destruct (Ascii.eqb c "+"); [apply Hu |].
  destruct (Ascii.eqb c "-"); [apply Hu |]. apply Hu.
Qed.

Lemma all_chars_append p a b :
  all_chars p (a +:+ b) = all_chars p a && all_chars p b.
Proof.
  induction a as [| c a IH]; [reflexivity |].
  rewrite append_cons. cbn [all_chars]. rewrite IH, andb_assoc. reflexivity.
Qed.

Lemma all_chars_weaken (p q : ascii -> bool) s :
  (forall c, p c = true -> q c = true) -> all_chars p s = true -> all_chars q s = true.
Proof.
  intros Hpq. induction s as [| c r IH]; [reflexivity |]. cbn [all_chars].
  intros Hs. apply andb_true_iff in Hs. destruct Hs as [Hc Hr].
  rewrite (Hpq c Hc), (IH Hr). reflexivity.
Qed.

Lemma all_digits_chars s : all_digits s = all_chars is_digit s.
Proof. induction s as [| c r IH]; [reflexivity |]. simpl. rewrite IH. reflexivity. Qed.

Lemma all_spaces_chars s : all_spaces s = all_chars is_space s.
Proof. induction s as [| c r IH]; [reflexivity |]. simpl. rewrite IH. reflexivity. Qed.

(** A decimal literal is made of white space, digits, signs, the
    point and the exponent markers. *)
Lemma decimal_literal_chars s :
  decimal_literal s -> all_chars literal_char s = true.
Proof.
  intros (ws & l & Hws & (Hint & Hfrac & Hexp) & ->).
  assert (forall d, all_digits d = true -> all_chars literal_char d = true) as Hd.
  { intros d Hdd. rewrite all_digits_chars in Hdd.
    apply (all_chars_weaken is_digit); [| exact Hdd].
    intros c Hc. unfold literal_char. rewrite Hc.
    destruct (is_space c); reflexivity. }
  assert (forall sg, all_chars literal_char (render_sign sg) = true) as Hsg.
  { intros [[|] |]; reflexivity. }
  unfold render, unsigned_text. rewrite !all_chars_append.
  repeat (apply andb_true_iff; split).
  - rewrite all_spaces_chars in Hws.
    apply (all_chars_weaken is_space); [| exact Hws].
    intros c Hc. unfold literal_char. rewrite Hc. reflexivity.
  - apply Hsg.
  - apply Hd. exact Hint.
  - destruct (l_frac l) as [fp |]; [| reflexivity].
    cbn [fraction_text]. rewrite all_chars_append.
    apply andb_true_iff. split; [reflexivity | apply Hd; apply Hfrac].
  - destruct (l_exp l) as [[[marker sg] ds] |]; [| reflexivity].
    destruct Hexp as (Hm & Hds & _). cbn [exponent_text all_chars].
    rewrite all_chars_append, Hsg, (Hd ds Hds).
    destruct Hm as [-> | ->]; reflexivity.
Qed.

(** [parseFloat] reads an infinity whatever follows it. *)
Lemma parseFloat_infinity ws sg rest :
  all_spaces ws = true ->
  parseFloat (Some (ws +:+ render_sign sg +:+ "Infinity" +:+ rest))
  = S754_infinity (is_negative sg).
Proof.
  intros Hws. unfold parseFloat. rewrite (trim_start_spaces _ _ Hws).
  destruct sg as [[|] |]; reflexivity.
Qed.

Lemma wire_or_zero x : wire (JNum (or_zero x)) = sent x.
Proof. destruct x; reflexivity. Qed.

Lemma wire_arr items : wire (JArr items) = JArr (map wire_item items).
Proof.
  cbn [wire]. f_equal. induction items as [| x r IH]; [reflexivity |].
  cbn [map]. rewrite <- IH. destruct x; reflexivity.
Qed.

Lemma wire_processed feeds :
  map wire_item (map process feeds) = map (fun f => wire (process f)) feeds.
Proof. rewrite map_map. reflexivity. Qed.

(** The numeric fields of a row as the client reads it. *)
Lemma wire_process_field f k v :
  In (k, v) (sensor_fields f) ->
  get k (wire (process f)) = sent (parseFloat v).
Proof.
  intros Hin. unfold process.
  destruct (created_at f), (entry_id f); cbn [of_opt];
    destruct Hin as [Heq | [Heq | [Heq | []]]]; inversion Heq; subst;
    apply wire_or_zero.
Qed.

Lemma wire_latest_field f k v :
  In (k, v) (sensor_fields f) ->
  get k (wire (latest_view (process f))) = sent (parseFloat v).
Proof.
  intros Hin. rewrite latest_view_process.
  destruct (created_at f); cbn [of_opt];
    destruct Hin as [Heq | [Heq | [Heq | []]]]; inversion Heq; subst;
    apply wire_or_zero.
Qed.

Lemma sent_Number_of x :
  sent (Number_of x) = JNull \/ sent (Number_of x) = JNum zero
  \/ (sent (Number_of x) = JNum (Number_of x) /\ is_finite (Number_of x) = true
      /\ num_truthy (Number_of x) = true).
Proof.
  destruct (Number_of x); cbn [sent is_finite num_truthy]; auto.
Qed.

(** The three parts of the answer of [GET /api/sensors] on a feed
    that is not empty, as the client reads them. *)
Lemma sensors_wire `{Bcrypt} `{Engine} e st rq su earlier f0 :
  target rq = GET_sensors ->
  sessions st !! cookie rq = Some su ->
  readCSV (feeds_csv st) = earlier ++ [f0] ->
  get "history" (wire (body_of (snd (app e st rq))))
  = JArr (map (fun f => wire (process f)) (slice_last 20 (readCSV (feeds_csv st))))
  /\ get "recent" (wire (body_of (snd (app e st rq))))
     = JArr (rev (map (fun f => wire (process f)) (slice_last 10 (readCSV (feeds_csv st)))))
  /\ get "latest" (wire (body_of (snd (app e st rq)))) = wire (latest_view (process f0)).
Proof.
  intros Ht Hs Hfeeds.
  unfold app. rewrite Ht. cbn [guarded]. rewrite Hs. cbn [isAuthenticated].
  unfold sensors.
  assert ((length (readCSV (feeds_csv st)) =? 0)%nat = false) as ->.
  { apply Nat.eqb_neq. rewrite Hfeeds, length_app. simpl. lia. }
  assert (List.last (map process (readCSV (feeds_csv st))) JUndefined = process f0) as ->.
  { rewrite Hfeeds, map_app. simpl. apply last_last. }
  set (P := map process (readCSV (feeds_csv st))).
  change (body_of (snd (st, json 200 (JObj [("latest", latest_view (process f0));
                                            ("history", JArr (slice_last 20 P));
                                            ("recent", JArr (rev (slice_last 10 P)))]))))
    with (JObj [("latest", latest_view (process f0));
                ("history", JArr (slice_last 20 P));
                ("recent", JArr (rev (slice_last 10 P)))]).
  change (wire (JObj [("latest", latest_view (process f0));
                      ("history", JArr (slice_last 20 P));
                      ("recent", JArr (rev (slice_last 10 P)))]))
    with (JObj [("latest", wire (latest_view (process f0)));
                ("history", wire (JArr (slice_last 20 P)));
                ("recent", wire (JArr (rev (slice_last 10 P))))]).
  change (get "history" (JObj [("latest", wire (latest_view (process f0)));
                ("history", wire (JArr (slice_last 20 P)));
                ("recent", wire (JArr (rev (slice_last 10 P))))]))
    with (wire (JArr (slice_last 20 P))).
  change (get "recent" (JObj [("latest", wire (latest_view (process f0)));
                ("history", wire (JArr (slice_last 20 P)));
                ("recent", wire (JArr (rev (slice_last 10 P))))]))
    with (wire (JArr (rev (slice_last 10 P)))).
  change (get "latest" (JObj [("latest", wire (latest_view (process f0)));
                ("history", wire (JArr (slice_last 20 P)));
                ("recent", wire (JArr (rev (slice_last 10 P))))]))
    with (wire (latest_view (process f0))).
  rewrite !wire_arr. subst P.
  rewrite map_rev, !slice_last_map, !wire_processed.
  split; [reflexivity |]. split; reflexivity.
Qed.


End Coercion.

(** ** The CSV round trip *)

Section RoundTrip.
Import Csv.

Lemma scan_eof m acc row rows :
  scan m acc row rows [] = rev (rev (cell_text acc :: row) :: rows).
Proof. reflexivity. Qed.

Lemma scan_quoted_quote acc row rows r :
  scan Quoted acc row rows (quote :: r) = scan QuoteSeen acc row rows r.
Proof. reflexivity. Qed.

Lemma scan_quoted_other c acc row rows r :
  Ascii.eqb c quote = false ->
  scan Quoted acc row rows (c :: r) = scan Quoted (c :: acc) row rows r.
Proof. intros Hc. cbn [scan]. rewrite Hc. reflexivity. Qed.

Lemma scan_seen_quote acc row rows r :
  scan QuoteSeen acc row rows (quote :: r) = scan Quoted (quote :: acc) row rows r.
Proof. reflexivity. Qed.

Lemma scan_start_quote row rows r :
  scan FieldStart [] row rows (quote :: r) = scan Quoted [] row rows r.
Proof. reflexivity. Qed.

Lemma scan_comma m acc row rows r :
  m <> Quoted ->
  scan m acc row rows (comma :: r) = scan FieldStart [] (cell_text acc :: row) rows r.
Proof. destruct m; intros Hm; try reflexivity. contradiction. Qed.

Lemma scan_crlf m acc row rows r :
  m <> Quoted ->
  scan m acc row rows (CR :: LF :: r)
  = scan FieldStart [] [] (rev (cell_text acc :: row) :: rows) r.
Proof. destruct m; intros Hm; try reflexivity. contradiction. Qed.

Lemma is_bad_false c :
  is_bad c = false ->
  Ascii.eqb c quote = false /\ Ascii.eqb c comma = false
  /\ Ascii.eqb c CR = false /\ Ascii.eqb c LF = false.
Proof.
  unfold is_bad. intros Hb.
  apply orb_false_iff in Hb. destruct Hb as [Hb Hlf].
  apply orb_false_iff in Hb. destruct Hb as [Hb Hcr].
  apply orb_false_iff in Hb. destruct Hb as [Hq Hc]. auto.
Qed.

Lemma scan_plain m c acc row rows r :
  m = FieldStart \/ m = Unquoted ->
  is_bad c = false ->
  scan m acc row rows (c :: r) = scan Unquoted (c :: acc) row rows r.
Proof.
  intros Hm Hb. destruct (is_bad_false c Hb) as (Hq & Hc & Hcr & _).
  destruct Hm as [-> | ->]; cbn [scan]; rewrite Hq, Hc, Hcr;
    destruct r; reflexivity.
Qed.

(** At the end of a cell the three modes outside the quotes agree. *)
Lemma scan_field_end m acc row rows tl :
  m <> Quoted -> at_field_end tl = true ->
  scan m acc row rows tl = scan Unquoted acc row rows tl.
Proof.
  intros Hm Hend. destruct tl as [| c r]; [reflexivity |].
  unfold at_field_end in Hend. apply orb_true_iff in Hend.
  destruct Hend as [Hc | Hcr].
  - apply Ascii.eqb_eq in Hc. subst c. fold comma.
    rewrite !scan_comma; [reflexivity | discriminate | exact Hm].
  - apply andb_true_iff in Hcr. destruct Hcr as [Hc Hlf].
    destruct r as [| c' r]; [discriminate |].
    apply Ascii.eqb_eq in Hc, Hlf. subst c c'.
    rewrite !scan_crlf; [reflexivity | discriminate | exact Hm].
Qed.

Lemma unquoted_run t acc row rows tl :
  existsb is_bad t = false ->
  scan Unquoted acc row rows (t ++ tl) = scan Unquoted (rev t ++ acc) row rows tl.
Proof.
  revert acc. induction t as [| c t IH]; intros acc Hb; [reflexivity |].
  cbn [existsb] in Hb. apply orb_false_iff in Hb. destruct Hb as [Hc Ht].
  rewrite <- app_comm_cons, (scan_plain Unquoted) by auto.
  rewrite (IH _ Ht). cbn [rev]. rewrite <- app_assoc. reflexivity.
Qed.

Lemma quoted_run t acc row rows tl :
  scan Quoted acc row rows (escape t ++ quote :: tl)
  = scan QuoteSeen (rev t ++ acc) row rows tl.
Proof.
  revert acc. induction t as [| c t IH]; intros acc; [reflexivity |].
  cbn [escape rev]. rewrite <- app_assoc. cbn [List.app].
  destruct (Ascii.eqb c quote) eqn:Hc.
  - apply Ascii.eqb_eq in Hc. subst c.
    rewrite <- !app_comm_cons, scan_quoted_quote, scan_seen_quote. apply IH.
  - rewrite <- app_comm_cons, (scan_quoted_other c) by exact Hc. apply IH.
Qed.

(** Reading a written cell gives the cell back. *)
Lemma scan_safe cell row rows tl :
  at_field_end tl = true ->
  scan FieldStart [] row rows (safe cell ++ tl)
  = scan Unquoted (rev (list_ascii_of_string cell)) row rows tl.
Proof.
  intros Hend. unfold safe. set (t := list_ascii_of_string cell).
  destruct (needs_quotes t) eqn:Hq.
  - rewrite <- app_comm_cons, <- app_assoc. cbn [List.app].
    rewrite scan_start_quote, quoted_run, app_nil_r.
    apply scan_field_end; [discriminate | exact Hend].
  - unfold needs_quotes in Hq. apply orb_false_iff in Hq. destruct Hq as [Hq _].
    apply orb_false_iff in Hq. destruct Hq as [Hbad _].
    destruct t as [| c t'].
    + apply scan_field_end; [discriminate | exact Hend].
    + cbn [existsb] in Hbad. apply orb_false_iff in Hbad. destruct Hbad as [Hc Ht].
      rewrite <- app_comm_cons, (scan_plain FieldStart) by auto.
      rewrite (unquoted_run _ _ _ _ _ Ht). reflexivity.
Qed.

Lemma cell_text_rev cell : cell_text (rev (list_ascii_of_string cell)) = cell.
Proof. unfold cell_text. rewrite rev_involutive. apply string_of_list_ascii_of_string. Qed.

Lemma line_end_field_end tl : at_line_end tl = true -> at_field_end tl = true.
Proof.
  destruct tl as [| c r]; [reflexivity |]. simpl. intros ->. apply orb_true_r.
Qed.

(** Reading a written line gives its cells back. *)
Lemma scan_line cells row rows tl :
  cells <> [] -> at_line_end tl = true ->
  scan FieldStart [] row rows (line cells ++ tl) = row_done (rev cells ++ row) rows tl.
Proof.
  intros Hne Hend. revert row.
  induction cells as [| c cells IH]; intros row; [contradiction |].
  destruct cells as [| c2 cells].
  - unfold line. cbn [map join rev List.app].
    rewrite (scan_safe c row rows tl (line_end_field_end tl Hend)).
    destruct tl as [| x [| y r]].
    + rewrite scan_eof, cell_text_rev. reflexivity.
    + simpl in Hend. rewrite andb_false_r in Hend. discriminate.
    + simpl in Hend. apply andb_true_iff in Hend. destruct Hend as [Hx Hy].
      apply Ascii.eqb_eq in Hx, Hy. subst x y.
      rewrite scan_crlf by discriminate. rewrite cell_text_rev. reflexivity.
  - change (line (c :: c2 :: cells))
      with (safe c ++ [comma] ++ line (c2 :: cells)).
    rewrite <- !app_assoc. cbn [List.app].
    rewrite scan_safe by reflexivity.
    rewrite scan_comma by discriminate. rewrite cell_text_rev.
    rewrite (IH ltac:(discriminate) (c :: row)).
    cbn [rev]. rewrite <- !app_assoc. reflexivity.
Qed.

(** Reading written lines gives them back. *)
Lemma scan_lines ls rows :
  ls <> [] -> Forall (fun cells => cells <> []) ls ->
  scan FieldStart [] [] rows (join [CR; LF] (map line ls)) = rev rows ++ ls.
Proof.
  intros Hne Hall. revert rows.
  induction ls as [| l ls IH]; intros rows; [contradiction |].
  inversion Hall as [| ? ? Hl Hls]; subst.
  destruct ls as [| l2 ls].
  - cbn [map join]. rewrite <- (app_nil_r (line l)).
    rewrite (scan_line l [] rows [] Hl eq_refl).
    unfold row_done. rewrite app_nil_r, rev_involutive. reflexivity.
  - change (join [CR; LF] (map line (l :: l2 :: ls)))
      with (line l ++ CR :: LF :: join [CR; LF] (map line (l2 :: ls))).
    rewrite (scan_line l [] rows
               (CR :: LF :: join [CR; LF] (map line (l2 :: ls))) Hl eq_refl).
    unfold row_done. rewrite app_nil_r, rev_involutive.
    rewrite (IH ltac:(discriminate) Hls). cbn [rev]. rewrite <- app_assoc. reflexivity.
Qed.

Lemma cell_of_head k v (r : record) : cell_of ((k, v) :: r) k = v.
Proof. unfold cell_of. cbn [find fst snd]. rewrite String.eqb_refl. reflexivity. Qed.

Lemma cell_of_tail k v (r : record) col :
  col <> k -> cell_of ((k, v) :: r) col = cell_of r col.
Proof.
  intros Hne. unfold cell_of. cbn [find fst snd].
  destruct (String.eqb_spec k col) as [Heq | _]; [congruence | reflexivity].
Qed.

(** A record is rebuilt from its cells under its own columns. *)
Lemma to_record_cells (r : record) :
  List.NoDup (map fst r) ->
  to_record (map fst r) (map (cell_of r) (map fst r)) = r.
Proof.
  unfold to_record. induction r as [| [k v] r IH]; intros Hnd; [reflexivity |].
  cbn [map fst] in *. inversion Hnd as [| ? ? Hk Hr]; subst.
  rewrite cell_of_head. cbn [combine]. f_equal.
  assert (map (cell_of ((k, v) :: r)) (map fst r) = map (cell_of r) (map fst r)) as ->.
  { apply map_ext_in. intros col Hcol. apply cell_of_tail.
    intros ->. contradiction. }
  apply IH. exact Hr.
Qed.

Lemma rows_kept (columns : list string) (rows : list (list string)) :
  2 <= length columns ->
  Forall (fun row => length row = length columns) rows ->
  List.filter (fun row => negb (is_empty_line row)) rows = rows.
Proof.
  intros Hc Hall. induction Hall as [| row rows Hrow _ IH]; [reflexivity |].
  cbn [List.filter]. rewrite IH.
  destruct row as [| a [| b row]]; simpl in Hrow; try lia; reflexivity.
Qed.

(** What [unparse] writes, [parse] reads back. *)
Lemma parse_unparse (columns : list string) (data : list record) :
  2 <= length columns -> List.NoDup columns ->
  Forall (conforms columns) data ->
  parse (unparse columns data) = data.
Proof.
  intros Hc Hnd Hall. destruct data as [| r data]; [reflexivity |].
  unfold parse, unparse.
  set (rows := map (fun r => map (cell_of r) columns) (r :: data)).
  assert (line columns :: map (fun r => line (map (cell_of r) columns)) (r :: data)
          = map line (columns :: rows)) as ->.
  { cbn [map]. unfold rows. rewrite map_map. reflexivity. }
  assert (Forall (fun row => length row = length columns) (columns :: rows)) as Hlen.
  { constructor; [reflexivity |]. unfold rows. apply List.Forall_forall.
    intros row Hrow. apply in_map_iff in Hrow. destruct Hrow as [x [<- _]].
    apply length_map. }
  rewrite scan_lines.
  - cbn [rev List.app]. rewrite (rows_kept columns _ Hc Hlen).
    unfold rows. rewrite map_map.
    rewrite <- (map_id (r :: data)) at 2. apply map_ext_in.
    intros x Hx. rewrite List.Forall_forall in Hall.
    specialize (Hall x Hx). unfold conforms in Hall. subst columns.
    apply to_record_cells. exact Hnd.
  - discriminate.
  - eapply List.Forall_impl; [| exact Hlen]. cbv beta.
    intros row Hrow Hnil. subst row. simpl in Hrow. lia.
Qed.

Lemma to_user_of_user u : to_user (of_user u) = u.
Proof. destruct u; reflexivity. Qed.

(** The users that [writeCSV] saves are the users that [readCSV]
    loads from the file: the routes may be read on record sequences. *)
Lemma load_save_users users : load_users (save_users users) = users.
Proof.
  unfold load_users, save_users. rewrite parse_unparse.
  - rewrite map_map. rewrite <- (map_id users) at 2.
    apply map_ext. apply to_user_of_user.
  - simpl. lia.
  - repeat constructor; simpl; intuition discriminate.
  - apply List.Forall_forall. intros r Hr. apply in_map_iff in Hr.
    destruct Hr as [u [<- _]]. reflexivity.
Qed.

Lemma schema_columns (columns : list string) :
  In columns [USERS_COLUMNS; FEEDS_COLUMNS] ->
  2 <= length columns /\ List.NoDup columns.
Proof.
  intros [<- | [<- | []]]; (split; [simpl; lia |]);
    repeat constructor; simpl; intuition discriminate.
Qed.

(** C5. Under either schema of the program, a sequence of records that
    have exactly the columns of the schema is read back unchanged from
    the text that [save] writes for it.  Hence, for a file whose [load]
    is such a sequence, the file that [save(schema, load(schema))]
    writes loads to the same records as the original, and saving once
    more writes the same text; and the users that a route saves are the
    users that the next request loads. *)
Theorem save_load_round_trip (columns : list string) :
  In columns [USERS_COLUMNS; FEEDS_COLUMNS] ->
  (forall data, Forall (conforms columns) data ->
     parse (unparse columns data) = data)
  /\ (forall file, Forall (conforms columns) (parse file) ->
        parse (unparse columns (parse file)) = parse file
        /\ unparse columns (parse (unparse columns (parse file)))
           = unparse columns (parse file))
  /\ (forall users, load_users (save_users users) = users).
Proof.
  intros Hschema. destruct (schema_columns columns Hschema) as [Hc Hnd].
  split; [| split].
  - intros data Hall. apply parse_unparse; assumption.
  - intros file Hall. rewrite (parse_unparse columns (parse file) Hc Hnd Hall).
    split; reflexivity.
  - apply load_save_users.
Qed.

End RoundTrip.

(** ** Worked instances

    The properties above at concrete requests, on the server of
    [Demo]; and the inputs at which four sentences of the
    specification, read to the letter, fail. *)

(** C7 on Alice, whose session has the role [user]: her request for
    the list of users is refused, also once [users.csv] is gone. *)
Lemma admin_routes_gated_witness :
  admin_handler (target Demo.list_as_alice) = Some list_users
  /\ app Demo.env0 Demo.running Demo.list_as_alice
     = (Demo.running, json 403 (error "Admin privileges required"))
  /\ app Demo.env0 (set_users Demo.running None) Demo.list_as_alice
     = (set_users Demo.running None, json 403 (error "Admin privileges required")).
Proof.
  pose proof (admin_routes_gated Demo.env0 Demo.running Demo.list_as_alice
                list_users eq_refl) as (_ & H403 & Hstore & _).
  split; [reflexivity |]. split.
  - apply (H403 (mkSession "Alice" "alice@example.com" "user")).
    + reflexivity.
    + discriminate.
  - apply (Hstore (mkSession "Alice" "alice@example.com" "user") None). reflexivity.
Defined.

(** A login under an unknown email and a login of Alice with a wrong
    password, both with a string for password, are answered alike. *)
Lemma login_failures_alike_instance :
  login_failure Demo.running Demo.login_unknown
  /\ login_failure Demo.running Demo.login_wrong
  /\ snd (app Demo.env0 Demo.running Demo.login_unknown)
     = snd (app Demo.env0 Demo.running Demo.login_wrong).
Proof.
  assert (login_failure Demo.running Demo.login_unknown) as F1.
  { apply (NoSuchUser _ _ "whatever"); reflexivity. }
  assert (login_failure Demo.running Demo.login_wrong) as F2.
  { apply (WrongPassword _ _ "alice@example.com" "not-the-password" Demo.alice);
      reflexivity. }
  split; [exact F1 |]. split; [exact F2 |].
  apply (login_failures_alike Demo.env0 Demo.running Demo.login_unknown
           Demo.env0 Demo.running Demo.login_wrong eq_refl eq_refl F1 F2).
Qed.

(** C3 at the failing input: on the freshly seeded server, a login
    with the number 123456 for password is answered 500 under the
    email of the administrator and 401 under an email without
    account. *)
Lemma login_tells_registered_email_witness :
  target Scenes.login_admin_number = POST_login
  /\ nonempty (b_email (req_body Scenes.login_admin_number)) = Some "admin@example.com"
  /\ truthy_non_string (b_password (req_body Scenes.login_admin_number))
  /\ registered "admin@example.com" Demo.booted
  /\ ~ registered "nobody@example.com" Demo.booted
  /\ app Demo.env0 Demo.booted Scenes.login_admin_number
     = (Demo.booted, json 500 (error "Server error during login"))
  /\ app Demo.env0 Demo.booted Scenes.login_nobody_number
     = (Demo.booted, json 401 (error "Invalid email or password")).
Proof.
  assert (truthy_non_string (JNum (of_Z 123456))) as Hpw.
  { split; [reflexivity | discriminate]. }
  assert (registered "admin@example.com" Demo.booted) as Hreg.
  { exists (default_admin Demo.env0). split; [left; reflexivity | reflexivity]. }
  assert (~ registered "nobody@example.com" Demo.booted) as Hnot.
  { intros [u [[<- | []] Hu]]. discriminate Hu. }
  destruct (login_tells_registered_email Demo.env0 Demo.booted Scenes.login_admin_number
              "admin@example.com" eq_refl eq_refl Hpw) as (Hst & H500 & _).
  destruct (login_tells_registered_email Demo.env0 Demo.booted Scenes.login_nobody_number
              "nobody@example.com" eq_refl eq_refl Hpw) as (Hst' & _ & H401 & _).
  split; [reflexivity |]. split; [reflexivity |]. split; [exact Hpw |].
  split; [exact Hreg |]. split; [exact Hnot |]. split.
  - rewrite (surjective_pairing (app Demo.env0 Demo.booted Scenes.login_admin_number)).
    rewrite Hst, (H500 Hreg). reflexivity.
  - rewrite (surjective_pairing (app Demo.env0 Demo.booted Scenes.login_nobody_number)).
    rewrite Hst', (H401 Hnot). reflexivity.
Defined.

(** C10 on a registration whose body asks for the role [admin]. *)
Lemma register_role_is_user_witness :
  target Demo.register_bob = POST_register
  /\ status (snd (app Demo.env0 Demo.running Demo.register_bob)) = 200
  /\ b_role (req_body Demo.register_bob) = JStr "admin"
  /\ exists u,
       users_csv (fst (app Demo.env0 Demo.running Demo.register_bob))
       = Some (readCSV (users_csv Demo.running) ++ [u])
       /\ u.(role) = "user"
       /\ cell_of (b_name (req_body Demo.register_bob)) = Some u.(name)
       /\ cell_of (b_email (req_body Demo.register_bob)) = Some u.(email)
       /\ js_truthy (b_name (req_body Demo.register_bob)) = true
       /\ js_truthy (b_email (req_body Demo.register_bob)) = true.
Proof.
  split; [reflexivity |]. split; [reflexivity |]. split; [reflexivity |].
  apply (register_role_is_user Demo.env0 Demo.running Demo.register_bob
           eq_refl eq_refl).
Defined.

(** C2, as amended, on a valid registration under Alice's email. *)
Lemma register_duplicate_witness :
  target Demo.register_again = POST_register
  /\ registered "alice@example.com" Demo.running
  /\ b_email (req_body Demo.register_again) = JStr "alice@example.com"
  /\ valid_registration (req_body Demo.register_again)
  /\ app Demo.env0 Demo.running Demo.register_again
     = (Demo.running, json 400 (error "Email already registered")).
Proof.
  assert (registered "alice@example.com" Demo.running) as Hreg.
  { exists Demo.alice. split; [right; left; reflexivity | reflexivity]. }
  assert (valid_registration (req_body Demo.register_again)) as Hvalid.
  { split; [reflexivity |]. split; [reflexivity |]. split; reflexivity. }
  split; [reflexivity |]. split; [exact Hreg |].
  split; [reflexivity |]. split; [exact Hvalid |].
  destruct (register_duplicate Demo.env0 Demo.running Demo.register_again
              "alice@example.com" eq_refl Hreg eq_refl) as (Hst & _ & _ & Hbody).
  rewrite (surjective_pairing (app Demo.env0 Demo.running Demo.register_again)).
  rewrite Hst, (Hbody Hvalid). reflexivity.
Defined.

(** C2, to the letter, fails: the store holds Alice's email, yet a
    registration under that email with a password of three characters
    is answered with the password error, not with "Email already
    registered". *)
Lemma duplicate_email_short_password :
  registered "alice@example.com" Demo.running
  /\ b_email (req_body Demo.register_again_short) = JStr "alice@example.com"
  /\ app Demo.env0 Demo.running Demo.register_again_short
     = (Demo.running, json 400 (error "Password must be at least 6 characters"))
  /\ snd (app Demo.env0 Demo.running Demo.register_again_short)
     <> json 400 (error "Email already registered").
Proof.
  split; [| split; [reflexivity | split; [reflexivity | discriminate]]].
  exists Demo.alice. split; [right; left; reflexivity | reflexivity].
Qed.

(** The one answer of a registration under a registered email that is
    not a 400: the length of the password is an object that hides
    [toString], the comparison with 6 throws, and the [catch] branch
    answers 500.  The conversion that throws does not depend on the
    two functions of [Engine]. *)
Lemma duplicate_email_object_password `{Engine} :
  length_below (b_password (req_body Scenes.register_again_object)) 6 = None
  /\ app Demo.env0 Demo.running Scenes.register_again_object
     = (Demo.running, json 500 (error "Server error during registration")).
Proof. split; reflexivity. Qed.

(** C6, as amended, on the administrator deleting their own account. *)
Lemma self_delete_refused_witness :
  target Demo.delete_self_admin = DELETE_users "admin@example.com"
  /\ sessions Demo.running !! cookie Demo.delete_self_admin
     = Some (mkSession "Admin User" "admin@example.com" "admin")
  /\ fst (app Demo.env0 Demo.running Demo.delete_self_admin) = Demo.running
  /\ snd (app Demo.env0 Demo.running Demo.delete_self_admin)
     = json 400 (error "Cannot delete your own account").
Proof.
  destruct (self_delete_refused Demo.env0 Demo.running Demo.delete_self_admin
              "admin@example.com" (mkSession "Admin User" "admin@example.com" "admin")
              eq_refl eq_refl eq_refl) as (Hst & Hadmin & _).
  split; [reflexivity |]. split; [reflexivity |].
  split; [exact Hst | exact (Hadmin eq_refl)].
Defined.

(** C6, to the letter, fails: Alice holds a session, of role [user];
    her request to delete her own account is answered 403, not 400. *)
Lemma self_delete_by_user_forbidden :
  sessions Demo.running !! cookie Demo.delete_self_alice
  = Some (mkSession "Alice" "alice@example.com" "user")
  /\ target Demo.delete_self_alice = DELETE_users "alice@example.com"
  /\ app Demo.env0 Demo.running Demo.delete_self_alice
     = (Demo.running, json 403 (error "Admin privileges required"))
  /\ status (snd (app Demo.env0 Demo.running Demo.delete_self_alice)) <> 400.
Proof.
  split; [reflexivity |]. split; [reflexivity |].
  split; [reflexivity | discriminate].
Qed.

(** C4, as amended, on 25 readings: [history] has the last 20 and
    [recent] the last 10. *)
Lemma sensors_windows_witness :
  target Demo.get_sensors = GET_sensors
  /\ sessions (Demo.with_feeds 25) !! cookie Demo.get_sensors
     = Some (mkSession "Admin User" "admin@example.com" "admin")
  /\ exists old20 last20 old10 last10,
       map Demo.reading (seq 0 25) = old20 ++ last20
       /\ length last20 = 20
       /\ map Demo.reading (seq 0 25) = old10 ++ last10
       /\ length last10 = 10
       /\ get "history" (body_of (snd (app Demo.env0 (Demo.with_feeds 25) Demo.get_sensors)))
          = JArr (map process last20)
       /\ get "recent" (body_of (snd (app Demo.env0 (Demo.with_feeds 25) Demo.get_sensors)))
          = JArr (rev (map process last10)).
Proof.
  split; [reflexivity |]. split; [reflexivity |].
  destruct (sensors_windows Demo.env0 (Demo.with_feeds 25) Demo.get_sensors
              (mkSession "Admin User" "admin@example.com" "admin") eq_refl eq_refl)
    as [_ Hfull].
  destruct (Hfull (map Demo.reading (seq 0 24)) (Demo.reading 24) eq_refl)
    as (old20 & last20 & old10 & last10 & H20 & L20 & H10 & L10 & Happ).
  exists old20, last20, old10, last10.
  split; [exact H20 |]. split; [exact L20 |].
  split; [exact H10 |]. split; [exact L10 |].
  rewrite Happ. split; reflexivity.
Defined.

(** C4, to the letter, fails on [latest]: with 25 readings, the most
    recent one, as [history] returns it, carries its [entry_id]; the
    [latest] of the same answer is another object, without it. *)
Lemma latest_omits_entry_id :
  List.last
    (items_of (get "history"
                 (body_of (snd (app Demo.env0 (Demo.with_feeds 25) Demo.get_sensors)))))
    JUndefined
  = process (Demo.reading 24)
  /\ get "entry_id" (process (Demo.reading 24)) = JStr "Y"
  /\ get "latest" (body_of (snd (app Demo.env0 (Demo.with_feeds 25) Demo.get_sensors)))
     <> process (Demo.reading 24)
  /\ keys (get "latest"
             (body_of (snd (app Demo.env0 (Demo.with_feeds 25) Demo.get_sensors))))
     = ["field1"; "field2"; "field3"; "timestamp"]
  /\ get "entry_id"
       (get "latest" (body_of (snd (app Demo.env0 (Demo.with_feeds 25) Demo.get_sensors))))
     = JUndefined.
Proof.
  split; [vm_compute; reflexivity |]. split; [reflexivity |].
  split; [vm_compute; discriminate |]. split; vm_compute; reflexivity.
Qed.



(** C5 on two users, one of them with a quote, commas, spaces and a
    line break in its cells. *)
Lemma save_load_round_trip_witness :
  In Csv.USERS_COLUMNS [Csv.USERS_COLUMNS; Csv.FEEDS_COLUMNS]
  /\ Forall (Csv.conforms Csv.USERS_COLUMNS)
       [Csv.of_user Demo.alice; Csv.of_user Demo.pat]
  /\ Csv.parse (Csv.unparse Csv.USERS_COLUMNS
                  [Csv.of_user Demo.alice; Csv.of_user Demo.pat])
     = [Csv.of_user Demo.alice; Csv.of_user Demo.pat].
Proof.
  assert (Forall (Csv.conforms Csv.USERS_COLUMNS)
            [Csv.of_user Demo.alice; Csv.of_user Demo.pat]) as Hall.
  { repeat constructor. }
  split; [left; reflexivity |]. split; [exact Hall |].
  apply (proj1 (save_load_round_trip Csv.USERS_COLUMNS (or_introl eq_refl))).
  exact Hall.
Defined.

(** * Further properties of the server and of the pages *)

Section Transitions.
Context `{Bcrypt} `{Engine}.

(** How a request changes [users.csv]: not at all, or, with the answer
    200, by one record appended, whose email is the text of the email
    of the request, which is no cell of the store; by the role of a
    record; or by the removal of the records of an email. *)
Lemma users_transition e st rq :
  users_csv (fst (app e st rq)) = users_csv st
  \/ (status (snd (app e st rq)) = 200 /\ write_ok e = true
      /\ ((exists u, (target rq = POST_register \/ target rq = POST_users_add)
                     /\ cell_of (b_email (req_body rq)) = Some u.(email)
                     /\ js_truthy (b_email (req_body rq)) = true
                     /\ existsb (fun x => strict_eq x.(email) (b_email (req_body rq)))
                          (readCSV (users_csv st)) = false
                     /\ users_csv (fst (app e st rq))
                        = Some (readCSV (users_csv st) ++ [u]))
          \/ (exists em r users',
                 target rq = PUT_users em /\ valid_role r
                 /\ set_role em r (readCSV (users_csv st)) = Some users'
                 /\ users_csv (fst (app e st rq)) = Some users')
          \/ (exists em,
                 target rq = DELETE_users em /\ registered em st
                 /\ users_csv (fst (app e st rq))
                    = Some (without em (readCSV (users_csv st)))))).
Proof.
  destruct (app_outcome e st rq)
    as [c m Hc | Ht | Ht | Ht | su Ht Hs | su Ht Hs Ha | em pw u Ht He Hp Hf Hc
       | n em pw Ht Hn He Hp Hnt Het Hl Hex Hw
       | su n em pw r Ht Hs Ha Hn He Hp Hr Hnt Het Hl Hex Hw
       | su em r users' Ht Hs Ha Hr Hv Hset Hw | su em Ht Hs Ha Hne Hreg Hw];
    rewrite ?check_auth_fst, ?sensors_fst;
    try (left; reflexivity).
  - right. split; [reflexivity |]. split; [exact Hw |]. left.
    exists (mkUser n em (bcrypt_hash (salt e) pw 10) "user").
    split; [left; exact Ht |]. cbn [email].
    split; [exact He |]. split; [exact Het |]. split; [exact Hex | reflexivity].
  - right. split; [reflexivity |]. split; [exact Hw |]. left.
    exists (mkUser n em (bcrypt_hash (salt e) pw 10) r).
    split; [right; exact Ht |]. cbn [email].
    split; [exact He |]. split; [exact Het |]. split; [exact Hex | reflexivity].
  - right. split; [reflexivity |]. split; [exact Hw |]. right; left.
    exists em, r, users'. repeat split; assumption.
  - right. split; [reflexivity |]. split; [exact Hw |]. right; right.
    exists em. repeat split; assumption.
Qed.

(** No route writes [feeds.csv]. *)
Lemma feeds_untouched e st rq : feeds_csv (fst (app e st rq)) = feeds_csv st.
Proof.
  destruct (app_outcome e st rq)
    as [c m Hc | Ht | Ht | Ht | su Ht Hs | su Ht Hs Ha | em pw u Ht He Hp Hf Hc
       | n em pw Ht Hn He Hp Hnt Het Hl Hex Hw
       | su n em pw r Ht Hs Ha Hn He Hp Hr Hnt Het Hl Hex Hw
       | su em r users' Ht Hs Ha Hr Hv Hset Hw | su em Ht Hs Ha Hne Hreg Hw];
    rewrite ?check_auth_fst, ?sensors_fst; reflexivity.
Qed.

(** How a request changes the sessions: not at all, or by the session
    that a successful login opens under its cookie, or by the session
    that a logout closes under its cookie. *)
Lemma sessions_transition e st rq :
  sessions (fst (app e st rq)) = sessions st
  \/ (target rq = POST_login /\ status (snd (app e st rq)) = 200
      /\ exists em pw u,
           nonempty (b_email (req_body rq)) = Some em
           /\ nonempty (b_password (req_body rq)) = Some pw
           /\ find (fun u => String.eqb u.(email) em) (readCSV (users_csv st)) = Some u
           /\ bcrypt_compare pw u.(password) = true
           /\ sessions (fst (app e st rq))
              = <[cookie rq := mkSession u.(name) u.(email) u.(role)]> (sessions st)
           /\ snd (app e st rq)
              = json 200 (JObj [("message", JStr "Login successful");
                                ("user", public_user u.(name) u.(email) u.(role))]))
  \/ (target rq = GET_logout /\ status (snd (app e st rq)) = 200
      /\ sessions (fst (app e st rq)) = delete (cookie rq) (sessions st)).
Proof.
  destruct (app_outcome e st rq)
    as [c m Hc | Ht | Ht | Ht | su Ht Hs | su Ht Hs Ha | em pw u Ht He Hp Hf Hc
       | n em pw Ht Hn He Hp Hnt Het Hl Hex Hw
       | su n em pw r Ht Hs Ha Hn He Hp Hr Hnt Het Hl Hex Hw
       | su em r users' Ht Hs Ha Hr Hv Hset Hw | su em Ht Hs Ha Hne Hreg Hw];
    rewrite ?check_auth_fst, ?sensors_fst;
    try (left; reflexivity).
  - right; right. repeat split. exact Ht.
  - right; left. split; [exact Ht |]. split; [reflexivity |].
    exists em, pw, u. repeat split; assumption.
Qed.

Lemma server_eq (a b : server) :
  users_csv a = users_csv b -> feeds_csv a = feeds_csv b ->
  sessions a = sessions b -> a = b.
Proof. destruct a, b. simpl. intros -> -> ->. reflexivity. Qed.

Lemma registered_emails em st : registered em st <-> In em (emails st).
Proof.
  unfold registered, emails. rewrite in_map_iff.
  split; intros [u [Ha Hb]]; exists u; split; assumption.
Qed.

Lemma set_role_emails em r users users' :
  set_role em r users = Some users' -> map email users' = map email users.
Proof.
  revert users'. induction users as [| x users IH]; intros users' Hset; [discriminate |].
  simpl in Hset. destruct (String.eqb x.(email) em).
  - inversion Hset. reflexivity.
  - destruct (set_role em r users) as [rest |]; [| discriminate].
    inversion Hset. cbn [map]. rewrite (IH rest eq_refl). reflexivity.
Qed.

Lemma NoDup_map_filter {A B} (f : A -> B) (p : A -> bool) (l : list A) :
  List.NoDup (map f l) -> List.NoDup (map f (List.filter p l)).
Proof.
  induction l as [| x l IH]; intros Hnd; [constructor |].
  cbn [map] in Hnd. inversion Hnd as [| ? ? Hx Hl]; subst.
  cbn [List.filter]. destruct (p x); [| apply IH; exact Hl].
  cbn [map]. constructor; [| apply IH; exact Hl].
  intros Hin. apply Hx. apply in_map_iff in Hin. destruct Hin as [y [Hy Hin]].
  apply List.filter_In in Hin. apply in_map_iff. exists y. split; [exact Hy | apply Hin].
Qed.

(** X1. The emails of the store stay distinct under the requests
    whose email is a string, or missing, as the pages send it: when
    no two records of [users.csv] share an email before such a
    request, none do after it, whatever the route, the session and
    the other fields. *)
Theorem unique_emails_kept e st rq :
  textual (b_email (req_body rq)) ->
  List.NoDup (emails st) -> List.NoDup (emails (fst (app e st rq))).
Proof.
  intros Htext Hnd. unfold emails in *.
  destruct (users_transition e st rq)
    as [-> | (_ & _ & [(u & _ & Hcell & Ht & Hex & ->)
                      | [(em & r & users' & _ & _ & Hset & ->) | (em & _ & _ & ->)]])].
  - exact Hnd.
  - cbn [readCSV]. rewrite map_app. cbn [map].
    apply List.NoDup_app; [exact Hnd | |].
    + constructor; [intros [] | constructor].
    + intros x Hx [<- | []].
      destruct Htext as [Hv | [s Hv]]; rewrite Hv in *; [discriminate Ht |].
      cbn [cell_of js_to_string strict_eq] in Hcell, Hex. inversion Hcell as [Hs].
      assert (registered s st) as Hreg by (apply registered_emails; rewrite Hs; exact Hx).
      apply existsb_registered in Hreg. congruence.
  - cbn [readCSV]. rewrite (set_role_emails _ _ _ _ Hset). exact Hnd.
  - cbn [readCSV]. apply NoDup_map_filter. exact Hnd.
Qed.

(** The condition on the email is needed: an email that is an array
    of one string is equal to no cell of the store, and is written as
    that string, so that it can be registered twice. *)
Lemma array_email_registered_twice :
  map status
    (snd (serve Demo.running
            [(Demo.env0, Scenes.register_array); (Demo.env0, Scenes.register_array)]))
  = [200; 200]
  /\ emails (fst (serve Demo.running
                    [(Demo.env0, Scenes.register_array);
                     (Demo.env0, Scenes.register_array)]))
     = ["admin@example.com"; "alice@example.com"; "m@example.com"; "m@example.com"].
Proof. split; reflexivity. Qed.

Lemma not_ok_unchanged e st rq :
  status (snd (app e st rq)) <> 200 -> fst (app e st rq) = st.
Proof.
  intros Hne. apply server_eq.
  - destruct (users_transition e st rq) as [Hu | (Hs & _)]; [exact Hu | contradiction].
  - apply feeds_untouched.
  - destruct (sessions_transition e st rq) as [Hs | [(_ & Hs & _) | (_ & Hs & _)]];
      [exact Hs | contradiction | contradiction].
Qed.

(** X2. A request that is not answered 200 changes nothing: the two
    files and every session are as before, also when the write of the
    file failed. *)
Theorem failure_changes_nothing e st rq :
  status (snd (app e st rq)) <> 200 -> fst (app e st rq) = st.
Proof. apply not_ok_unchanged. Qed.

(** X3. A request touches no session but the one of its own cookie, and
    only a login (answered 200) or a logout touches that one; no
    route revokes or alters the session of another client. *)
Theorem sessions_isolated e st rq :
  (forall c, c <> cookie rq ->
     sessions (fst (app e st rq)) !! c = sessions st !! c)
  /\ (target rq <> POST_login -> target rq <> GET_logout ->
      sessions (fst (app e st rq)) = sessions st)
  /\ (status (snd (app e st rq)) <> 200 ->
      sessions (fst (app e st rq)) = sessions st).
Proof.
  destruct (sessions_transition e st rq)
    as [Hs | [(Ht & Hst & em & pw & u & _ & _ & _ & _ & Hs & _) | (Ht & Hst & Hs)]].
  - rewrite Hs. repeat split.
  - split; [| split].
    + intros c Hc. rewrite Hs. apply lookup_insert_ne. congruence.
    + intros Hl. contradiction.
    + intros Hne. contradiction.
  - split; [| split].
    + intros c Hc. rewrite Hs. apply lookup_delete_ne. congruence.
    + intros _ Hl. contradiction.
    + intros Hne. contradiction.
Qed.

End Transitions.

Section Sessions.
Context `{Bcrypt} `{Engine}.

Lemma writers_only e st rq :
  writes_users (target rq) = false -> users_csv (fst (app e st rq)) = users_csv st.
Proof.
  intros Hw.
  destruct (users_transition e st rq)
    as [Hu | (_ & _ & [(u & [Ht | Ht] & _) | [(em & r & users' & Ht & _)
                                            | (em & Ht & _)]])];
    [exact Hu | | | |]; rewrite Ht in Hw; discriminate Hw.
Qed.

(** X4. [feeds.csv] is never written, and [users.csv] is written by
    the registration, the add, the role update and the deletion only:
    the login, the logout, the check, the sensors, the list of users
    and the unmatched paths leave it as it is. *)
Theorem files_written_by e st rq :
  feeds_csv (fst (app e st rq)) = feeds_csv st
  /\ (writes_users (target rq) = false ->
      users_csv (fst (app e st rq)) = users_csv st).
Proof. split; [apply feeds_untouched | apply writers_only]. Qed.

Lemma check_auth_session e st c u :
  sessions st !! c = Some u ->
  app e st (bare c GET_check_auth)
  = (st, json 200 (JObj [("authenticated", JBool true);
                         ("user", public_user (s_name u) (s_email u) (s_role u))])).
Proof. intros Hs. unfold app, bare, check_auth. cbn [target cookie]. rewrite Hs. reflexivity. Qed.

Lemma check_auth_no_session e st c :
  sessions st !! c = None ->
  app e st (bare c GET_check_auth) = (st, json 200 (JObj [("authenticated", JBool false)])).
Proof. intros Hs. unfold app, bare, check_auth. cbn [target cookie]. rewrite Hs. reflexivity. Qed.

(** What a login answered 200 is. *)
Lemma login_success e st rq :
  status (snd (login e st rq)) = 200 ->
  exists em pw u,
    nonempty (b_email (req_body rq)) = Some em
    /\ nonempty (b_password (req_body rq)) = Some pw
    /\ find (fun u => String.eqb u.(email) em) (readCSV (users_csv st)) = Some u
    /\ bcrypt_compare pw u.(password) = true
    /\ login e st rq
       = (set_sessions st (<[cookie rq := mkSession u.(name) u.(email) u.(role)]>
                             (sessions st)),
          json 200 (JObj [("message", JStr "Login successful");
                          ("user", public_user u.(name) u.(email) u.(role))])).
Proof.
  intros Hok.
  destruct (login_cases e st rq) as [Hr | (em & pw & u & Hem & Hpw & Hf & Hc & Heq)].
  - apply refused_status in Hr. contradiction.
  - exists em, pw, u. repeat split; assumption.
Qed.

(** X5. After a login answered 200, [/api/check-auth] under the same
    cookie answers [authenticated: true] with the name, email and role
    of the first record of the store that has the email of the login,
    the same user that the login answered with; the store is as
    before. *)
Theorem login_opens_session e st rq e' :
  target rq = POST_login ->
  status (snd (app e st rq)) = 200 ->
  exists em u,
    nonempty (b_email (req_body rq)) = Some em
    /\ find (fun u => String.eqb u.(email) em) (readCSV (users_csv st)) = Some u
    /\ users_csv (fst (app e st rq)) = users_csv st
    /\ get "user" (body_of (snd (app e st rq)))
       = public_user u.(name) u.(email) u.(role)
    /\ app e' (fst (app e st rq)) (bare (cookie rq) GET_check_auth)
       = (fst (app e st rq),
          json 200 (JObj [("authenticated", JBool true);
                          ("user", public_user u.(name) u.(email) u.(role))])).
Proof.
  intros Ht.
  assert (app e st rq = login e st rq) as -> by (unfold app; rewrite Ht; reflexivity).
  intros Hst.
  destruct (login_success e st rq Hst) as (em & pw & u & Hem & _ & Hf & _ & ->).
  exists em, u. split; [exact Hem |]. split; [exact Hf |].
  split; [reflexivity |]. split; [reflexivity |].
  apply (check_auth_session e' _ (cookie rq) (mkSession u.(name) u.(email) u.(role))).
  apply lookup_insert_eq.
Qed.

(** X6. After a logout (the memory store of the sessions, which the
    server uses, does not fail to destroy one) the cookie has no
    session: [/api/check-auth]
    answers [authenticated: false], every route behind
    [isAuthenticated] answers 401 "Not authenticated" without touching
    anything, and a second logout changes nothing more.  The files are
    as before. *)
Theorem logout_closes_session e st rq e' :
  target rq = GET_logout ->
  app e' (fst (app e st rq)) (bare (cookie rq) GET_check_auth)
  = (fst (app e st rq), json 200 (JObj [("authenticated", JBool false)]))
  /\ (forall r b, needs_session r = true ->
        app e' (fst (app e st rq)) (mkRequest (cookie rq) r b)
        = (fst (app e st rq), json 401 (error "Not authenticated")))
  /\ fst (app e' (fst (app e st rq)) rq) = fst (app e st rq)
  /\ users_csv (fst (app e st rq)) = users_csv st
  /\ feeds_csv (fst (app e st rq)) = feeds_csv st.
Proof.
  intros Ht.
  assert (fst (app e st rq) = set_sessions st (delete (cookie rq) (sessions st))) as Hst.
  { unfold app. rewrite Ht. reflexivity. }
  set (st' := fst (app e st rq)) in *.
  assert (sessions st' !! cookie rq = None) as Hnone.
  { rewrite Hst. apply lookup_delete_eq. }
  split; [apply check_auth_no_session; exact Hnone |].
  split; [| split; [| split]].
  - intros r b Hr. unfold app. cbn [target cookie].
    destruct r; try discriminate Hr; cbn [guarded cookie]; rewrite Hnone; reflexivity.
  - unfold app. rewrite Ht. unfold logout. cbn [fst].
    apply server_eq; try reflexivity.
    cbn [set_sessions sessions]. apply delete_id. exact Hnone.
  - rewrite Hst. reflexivity.
  - rewrite Hst. reflexivity.
Qed.

End Sessions.

Section UserAdministration.
Context `{Bcrypt} `{Engine}.

(** [findIndex] and the assignment: the first record of the email gets
    the role, the others stay. *)
Lemma set_role_split em users :
  (exists u, In u users /\ u.(email) = em) ->
  exists before u after,
    users = before ++ u :: after
    /\ u.(email) = em
    /\ Forall (fun x => x.(email) <> em) before
    /\ forall r, set_role em r users
                 = Some (before ++ mkUser u.(name) u.(email) u.(password) r :: after).
Proof.
  induction users as [| x users IH]; intros [u [Hin Hu]]; [destruct Hin |].
  destruct (String.eqb_spec x.(email) em) as [Heq | Hne].
  - exists [], x, users. split; [reflexivity |]. split; [exact Heq |].
    split; [constructor |]. intros r. cbn [set_role List.app].
    rewrite (proj2 (String.eqb_eq _ _) Heq). reflexivity.
  - destruct Hin as [-> | Hin]; [contradiction |].
    destruct (IH (ex_intro _ u (conj Hin Hu))) as (before & v & after & -> & Hv & Hb & Hset).
    exists (x :: before), v, after. split; [reflexivity |]. split; [exact Hv |].
    split; [constructor; assumption |]. intros r. cbn [set_role List.app].
    rewrite (proj2 (String.eqb_neq _ _) Hne), Hset. reflexivity.
Qed.

Lemma set_role_unknown em r users :
  ~ (exists u, In u users /\ u.(email) = em) -> set_role em r users = None.
Proof.
  induction users as [| x users IH]; intros Hno; [reflexivity |].
  cbn [set_role]. destruct (String.eqb_spec x.(email) em) as [Heq | Hne].
  - exfalso. apply Hno. exists x. split; [left; reflexivity | exact Heq].
  - rewrite IH; [reflexivity |]. intros [u [Hin Hu]]. apply Hno.
    exists u. split; [right; exact Hin | exact Hu].
Qed.

Lemma nonempty_valid_role r : valid_role r -> nonempty (JStr r) = Some r.
Proof. intros [-> | ->]; reflexivity. Qed.

Lemma valid_role_included r :
  valid_role r -> existsb (String.eqb r) ["user"; "admin"] = true.
Proof. intros [-> | ->]; reflexivity. Qed.

(** A role update by an administrator, for a valid role. *)
Lemma role_update_run e st rq em r a :
  target rq = PUT_users em ->
  sessions st !! cookie rq = Some a -> s_role a = "admin" ->
  b_role (req_body rq) = JStr r -> valid_role r ->
  app e st rq
  = match set_role em r (readCSV (users_csv st)) with
    | None => (st, json 404 (error "User not found"))
    | Some users =>
        if write_ok e then
          (set_users st (Some users), json 200 (message "User role updated successfully"))
        else (set_users st (users_csv st), json 500 (error "Failed to update user"))
    end.
Proof.
  intros Ht Hs Ha Hr Hv.
  assert (admin_handler (target rq) = Some (update_role em)) as Hh
    by (rewrite Ht; reflexivity).
  rewrite (app_admin_route e st rq _ Hh), (guarded_admin e st rq _ a Hs Ha).
  unfold update_role. rewrite Hr. cbn [js_to_string].
  rewrite (nonempty_valid_role r Hv), (valid_role_included r Hv).
  cbn [negb]. destruct (set_role em r _); [| reflexivity].
  unfold writeCSV. destruct (write_ok e); reflexivity.
Qed.

(** X7. A role update by an administrator, for a role of the
    enumeration and with the write succeeding: when the store has the
    email, the answer is 200 and the store is the same sequence of
    records, but that the first record of that email has the new role
    (name, email and password hash kept, the other records and the
    order untouched); when it has not, the answer is 404 "User not
    found" and nothing changes. *)
Theorem role_update_effect e st rq em r a :
  target rq = PUT_users em ->
  sessions st !! cookie rq = Some a -> s_role a = "admin" ->
  b_role (req_body rq) = JStr r -> valid_role r ->
  write_ok e = true ->
  (registered em st ->
     exists before u after,
       readCSV (users_csv st) = before ++ u :: after
       /\ u.(email) = em
       /\ Forall (fun x => x.(email) <> em) before
       /\ app e st rq
          = (set_users st
               (Some (before ++ mkUser u.(name) u.(email) u.(password) r :: after)),
             json 200 (message "User role updated successfully")))
  /\ (~ registered em st -> app e st rq = (st, json 404 (error "User not found"))).
Proof.
  intros Ht Hs Ha Hr Hv Hw. rewrite (role_update_run e st rq em r a Ht Hs Ha Hr Hv).
  split.
  - intros Hreg.
    destruct (set_role_split em (readCSV (users_csv st)) Hreg)
      as (before & u & after & Heq & Hu & Hb & Hset).
    exists before, u, after. split; [exact Heq |]. split; [exact Hu |].
    split; [exact Hb |]. rewrite (Hset r), Hw. reflexivity.
  - intros Hno. rewrite (set_role_unknown em r _ Hno). reflexivity.
Qed.

Lemma registered_file em st :
  registered em st -> users_csv st = Some (readCSV (users_csv st)).
Proof.
  intros [u [Hin _]]. destruct (users_csv st); [reflexivity | destruct Hin].
Qed.

Lemma valid_role_dec r : {valid_role r} + {~ valid_role r}.
Proof.
  unfold valid_role.
  destruct (String.eqb_spec r "user") as [-> | Hu]; [left; left; reflexivity |].
  destruct (String.eqb_spec r "admin") as [-> | Ha]; [left; right; reflexivity |].
  right. intros [Hr | Hr]; contradiction.
Qed.

(** X8. Setting the role that the first record of the email already
    has changes nothing: the answer is 200 when that role is one of
    the enumeration, and 400 "Invalid role" when it is not (the store
    can hold such a role, see C1).  When it is one of the
    enumeration, setting it back after a role update restores the
    server as it was. *)
Theorem role_update_idempotent e st rq em a u :
  target rq = PUT_users em ->
  sessions st !! cookie rq = Some a -> s_role a = "admin" ->
  find (fun u => String.eqb u.(email) em) (readCSV (users_csv st)) = Some u ->
  write_ok e = true ->
  (b_role (req_body rq) = JStr u.(role) ->
     fst (app e st rq) = st
     /\ (valid_role u.(role) ->
         snd (app e st rq) = json 200 (message "User role updated successfully"))
     /\ (~ valid_role u.(role) ->
         snd (app e st rq) = json 400 (error "Invalid role")))
  /\ (valid_role u.(role) ->
      forall r e2 rq2,
        b_role (req_body rq) = JStr r -> valid_role r ->
        target rq2 = PUT_users em -> cookie rq2 = cookie rq ->
        b_role (req_body rq2) = JStr u.(role) -> write_ok e2 = true ->
        fst (app e2 (fst (app e st rq)) rq2) = st).
Proof.
  intros Ht Hs Ha Hf Hw.
  assert (registered em st) as Hreg.
  { apply find_some in Hf. destruct Hf as [Hin Heq]. exists u.
    split; [exact Hin | apply String.eqb_eq; exact Heq]. }
  pose proof (registered_file em st Hreg) as Hfile.
  destruct (set_role_split em (readCSV (users_csv st)) Hreg)
    as (before & v & after & Heq & Hvem & Hb & Hset).
  assert (v = u) as ->.
  { rewrite Heq in Hf. clear - Hf Hb Hvem.
    induction Hb as [| x before Hx _ IH]; cbn [List.app find] in Hf.
    - rewrite (proj2 (String.eqb_eq _ _) Hvem) in Hf. congruence.
    - rewrite (proj2 (String.eqb_neq _ _) Hx) in Hf. apply IH. exact Hf. }
  assert (forall r, set_role em u.(role)
                      (before ++ mkUser u.(name) u.(email) u.(password) r :: after)
                    = Some (readCSV (users_csv st))) as Hback.
  { intros r. rewrite Heq. clear - Hb Hvem.
    induction Hb as [| x before Hx _ IH]; cbn [List.app set_role].
    - cbn [email]. rewrite (proj2 (String.eqb_eq _ _) Hvem). destruct u; reflexivity.
    - rewrite (proj2 (String.eqb_neq _ _) Hx), IH. reflexivity. }
  assert (admin_handler (target rq) = Some (update_role em)) as Hh
    by (rewrite Ht; reflexivity).
  split.
  - intros Hr. destruct (valid_role_dec u.(role)) as [Hv | Hv].
    + rewrite (role_update_run e st rq em u.(role) a Ht Hs Ha Hr Hv).
      rewrite (Hset u.(role)), Hw.
      replace (mkUser u.(name) u.(email) u.(password) u.(role)) with u
        by (destruct u; reflexivity).
      rewrite <- Heq, <- Hfile, set_users_same.
      split; [reflexivity |]. split; [reflexivity | contradiction].
    + rewrite (app_admin_route e st rq _ Hh), (guarded_admin e st rq _ a Hs Ha).
      rewrite (update_role_rejects em e st rq u.(role) Hr Hv).
      split; [reflexivity |]. split; [contradiction | reflexivity].
  - intros Hv r e2 rq2 Hr Hvr Ht2 Hc2 Hr2 Hw2.
    rewrite (role_update_run e st rq em r a Ht Hs Ha Hr Hvr), (Hset r), Hw. cbn [fst].
    assert (sessions (set_users st
               (Some (before ++ mkUser u.(name) u.(email) u.(password) r :: after)))
              !! cookie rq2 = Some a) as Hs2 by (rewrite Hc2; exact Hs).
    rewrite (role_update_run e2 _ rq2 em u.(role) a Ht2 Hs2 Ha Hr2 Hv).
    cbn [set_users users_csv readCSV]. rewrite (Hback r), Hw2. cbn [fst].
    apply server_eq; cbn [set_users users_csv feeds_csv sessions];
      [symmetry; exact Hfile | reflexivity | reflexivity].
Qed.

(** A deletion by an administrator, of another account. *)
Lemma delete_run e st rq em a :
  target rq = DELETE_users em ->
  sessions st !! cookie rq = Some a -> s_role a = "admin" -> s_email a <> em ->
  app e st rq
  = if (length (without em (readCSV (users_csv st)))
        =? length (readCSV (users_csv st)))%nat then
      (st, json 404 (error "User not found"))
    else if write_ok e then
      (set_users st (Some (without em (readCSV (users_csv st)))),
       json 200 (message "User deleted successfully"))
    else (set_users st (users_csv st), json 500 (error "Failed to delete user")).
Proof.
  intros Ht Hs Ha Hne.
  assert (admin_handler (target rq) = Some (delete_user em)) as Hh
    by (rewrite Ht; reflexivity).
  rewrite (app_admin_route e st rq _ Hh), (guarded_admin e st rq _ a Hs Ha).
  unfold delete_user. rewrite Hs, (proj2 (String.eqb_neq _ _) Hne).
  fold (without em (readCSV (users_csv st))).
  destruct (_ =? _)%nat; [reflexivity |].
  unfold writeCSV. destruct (write_ok e); reflexivity.
Qed.

Lemma without_In em users u :
  In u (without em users) <-> In u users /\ u.(email) <> em.
Proof.
  unfold without. rewrite List.filter_In, negb_true_iff, String.eqb_neq. reflexivity.
Qed.

(** X9. A deletion by an administrator, of an email that is not that of
    the session and with the write succeeding: when the store has the
    email, the answer is 200, every record of that email is removed,
    the others are kept in their order, and the email is free again;
    when it has not, the answer is 404 "User not found" and nothing
    changes. *)
Theorem delete_effect e st rq em a :
  target rq = DELETE_users em ->
  sessions st !! cookie rq = Some a -> s_role a = "admin" -> s_email a <> em ->
  write_ok e = true ->
  (registered em st ->
     app e st rq
     = (set_users st (Some (without em (readCSV (users_csv st)))),
        json 200 (message "User deleted successfully"))
     /\ (forall u, In u (readCSV (users_csv (fst (app e st rq))))
                   <-> In u (readCSV (users_csv st)) /\ u.(email) <> em)
     /\ ~ registered em (fst (app e st rq))
     /\ length (readCSV (users_csv (fst (app e st rq))))
        < length (readCSV (users_csv st)))
  /\ (~ registered em st -> app e st rq = (st, json 404 (error "User not found"))).
Proof.
  intros Ht Hs Ha Hne Hw. rewrite (delete_run e st rq em a Ht Hs Ha Hne).
  destruct (_ =? _)%nat eqn:Hlen.
  - split; [| reflexivity]. intros Hreg.
    apply filter_length_registered in Hreg. congruence.
  - rewrite Hw. cbn [fst set_users users_csv readCSV]. split.
    + intros _. split; [reflexivity |]. split; [apply without_In |]. split.
      * intros [u [Hin Hu]]. apply without_In in Hin. destruct Hin as [_ Hin].
        contradiction.
      * apply Nat.eqb_neq in Hlen. unfold without in *.
        pose proof (List.filter_length_le
                      (fun u => negb (String.eqb u.(email) em))
                      (readCSV (users_csv st))). lia.
    + intros Hno. exfalso. apply Hno. apply filter_length_registered. exact Hlen.
Qed.

Lemma sensors_with_session e st c b u :
  sessions st !! c = Some u ->
  status (snd (app e st (mkRequest c GET_sensors b))) = 200
  /\ fst (app e st (mkRequest c GET_sensors b)) = st.
Proof.
  intros Hs. unfold app. cbn [target guarded cookie]. rewrite Hs.
  cbn [isAuthenticated]. unfold sensors. destruct (_ =? _)%nat; split; reflexivity.
Qed.

(** X10. What another client does to the store does not reach a
    session: after any request under another cookie, be it the
    deletion of the account of the session or a change of its role,
    the session is as it was, [/api/check-auth] still answers with its
    name, email and role, the sensors are still served, and the list
    of users is still served when the role of the session is
    [admin]. *)
Theorem session_outlives_account e st rq c u e' :
  sessions st !! c = Some u -> cookie rq <> c ->
  sessions (fst (app e st rq)) !! c = Some u
  /\ app e' (fst (app e st rq)) (bare c GET_check_auth)
     = (fst (app e st rq),
        json 200 (JObj [("authenticated", JBool true);
                        ("user", public_user (s_name u) (s_email u) (s_role u))]))
  /\ status (snd (app e' (fst (app e st rq)) (bare c GET_sensors))) = 200
  /\ (s_role u = "admin" ->
      status (snd (app e' (fst (app e st rq)) (bare c GET_users))) = 200).
Proof.
  intros Hs Hc.
  assert (sessions (fst (app e st rq)) !! c = Some u) as Hs'.
  { destruct (sessions_transition e st rq)
      as [-> | [(_ & _ & em & pw & v & _ & _ & _ & _ & -> & _) | (_ & _ & ->)]].
    - exact Hs.
    - rewrite lookup_insert_ne by exact Hc. exact Hs.
    - rewrite lookup_delete_ne by exact Hc. exact Hs. }
  set (st' := fst (app e st rq)) in *.
  split; [exact Hs' |]. split; [apply check_auth_session; exact Hs' |].
  split; [apply (sensors_with_session e' st' c _ u Hs') |].
  intros Ha.
  assert (admin_handler (target (bare c GET_users)) = Some list_users) as Hh
    by reflexivity.
  rewrite (app_admin_route e' st' _ _ Hh),
    (guarded_admin e' st' (bare c GET_users) _ u Hs' Ha).
  reflexivity.
Qed.

End UserAdministration.

Section Lifecycle.
Context `{Bcrypt} `{Engine}.

(** X11. The start of the server leaves a store with a record in it
    alone and seeds an absent or empty one with the default
    administrator (when the write succeeds); the rows read from
    [feeds.csv] are as before, the file being created without a row
    when it is absent; it opens no session; and, the write
    succeeding, a second start changes nothing more. *)
Theorem bootstrap_seeds e st :
  sessions (bootstrap e st) = sessions st
  /\ (readCSV (users_csv st) <> [] -> users_csv (bootstrap e st) = users_csv st)
  /\ (readCSV (users_csv st) = [] -> write_ok e = true ->
      users_csv (bootstrap e st) = Some [default_admin e])
  /\ readCSV (feeds_csv (bootstrap e st)) = readCSV (feeds_csv st)
  /\ (write_ok e = true -> forall e2, bootstrap e2 (bootstrap e st) = bootstrap e st).
Proof.
  assert (forall st1 : server,
            match feeds_csv st1 with
            | Some _ => st1
            | None => {| users_csv := users_csv st1; feeds_csv := Some [];
                         sessions := sessions st1 |}
            end
            = {| users_csv := users_csv st1; feeds_csv := Some (readCSV (feeds_csv st1));
                 sessions := sessions st1 |}) as Hfeeds.
  { intros [u [f |] s]; reflexivity. }
  unfold bootstrap. rewrite Hfeeds.
  destruct st as [[[| x users] |] f s]; cbn [users_csv length Nat.eqb readCSV];
    unfold writeCSV; destruct (write_ok e); cbn [fst set_users users_csv feeds_csv sessions];
    (split; [reflexivity |]); (split; [intros Hne; try reflexivity; contradiction |]);
    (split; [intros Hnil; try discriminate Hnil; intros Hw; try discriminate Hw;
             reflexivity |]);
    (split; [destruct f; reflexivity |]);
    intros Hw; try discriminate Hw; intros e2; reflexivity.
Qed.

Lemma find_appended em users u :
  existsb (fun x => String.eqb x.(email) em) users = false ->
  u.(email) = em ->
  find (fun x => String.eqb x.(email) em) (users ++ [u]) = Some u.
Proof.
  intros Hex Hu. induction users as [| x users IH].
  - cbn [List.app find]. rewrite (proj2 (String.eqb_eq _ _) Hu). reflexivity.
  - cbn [existsb] in Hex. apply orb_false_iff in Hex. destruct Hex as [Hx Hrest].
    cbn [List.app find]. rewrite Hx. apply IH. exact Hrest.
Qed.

(** X12. Registration, login and access compose, for a registration
    whose name and email are strings: when [bcrypt] accepts the
    password against the hash it made of it, the credentials of a
    registration answered 200 log in, under any cookie, with the name
    and email of the registration and the role [user]; the session so
    opened is served the sensors and refused the list of users with
    403. *)
Theorem register_then_login e st rq e2 e3 c n em :
  target rq = POST_register ->
  b_name (req_body rq) = JStr n -> b_email (req_body rq) = JStr em ->
  status (snd (app e st rq)) = 200 ->
  (forall pw, b_password (req_body rq) = JStr pw ->
     bcrypt_compare pw (bcrypt_hash (salt e) pw 10) = true) ->
  exists pw,
    b_password (req_body rq) = JStr pw
    /\ snd (app e2 (fst (app e st rq)) (login_request c em pw))
       = json 200 (JObj [("message", JStr "Login successful");
                         ("user", public_user n em "user")])
    /\ status (snd (app e3 (fst (app e2 (fst (app e st rq)) (login_request c em pw)))
                       (bare c GET_sensors))) = 200
    /\ snd (app e3 (fst (app e2 (fst (app e st rq)) (login_request c em pw)))
                (bare c GET_users))
       = json 403 (error "Admin privileges required").
Proof.
  intros Ht Hname Hemail. assert (app e st rq = register e st rq) as ->
    by (unfold app; rewrite Ht; reflexivity).
  intros Hst Hbc.
  destruct (register_cases e st rq)
    as [Hr | (n' & em' & pw & Hn & Hem & Hpw & Hnt & Het & Hlen & Hex & Hw & ->)];
    [apply refused_status in Hr; contradiction |].
  rewrite Hname in Hn. rewrite Hemail in Hem, Het, Hex.
  cbn [cell_of js_to_string] in Hn, Hem. cbn [strict_eq] in Hex.
  inversion Hn; subst n'. inversion Hem; subst em'.
  assert (nonempty (JStr em) = Some em) as Hem2.
  { cbn [js_truthy] in Het. cbn [nonempty]. destruct (String.eqb em ""); [discriminate |].
    reflexivity. }
  exists pw. split; [exact Hpw |]. cbn [fst].
  set (u := mkUser n em (bcrypt_hash (salt e) pw 10) "user").
  set (st1 := set_users st (Some (readCSV (users_csv st) ++ [u]))).
  assert (app e2 st1 (login_request c em pw)
          = (set_sessions st1 (<[c := mkSession n em "user"]> (sessions st1)),
             json 200 (JObj [("message", JStr "Login successful");
                             ("user", public_user n em "user")]))) as Hlogin.
  { unfold app, login_request. cbn [target].
    rewrite (login_text e2 st1
               (mkRequest c POST_login (mkBody JUndefined (JStr em) (JStr pw) JUndefined))
               em pw Hem2 (nonempty_long pw Hlen)).
    cbn [st1 set_users users_csv readCSV cookie].
    rewrite (find_appended em _ u Hex eq_refl). cbn [u password].
    rewrite (Hbc pw Hpw). reflexivity. }
  rewrite Hlogin. cbn [fst snd]. split; [reflexivity |].
  set (st2 := set_sessions st1 (<[c := mkSession n em "user"]> (sessions st1))).
  assert (sessions st2 !! c = Some (mkSession n em "user")) as Hs2
    by apply lookup_insert_eq.
  split; [apply (sensors_with_session e3 st2 c _ _ Hs2) |].
  assert (admin_handler (target (bare c GET_users)) = Some list_users) as Hh
    by reflexivity.
  rewrite (app_admin_route e3 st2 _ _ Hh),
    (guarded_not_admin e3 st2 (bare c GET_users) _ _ Hs2); [reflexivity | discriminate].
Qed.

(** The condition on the email is needed: a registration whose email
    is an array of one string is answered 200, and the login with the
    same email and password is answered 401, no cell of the store
    being equal to an array. *)
Lemma array_email_cannot_log_in :
  status (snd (app Demo.env0 Demo.running Scenes.register_array)) = 200
  /\ snd (app Demo.env0 (fst (app Demo.env0 Demo.running Scenes.register_array))
            Scenes.login_array)
     = json 401 (error "Invalid email or password").
Proof. split; reflexivity. Qed.

(** X13. For an administrator and a body whose role is missing, empty
    or otherwise read as false by [role || 'user'],
    [POST /api/users/add] does to the server exactly what
    [POST /api/register] does with the same body, and answers with the
    same status. *)
Theorem add_like_register e st c b a :
  sessions st !! c = Some a -> s_role a = "admin" ->
  js_truthy (b_role b) = false ->
  fst (app e st (mkRequest c POST_users_add b))
  = fst (app e st (mkRequest c POST_register b))
  /\ status (snd (app e st (mkRequest c POST_users_add b)))
     = status (snd (app e st (mkRequest c POST_register b))).
Proof.
  intros Hs Ha Hr.
  assert (admin_handler (target (mkRequest c POST_users_add b)) = Some add_user) as Hh
    by reflexivity.
  rewrite (app_admin_route e st _ _ Hh),
    (guarded_admin e st (mkRequest c POST_users_add b) _ a Hs Ha).
  unfold app. cbn [target]. unfold add_user, register, js_or. cbn [req_body]. rewrite Hr.
  clear Hr.
  destruct (negb _ || negb _ || negb _); [split; reflexivity |].
  destruct (length_below _ _) as [[|] |]; try (split; reflexivity).
  destruct (existsb _ _); [split; reflexivity |].
  destruct (hash _ _); [| split; reflexivity].
  destruct (unparse_user _ _ _ _); [| split; reflexivity].
  unfold writeCSV. destruct (write_ok e); split; reflexivity.
Qed.

Lemma written_when_ok e st rq :
  writes_users (target rq) = true ->
  status (snd (app e st rq)) = 200 -> write_ok e = true.
Proof.
  intros Hwr.
  destruct (app_outcome e st rq)
    as [c m Hc | Ht | Ht | Ht | su Ht Hs | su Ht Hs Ha | em pw u Ht He Hp Hf Hc
       | n em pw Ht Hn He Hp Hnt Het Hl Hex Hw'
       | su n em pw r Ht Hs Ha Hn He Hp Hr Hnt Het Hl Hex Hw'
       | su em r users' Ht Hs Ha Hr Hv Hset Hw' | su em Ht Hs Ha Hne Hreg Hw'];
    try (rewrite Ht in Hwr; discriminate Hwr); try (intros _; exact Hw').
  cbn [snd json status]. intros ->. lia.
Qed.

Lemma write_failure_answer e e' st rq :
  write_ok e = false -> write_ok e' = true -> salt e' = salt e ->
  writes_users (target rq) = true ->
  (status (snd (app e' st rq)) = 200 ->
   snd (app e st rq) = json 500 (error (failure_message (target rq))))
  /\ (status (snd (app e' st rq)) <> 200 -> snd (app e st rq) = snd (app e' st rq)).
Proof.
  intros Hw Hw' Hsalt Hwr. unfold app.
  destruct (target rq) as [| | | | | | | em | em |]; try discriminate Hwr;
    cbn [guarded failure_message].
  - unfold register.
    destruct (negb _ || negb _ || negb _); [split; [discriminate | reflexivity] |].
    destruct (length_below _ _) as [[|] |]; try (split; [discriminate | reflexivity]).
    destruct (existsb _ _); [split; [discriminate | reflexivity] |].
    unfold hash. rewrite Hsalt.
    destruct (b_password (req_body rq)); try (split; [discriminate | reflexivity]).
    destruct (unparse_user _ _ _ _); [| split; [discriminate | reflexivity]].
    unfold writeCSV. rewrite Hw, Hw'. split; [reflexivity | intros Hne; contradiction Hne; reflexivity].
  - destruct (sessions st !! cookie rq) as [su |]; cbn [isAuthenticated isAdmin];
      [| split; [discriminate | reflexivity]].
    destruct (String.eqb (s_role su) "admin"); [| split; [discriminate | reflexivity]].
    unfold add_user.
    destruct (negb _ || negb _ || negb _); [split; [discriminate | reflexivity] |].
    destruct (length_below _ _) as [[|] |]; try (split; [discriminate | reflexivity]).
    destruct (existsb _ _); [split; [discriminate | reflexivity] |].
    unfold hash. rewrite Hsalt.
    destruct (b_password (req_body rq)); try (split; [discriminate | reflexivity]).
    destruct (unparse_user _ _ _ _); [| split; [discriminate | reflexivity]].
    unfold writeCSV. rewrite Hw, Hw'. split; [reflexivity | intros Hne; contradiction Hne; reflexivity].
  - destruct (sessions st !! cookie rq) as [su |]; cbn [isAuthenticated isAdmin];
      [| split; [discriminate | reflexivity]].
    destruct (String.eqb (s_role su) "admin"); [| split; [discriminate | reflexivity]].
    unfold update_role.
    destruct (js_to_string _); [| split; [discriminate | reflexivity]].
    destruct (nonempty _); [| split; [discriminate | reflexivity]].
    destruct (negb _); [split; [discriminate | reflexivity] |].
    destruct (set_role _ _ _); [| split; [discriminate | reflexivity]].
    unfold writeCSV. rewrite Hw, Hw'. split; [reflexivity | intros Hne; contradiction Hne; reflexivity].
  - destruct (sessions st !! cookie rq) as [su |] eqn:Hs; cbn [isAuthenticated isAdmin];
      [| split; [discriminate | reflexivity]].
    destruct (String.eqb (s_role su) "admin"); [| split; [discriminate | reflexivity]].
    unfold delete_user. rewrite Hs.
    destruct (String.eqb _ _); [split; [discriminate | reflexivity] |].
    destruct (_ =? _)%nat; [split; [discriminate | reflexivity] |].
    unfold writeCSV. rewrite Hw, Hw'. split; [reflexivity | intros Hne; contradiction Hne; reflexivity].
Qed.

(** X14. When the write of the file fails, no route that writes
    [users.csv] reports success: a request that would have been
    answered 200 is answered 500 with the failure message of its
    route, and a request that would have been refused gets the same
    refusal; in every case the status is between 400 and 500. *)
Theorem write_failure_reported e st rq :
  write_ok e = false -> writes_users (target rq) = true ->
  status (snd (app e st rq)) <> 200
  /\ (400 <= status (snd (app e st rq)) <= 500)
  /\ forall e', write_ok e' = true -> salt e' = salt e ->
       (status (snd (app e' st rq)) = 200 ->
        snd (app e st rq) = json 500 (error (failure_message (target rq))))
       /\ (status (snd (app e' st rq)) <> 200 ->
           snd (app e st rq) = snd (app e' st rq)).
Proof.
  intros Hw Hwr.
  assert (status (snd (app e st rq)) <> 200
          /\ 400 <= status (snd (app e st rq)) <= 500) as [Hne Hrange].
  { destruct (app_outcome e st rq)
      as [c m Hc | Ht | Ht | Ht | su Ht Hs | su Ht Hs Ha | em pw u Ht He Hp Hf Hc
         | n em pw Ht Hn He Hp Hnt Het Hl Hex Hw'
         | su n em pw r Ht Hs Ha Hn He Hp Hr Hnt Het Hl Hex Hw'
         | su em r users' Ht Hs Ha Hr Hv Hset Hw' | su em Ht Hs Ha Hne Hreg Hw'];
      try (rewrite Ht in Hwr; discriminate Hwr); try congruence.
    cbn [snd json status]. split; [lia | exact Hc]. }
  split; [exact Hne |]. split; [exact Hrange |].
  intros e' Hw' Hsalt. apply write_failure_answer; assumption.
Qed.

End Lifecycle.

Section SensorAnswers.
Context `{Bcrypt} `{Engine}.

Lemma slice_last_slice_last {A} n m (l : list A) :
  n <= m -> slice_last n (slice_last m l) = slice_last n l.
Proof.
  intros Hnm. unfold slice_last. rewrite skipn_skipn, length_skipn. f_equal. lia.
Qed.

Lemma rev_slice_last {A} n (l : list A) : rev (slice_last n l) = firstn n (rev l).
Proof.
  unfold slice_last. rewrite firstn_rev. reflexivity.
Qed.

Lemma hd_rev {A} (l : list A) d : hd d (rev l) = List.last l d.
Proof.
  induction l as [| x l IH] using rev_ind; [reflexivity |].
  rewrite rev_app_distr, last_last. reflexivity.
Qed.

Lemma last_slice_last {A} n (l : list A) d :
  0 < n -> List.last (slice_last n l) d = List.last l d.
Proof.
  intros Hn. destruct l as [| x l] using rev_ind; [reflexivity |].
  unfold slice_last. rewrite length_app. cbn [length].
  rewrite skipn_app.
  replace (length l + 1 - n - length l) with 0 by lia.
  cbn [skipn]. rewrite !last_last. reflexivity.
Qed.

Lemma sensors_answer e st rq su :
  target rq = GET_sensors -> sessions st !! cookie rq = Some su ->
  readCSV (feeds_csv st) <> [] ->
  app e st rq
  = (st, json 200
           (JObj [("latest",
                   latest_view (List.last (map process (readCSV (feeds_csv st))) JUndefined));
                  ("history", JArr (slice_last 20 (map process (readCSV (feeds_csv st)))));
                  ("recent",
                   JArr (rev (slice_last 10 (map process (readCSV (feeds_csv st))))))])).
Proof.
  intros Ht Hs Hne. unfold app. rewrite Ht. cbn [guarded]. rewrite Hs.
  cbn [isAuthenticated]. unfold sensors.
  destruct (readCSV (feeds_csv st)) as [| f feeds]; [contradiction | reflexivity].
Qed.

(** X15. Inside one answer of [GET /api/sensors] on a non-empty feed,
    the three views agree: [recent] is the first ten of [history] read
    backwards, [latest] is made of the first row of [recent], which is
    the last of [history]; [history] has at most 20 rows and [recent]
    at most 10. *)
Theorem recent_mirrors_history e st rq su :
  target rq = GET_sensors -> sessions st !! cookie rq = Some su ->
  readCSV (feeds_csv st) <> [] ->
  items_of (get "recent" (body_of (snd (app e st rq))))
  = firstn 10 (rev (items_of (get "history" (body_of (snd (app e st rq))))))
  /\ get "latest" (body_of (snd (app e st rq)))
     = latest_view (hd JUndefined (items_of (get "recent" (body_of (snd (app e st rq))))))
  /\ hd JUndefined (items_of (get "recent" (body_of (snd (app e st rq)))))
     = List.last (items_of (get "history" (body_of (snd (app e st rq))))) JUndefined
  /\ length (items_of (get "history" (body_of (snd (app e st rq))))) <= 20
  /\ length (items_of (get "recent" (body_of (snd (app e st rq))))) <= 10.
Proof.
  intros Ht Hs Hne. rewrite (sensors_answer e st rq su Ht Hs Hne).
  set (P := map process (readCSV (feeds_csv st))).
  change (rev (slice_last 10 P) = firstn 10 (rev (slice_last 20 P))
          /\ latest_view (List.last P JUndefined)
             = latest_view (hd JUndefined (rev (slice_last 10 P)))
          /\ hd JUndefined (rev (slice_last 10 P)) = List.last (slice_last 20 P) JUndefined
          /\ length (slice_last 20 P) <= 20
          /\ length (rev (slice_last 10 P)) <= 10).
  rewrite hd_rev, !last_slice_last by lia.
  split; [| split; [reflexivity | split; [reflexivity |]]].
  - rewrite <- rev_slice_last, slice_last_slice_last by lia. reflexivity.
  - unfold slice_last. rewrite length_rev, !length_skipn. lia.
Qed.

Lemma sent_cases x : finite_or_null (sent x).
Proof.
  destruct x; cbn [sent]; [right | left | right | right];
    try reflexivity; eexists; split; reflexivity.
Qed.

Lemma field_of_key f k :
  In k ["field1"; "field2"; "field3"] -> exists v, In (k, v) (sensor_fields f).
Proof.
  intros [<- | [<- | [<- | []]]]; eexists; unfold sensor_fields.
  - left; reflexivity.
  - right; left; reflexivity.
  - right; right; left; reflexivity.
Qed.

Lemma wire_process_row f : sensor_row f (wire (process f)).
Proof.
  split; [| split; [| split]].
  - unfold process. destruct (created_at f), (entry_id f); reflexivity.
  - unfold process. destruct (created_at f), (entry_id f); reflexivity.
  - unfold process. destruct (created_at f), (entry_id f); reflexivity.
  - intros k Hk. destruct (field_of_key f k Hk) as [v Hin].
    rewrite (wire_process_field f k v Hin). apply sent_cases.
Qed.

Lemma wire_latest_row f : sensor_latest f (wire (latest_view (process f))).
Proof.
  split; [| split].
  - rewrite latest_view_process. destruct (created_at f); reflexivity.
  - rewrite latest_view_process. destruct (created_at f); reflexivity.
  - intros k Hk. destruct (field_of_key f k Hk) as [v Hin].
    rewrite (wire_latest_field f k v Hin). apply sent_cases.
Qed.

Lemma Forall2_map_row (R : feed -> jsval -> Prop) (g : feed -> jsval) l :
  (forall f, R f (g f)) -> List.Forall2 R l (map g l).
Proof. intros Hg. induction l as [| f l IH]; cbn [map]; constructor; auto. Qed.

(** X16. In the answer of [GET /api/sensors] on a feed that is not
    empty, as the client reads it, the rows of [history] are those of
    the last 20 readings and the rows of [recent] those of the last
    10, backwards.  The row of a reading has the keys [timestamp] and
    [entry_id], each of them when the row of the file has the cell,
    with the text of the cell, then [field1], [field2], [field3], in
    this order; under each of the three fields it has a finite number
    or [null], whatever the cells of [feeds.csv] hold.  [latest] has
    the three fields of the last reading, finite numbers or [null],
    then its [timestamp] when the row has the cell. *)
Theorem sensor_rows_are_numbers e st rq su earlier f0 :
  target rq = GET_sensors -> sessions st !! cookie rq = Some su ->
  readCSV (feeds_csv st) = earlier ++ [f0] ->
  List.Forall2 sensor_row (slice_last 20 (readCSV (feeds_csv st)))
    (items_of (get "history" (wire (body_of (snd (app e st rq))))))
  /\ List.Forall2 sensor_row (rev (slice_last 10 (readCSV (feeds_csv st))))
       (items_of (get "recent" (wire (body_of (snd (app e st rq))))))
  /\ sensor_latest f0 (get "latest" (wire (body_of (snd (app e st rq))))).
Proof.
  intros Ht Hs Hfeeds.
  destruct (sensors_wire e st rq su earlier f0 Ht Hs Hfeeds) as (-> & -> & ->).
  cbn [items_of]. split; [| split].
  - apply Forall2_map_row, wire_process_row.
  - rewrite <- map_rev. apply Forall2_map_row, wire_process_row.
  - apply wire_latest_row.
Qed.

(** X17. [GET /api/sensors] asks for a session and nothing more: with
    a session of any role the answer is 200, without one it is 401
    "Not authenticated"; in both cases the server is as before. *)
Theorem sensors_open_to_sessions e st c b :
  fst (app e st (mkRequest c GET_sensors b)) = st
  /\ (forall su, sessions st !! c = Some su ->
        status (snd (app e st (mkRequest c GET_sensors b))) = 200)
  /\ (sessions st !! c = None ->
        snd (app e st (mkRequest c GET_sensors b))
        = json 401 (error "Not authenticated")).
Proof.
  unfold app. cbn [target guarded cookie].
  destruct (sessions st !! c) as [su |]; cbn [isAuthenticated].
  - unfold sensors. destruct (_ =? _)%nat;
      (split; [reflexivity | split; [intros; reflexivity | discriminate]]).
  - split; [reflexivity | split; [discriminate | reflexivity]].
Qed.

End SensorAnswers.

Section TrailingNewline.
Import Csv.

Lemma join_snoc (sep : text) (pieces : list text) (p : text) :
  pieces <> [] -> join sep (pieces ++ [p]) = join sep pieces ++ sep ++ p.
Proof.
  induction pieces as [| q pieces IH]; intros Hne; [contradiction |].
  destruct pieces as [| q2 pieces].
  - reflexivity.
  - change (join sep ((q :: q2 :: pieces) ++ [p]))
      with (q ++ sep ++ join sep ((q2 :: pieces) ++ [p])).
    rewrite IH by discriminate.
    change (join sep (q :: q2 :: pieces)) with (q ++ sep ++ join sep (q2 :: pieces)).
    rewrite <- !app_assoc. reflexivity.
Qed.

Lemma filter_rows_snoc (rows : list (list string)) :
  List.filter (fun row => negb (is_empty_line row)) (rows ++ [[""]])
  = List.filter (fun row => negb (is_empty_line row)) rows.
Proof. rewrite List.filter_app. cbn [List.filter is_empty_line]. apply app_nil_r. Qed.

(** X18. A line end after the last line of the file does not make a
    record: the text that [save] writes under either schema, followed
    by CRLF, loads to the records that were saved, as the text itself
    does; and a text made of the header alone, with or without a line
    end after it, loads to no record. *)
Theorem trailing_newline_ignored (columns : list string) (data : list record) :
  In columns [USERS_COLUMNS; FEEDS_COLUMNS] ->
  Forall (conforms columns) data ->
  (data <> [] -> parse (unparse columns data ++ [CR; LF]) = data)
  /\ parse (line columns) = []
  /\ parse (line columns ++ [CR; LF]) = [].
Proof.
  intros Hschema Hall. destruct (schema_columns columns Hschema) as [Hc Hnd].
  assert (columns <> []) as Hcols.
  { intros ->. simpl in Hc. lia. }
  split; [| split].
  - intros Hne. rewrite <- (parse_unparse columns data Hc Hnd Hall) at 2.
    destruct data as [| r data]; [contradiction |].
    unfold parse, unparse.
    set (rows := map (fun r => map (cell_of r) columns) (r :: data)).
    assert (line columns :: map (fun r => line (map (cell_of r) columns)) (r :: data)
            = map line (columns :: rows)) as ->.
    { cbn [map]. unfold rows. rewrite map_map. reflexivity. }
    assert (Forall (fun cells : list string => cells <> []) (columns :: rows)) as Hrows.
    { constructor; [exact Hcols |]. unfold rows. apply List.Forall_forall.
      intros row Hrow. apply in_map_iff in Hrow. destruct Hrow as [x [<- _]].
      intros Hnil. apply Hcols. destruct columns; [reflexivity | discriminate Hnil]. }
    assert (join [CR; LF] (map line (columns :: rows)) ++ [CR; LF]
            = join [CR; LF] (map line ((columns :: rows) ++ [[""]]))) as ->.
    { rewrite map_app. change (map line [[""]]) with [@nil ascii].
      rewrite join_snoc by discriminate. reflexivity. }
    rewrite !scan_lines; try discriminate; try exact Hrows.
    + cbn [rev List.app].
      change (columns :: rows ++ [[""]]) with ((columns :: rows) ++ [[""]]).
      rewrite filter_rows_snoc. reflexivity.
    + apply List.Forall_app. split; [exact Hrows |]. constructor; [discriminate | constructor].
  - unfold parse.
    rewrite <- (app_nil_r (line columns)), (scan_line columns [] [] [] Hcols eq_refl).
    unfold row_done. rewrite app_nil_r, rev_involutive. cbn [rev List.app List.filter].
    destruct (negb _); reflexivity.
  - unfold parse. rewrite (scan_line columns [] [] [CR; LF] Hcols eq_refl).
    unfold row_done. rewrite app_nil_r, rev_involutive.
    cbn [scan rev List.app List.filter cell_text string_of_list_ascii is_empty_line].
    destruct (negb (is_empty_line columns)); reflexivity.
Qed.

End TrailingNewline.

Section Pages.
Context `{Bcrypt} `{Engine}.

Lemma list_users_admin e st c b a :
  sessions st !! c = Some a -> s_role a = "admin" ->
  app e st (mkRequest c GET_users b)
  = (st, json 200
           (JObj [("users",
                   JArr (map (fun u => public_user u.(name) u.(email) u.(role))
                             (readCSV (users_csv st))))])).
Proof.
  intros Hs Ha.
  assert (admin_handler (target (mkRequest c GET_users b)) = Some list_users) as Hh
    by reflexivity.
  rewrite (app_admin_route e st _ _ Hh),
    (guarded_admin e st (mkRequest c GET_users b) _ a Hs Ha).
  reflexivity.
Qed.

Lemma count_admins users :
  length (List.filter (fun v => is_string "admin" (get "role" v))
            (map (fun u => public_user u.(name) u.(email) u.(role)) users))
  = length (List.filter (fun u => String.eqb u.(role) "admin") users).
Proof.
  induction users as [| u users IH]; [reflexivity |].
  cbn [map List.filter].
  change (is_string "admin" (get "role" (public_user u.(name) u.(email) u.(role))))
    with (String.eqb u.(role) "admin").
  destruct (String.eqb u.(role) "admin"); cbn [length]; rewrite IH; reflexivity.
Qed.

(** X19. The counters of the administration page, computed from the
    answer of [GET /api/users] to an administrator: the total is the
    number of records of the store, the administrators are the
    records whose role is [admin], and the regular users are all the
    others (whatever their role says), so that the two add up to the
    total and none is negative.  For a session that is not an
    administrator's, or without one, [fetchUsers] leaves the list of
    the page alone. *)
Theorem stats_count_the_store e st c b :
  (forall a, sessions st !! c = Some a -> s_role a = "admin" ->
     exists items,
       fetchUsers (snd (app e st (mkRequest c GET_users b))) = Some (JArr items)
       /\ totalUsers (updateStats items)
          = Z.of_nat (length (readCSV (users_csv st)))
       /\ totalAdmins (updateStats items)
          = Z.of_nat (length (List.filter (fun u => String.eqb u.(role) "admin")
                                (readCSV (users_csv st))))
       /\ totalRegular (updateStats items)
          = Z.of_nat (length (List.filter (fun u => negb (String.eqb u.(role) "admin"))
                                (readCSV (users_csv st))))
       /\ (totalAdmins (updateStats items) + totalRegular (updateStats items)
           = totalUsers (updateStats items))%Z)
  /\ ((forall a, sessions st !! c = Some a -> s_role a <> "admin") ->
      fetchUsers (snd (app e st (mkRequest c GET_users b))) = None).
Proof.
  split.
  - intros a Hs Ha. rewrite (list_users_admin e st c b a Hs Ha).
    eexists. split; [reflexivity |].
    unfold updateStats. cbn [totalUsers totalAdmins totalRegular].
    rewrite count_admins, length_map.
    pose proof (List.filter_length (fun u => String.eqb u.(role) "admin")
                  (readCSV (users_csv st))) as Hlen.
    repeat split; lia.
  - intros Hno.
    assert (admin_handler (target (mkRequest c GET_users b)) = Some list_users) as Hh
      by reflexivity.
    rewrite (app_admin_route e st _ _ Hh).
    destruct (sessions st !! c) as [a |] eqn:Hs.
    + rewrite (guarded_not_admin e st (mkRequest c GET_users b) _ a Hs (Hno a eq_refl)).
      reflexivity.
    + rewrite (guarded_no_session e st (mkRequest c GET_users b) _ Hs). reflexivity.
Qed.

Lemma newRole_valid cur : valid_role (newRole cur).
Proof. unfold newRole. destruct (String.eqb cur "admin"); [left | right]; reflexivity. Qed.

Lemma find_set_role em r users users' :
  set_role em r users = Some users' ->
  exists u, find (fun x => String.eqb x.(email) em) users = Some u
            /\ find (fun x => String.eqb x.(email) em) users'
               = Some (mkUser u.(name) u.(email) u.(password) r).
Proof.
  revert users'. induction users as [| x users IH]; intros users' Hset; [discriminate |].
  cbn [set_role] in Hset. cbn [find].
  destruct (String.eqb x.(email) em) eqn:Hx.
  - inversion Hset; subst. exists x. split; [reflexivity |].
    cbn [find email]. rewrite Hx. reflexivity.
  - destruct (set_role em r users) as [rest |]; [| discriminate].
    inversion Hset; subst. destruct (IH rest eq_refl) as [u [Hf Hf']].
    exists u. split; [exact Hf |]. cbn [find]. rewrite Hx. exact Hf'.
Qed.

(** X20. The role that [toggleRole] asks for is always one of the
    enumeration, so the server never answers it "Invalid role": for an
    administrator, an email of the store (one that the URL carries as
    a segment) and a successful write, the answer is 200 and the record of the email then carries [user] when
    the page showed [admin] and [admin] in every other case; toggling
    from [user] or [admin] twice gives the role back. *)
Theorem toggle_role_accepted e st c a em cur :
  sessions st !! c = Some a -> s_role a = "admin" ->
  path_segment em -> registered em st -> write_ok e = true ->
  valid_role (newRole cur)
  /\ status (snd (app e st (toggleRole c em cur))) = 200
  /\ (exists u,
        find (fun x => String.eqb x.(email) em) (readCSV (users_csv st)) = Some u
        /\ find (fun x => String.eqb x.(email) em)
             (readCSV (users_csv (fst (app e st (toggleRole c em cur)))))
           = Some (mkUser u.(name) u.(email) u.(password) (newRole cur)))
  /\ (valid_role cur -> newRole (newRole cur) = cur).
Proof.
  intros Hs Ha _ Hreg Hw.
  split; [apply newRole_valid |].
  rewrite (role_update_run e st (toggleRole c em cur) em (newRole cur) a
             eq_refl Hs Ha eq_refl (newRole_valid cur)).
  destruct (set_role_split em (readCSV (users_csv st)) Hreg)
    as (before & u & after & Heq & Hu & Hb & Hset).
  pose proof (Hset (newRole cur)) as Hrun.
  destruct (find_set_role em (newRole cur) _ _ Hrun) as [v [Hf Hf']].
  rewrite Hrun, Hw. cbn [fst snd set_users users_csv readCSV].
  split; [reflexivity |]. split.
  - exists v. split; [exact Hf | exact Hf'].
  - intros [-> | ->]; reflexivity.
Qed.

Lemma nonempty_of s : s <> "" -> nonempty (JStr s) = Some s.
Proof. intros Hs. destruct s; [contradiction | reflexivity]. Qed.

(** X21. The registration page sends nothing when the two passwords
    differ or the password has fewer than six characters.  What it
    sends has no role and a password that passes the length check of
    the server, so that the server answers one of four ways: 400 "All
    fields are required" exactly when the name or the email is empty,
    else 400 "Email already registered" exactly when the store has the
    email, else 200 or, the write failing, 500; the page shows the
    success message on 200 and the message of the server otherwise. *)
Theorem register_form_flow n em pw cpw b :
  registerForm_submit n em pw cpw = Send b ->
  pw = cpw /\ 6 <= String.length pw
  /\ b = mkBody (JStr n) (JStr em) (JStr pw) JUndefined
  /\ forall e st c,
       (n = "" \/ em = "" ->
          app e st (mkRequest c POST_register b)
          = (st, json 400 (error "All fields are required"))
          /\ registerForm_show (snd (app e st (mkRequest c POST_register b)))
             = Failure (JStr "All fields are required"))
       /\ (n <> "" -> em <> "" -> registered em st ->
           app e st (mkRequest c POST_register b)
           = (st, json 400 (error "Email already registered"))
           /\ registerForm_show (snd (app e st (mkRequest c POST_register b)))
              = Failure (JStr "Email already registered"))
       /\ (n <> "" -> em <> "" -> ~ registered em st -> write_ok e = true ->
           app e st (mkRequest c POST_register b)
           = (set_users st
                (Some (readCSV (users_csv st)
                         ++ [mkUser n em (bcrypt_hash (salt e) pw 10) "user"])),
              json 200 (message "Registration successful"))
           /\ registerForm_show (snd (app e st (mkRequest c POST_register b)))
              = Success "Registration successful! Redirecting to login...")
       /\ (n <> "" -> em <> "" -> ~ registered em st -> write_ok e = false ->
           snd (app e st (mkRequest c POST_register b))
           = json 500 (error "Failed to save user")
           /\ registerForm_show (snd (app e st (mkRequest c POST_register b)))
              = Failure (JStr "Failed to save user")).
Proof.
  unfold registerForm_submit.
  destruct (String.eqb_spec pw cpw) as [<- | Hne]; cbn [negb]; [| discriminate].
  destruct (Nat.ltb_spec (String.length pw) 6) as [Hlt | Hlen]; [discriminate |].
  intros Hb. inversion Hb; subst b. clear Hb.
  split; [reflexivity |]. split; [exact Hlen |]. split; [reflexivity |].
  intros e st c. unfold app. cbn [target].
  assert (pw <> "") as Hpw.
  { intros ->. simpl in Hlen. lia. }
  destruct (String.eqb_spec n "") as [Hn | Hn].
  { subst n. split; [intros _; split; reflexivity |]. repeat split; contradiction. }
  destruct (String.eqb_spec em "") as [Hem | Hem].
  { subst em. assert (js_truthy (JStr n) = true) as Hnt
      by (destruct n; [contradiction | reflexivity]).
    unfold register. cbn [req_body b_name b_email b_password]. rewrite Hnt.
    split; [intros _; split; reflexivity |]. repeat split; contradiction. }
  split; [intros [Hc | Hc]; contradiction |].
  rewrite (register_text e st (mkRequest c POST_register
                                 (mkBody (JStr n) (JStr em) (JStr pw) JUndefined))
             n em pw (nonempty_of n Hn) (nonempty_of em Hem) (nonempty_of pw Hpw)).
  destruct (Nat.ltb_spec (String.length pw) 6) as [Hlt | _]; [lia |].
  destruct (existsb _ _) eqn:Hex.
  - apply existsb_registered in Hex.
    split; [intros _ _ _; split; reflexivity |].
    split; intros _ _ Hno; contradiction.
  - assert (~ registered em st) as Hno.
    { intros Hreg. apply existsb_registered in Hreg. congruence. }
    split; [intros _ _ Hreg; contradiction |].
    destruct (write_ok e).
    + split; [intros _ _ _ _; split; reflexivity | intros _ _ _ Hw; discriminate Hw].
    + split; [intros _ _ _ Hw; discriminate Hw | intros _ _ _ _; split; reflexivity].
Qed.

(** X22. The check of the administration page agrees with the gate of
    the server: on the answer of [/api/check-auth], the page stays
    exactly when [GET /api/users] under the same cookie would be
    answered 200; without a session it goes to the login page, and
    with a session of another role it warns and goes to the
    dashboard. *)
Theorem admin_page_agrees_with_gate e st c e' b :
  (checkAdminAuth (snd (app e st (bare c GET_check_auth))) = Stay
   <-> status (snd (app e' st (mkRequest c GET_users b))) = 200)
  /\ (sessions st !! c = None ->
      checkAdminAuth (snd (app e st (bare c GET_check_auth))) = Goto "index.html")
  /\ (forall a, sessions st !! c = Some a -> s_role a <> "admin" ->
      checkAdminAuth (snd (app e st (bare c GET_check_auth)))
      = AlertGoto "Access denied. Admin privileges required." "dashboard.html").
Proof.
  assert (admin_handler (target (mkRequest c GET_users b)) = Some list_users) as Hh
    by reflexivity.
  rewrite (app_admin_route e' st _ _ Hh).
  destruct (sessions st !! c) as [a |] eqn:Hs.
  - rewrite (check_auth_session e st c a Hs).
    assert (checkAdminAuth
              (snd (st, json 200 (JObj [("authenticated", JBool true);
                                        ("user", public_user (s_name a) (s_email a)
                                                   (s_role a))])))
            = if String.eqb (s_role a) "admin" then Stay
              else AlertGoto "Access denied. Admin privileges required." "dashboard.html")
      as -> by (destruct (String.eqb (s_role a) "admin") eqn:Hr;
                unfold checkAdminAuth, public_user; cbn; rewrite Hr; reflexivity).
    destruct (String.eqb_spec (s_role a) "admin") as [Ha | Ha].
    + rewrite (guarded_admin e' st (mkRequest c GET_users b) _ a Hs Ha).
      split; [split; reflexivity |]. split; [discriminate |].
      intros a' Heq Hne. inversion Heq; subst. contradiction.
    + rewrite (guarded_not_admin e' st (mkRequest c GET_users b) _ a Hs Ha).
      split; [split; discriminate |]. split; [discriminate |].
      intros a' _ _. reflexivity.
  - rewrite (check_auth_no_session e st c Hs),
      (guarded_no_session e' st (mkRequest c GET_users b) _ Hs).
    split; [split; discriminate |]. split; [reflexivity | discriminate].
Qed.

End Pages.

(** ** Worked instances of the further properties *)

(** X1 on the registration of Bob. *)
Lemma unique_emails_kept_witness :
  textual (b_email (req_body Demo.register_bob))
  /\ List.NoDup (emails Demo.running)
  /\ List.NoDup (emails (fst (app Demo.env0 Demo.running Demo.register_bob))).
Proof.
  assert (textual (b_email (req_body Demo.register_bob))) as Htext.
  { right. exists "bob@example.com". reflexivity. }
  assert (List.NoDup (emails Demo.running)) as Hnd.
  { repeat constructor; simpl; intuition discriminate. }
  split; [exact Htext |]. split; [exact Hnd |].
  apply (unique_emails_kept Demo.env0 Demo.running Demo.register_bob Htext Hnd).
Defined.

(** X2 on a registration refused for its password. *)
Lemma failure_changes_nothing_witness :
  status (snd (app Demo.env0 Demo.running Demo.register_again_short)) <> 200
  /\ fst (app Demo.env0 Demo.running Demo.register_again_short) = Demo.running.
Proof.
  assert (status (snd (app Demo.env0 Demo.running Demo.register_again_short)) <> 200)
    as Hne by discriminate.
  split; [exact Hne |].
  apply (failure_changes_nothing Demo.env0 Demo.running Demo.register_again_short Hne).
Defined.

(** X5 on the login of the seeded administrator. *)
Lemma login_opens_session_witness :
  target Demo.admin_login = POST_login
  /\ status (snd (app Demo.env0 Demo.booted Demo.admin_login)) = 200
  /\ exists em u,
       nonempty (b_email (req_body Demo.admin_login)) = Some em
       /\ find (fun u => String.eqb u.(email) em) (readCSV (users_csv Demo.booted))
          = Some u
       /\ users_csv (fst (app Demo.env0 Demo.booted Demo.admin_login))
          = users_csv Demo.booted
       /\ get "user" (body_of (snd (app Demo.env0 Demo.booted Demo.admin_login)))
          = public_user u.(name) u.(email) u.(role)
       /\ app Demo.env0 (fst (app Demo.env0 Demo.booted Demo.admin_login))
            (bare (cookie Demo.admin_login) GET_check_auth)
          = (fst (app Demo.env0 Demo.booted Demo.admin_login),
             json 200 (JObj [("authenticated", JBool true);
                             ("user", public_user u.(name) u.(email) u.(role))])).
Proof.
  assert (status (snd (app Demo.env0 Demo.booted Demo.admin_login)) = 200) as Hok
    by reflexivity.
  split; [reflexivity |]. split; [exact Hok |].
  apply (login_opens_session Demo.env0 Demo.booted Demo.admin_login Demo.env0
           eq_refl Hok).
Defined.

(** X6 on the logout of Alice. *)
Lemma logout_closes_session_witness :
  target Scenes.logout_alice = GET_logout
  /\ app Demo.env0 (fst (app Demo.env0 Demo.running Scenes.logout_alice))
       (bare 2 GET_check_auth)
     = (fst (app Demo.env0 Demo.running Scenes.logout_alice),
        json 200 (JObj [("authenticated", JBool false)])).
Proof.
  split; [reflexivity |].
  apply (logout_closes_session Demo.env0 Demo.running Scenes.logout_alice Demo.env0
           eq_refl).
Defined.

(** X7 on the promotion of Alice. *)
Lemma role_update_effect_witness :
  target Scenes.promote_alice = PUT_users "alice@example.com"
  /\ sessions Demo.running !! cookie Scenes.promote_alice = Some Scenes.admin_session
  /\ b_role (req_body Scenes.promote_alice) = JStr "admin"
  /\ valid_role "admin"
  /\ write_ok Demo.env0 = true
  /\ registered "alice@example.com" Demo.running
  /\ exists before u after,
       readCSV (users_csv Demo.running) = before ++ u :: after
       /\ u.(email) = "alice@example.com"
       /\ Forall (fun x => x.(email) <> "alice@example.com") before
       /\ app Demo.env0 Demo.running Scenes.promote_alice
          = (set_users Demo.running
               (Some (before ++ mkUser u.(name) u.(email) u.(password) "admin" :: after)),
             json 200 (message "User role updated successfully")).
Proof.
  assert (registered "alice@example.com" Demo.running) as Hreg.
  { exists Demo.alice. split; [right; left; reflexivity | reflexivity]. }
  split; [reflexivity |]. split; [reflexivity |]. split; [reflexivity |].
  split; [right; reflexivity |]. split; [reflexivity |]. split; [exact Hreg |].
  apply (proj1 (role_update_effect Demo.env0 Demo.running Scenes.promote_alice
                  "alice@example.com" "admin" Scenes.admin_session
                  eq_refl eq_refl eq_refl eq_refl (or_intror eq_refl) eq_refl)).
  exact Hreg.
Defined.

(** X8 on Alice, who is a [user], set to [user]. *)
Lemma role_update_idempotent_witness :
  target Scenes.demote_alice = PUT_users "alice@example.com"
  /\ sessions Demo.running !! cookie Scenes.demote_alice = Some Scenes.admin_session
  /\ s_role Scenes.admin_session = "admin"
  /\ find (fun u => String.eqb u.(email) "alice@example.com")
       (readCSV (users_csv Demo.running)) = Some Demo.alice
  /\ write_ok Demo.env0 = true
  /\ b_role (req_body Scenes.demote_alice) = JStr Demo.alice.(role)
  /\ fst (app Demo.env0 Demo.running Scenes.demote_alice) = Demo.running.
Proof.
  split; [reflexivity |]. split; [reflexivity |]. split; [reflexivity |].
  split; [reflexivity |]. split; [reflexivity |]. split; [reflexivity |].
  destruct (proj1 (role_update_idempotent Demo.env0 Demo.running Scenes.demote_alice
                     "alice@example.com" Scenes.admin_session Demo.alice
                     eq_refl eq_refl eq_refl eq_refl eq_refl) eq_refl) as (Hfst & _).
  exact Hfst.
Defined.

(** X9 on the deletion of Alice by the administrator. *)
Lemma delete_effect_witness :
  target Scenes.delete_alice = DELETE_users "alice@example.com"
  /\ sessions Demo.running !! cookie Scenes.delete_alice = Some Scenes.admin_session
  /\ s_email Scenes.admin_session <> "alice@example.com"
  /\ write_ok Demo.env0 = true
  /\ registered "alice@example.com" Demo.running
  /\ ~ registered "alice@example.com"
         (fst (app Demo.env0 Demo.running Scenes.delete_alice)).
Proof.
  assert (registered "alice@example.com" Demo.running) as Hreg.
  { exists Demo.alice. split; [right; left; reflexivity | reflexivity]. }
  assert (s_email Scenes.admin_session <> "alice@example.com") as Hne by discriminate.
  split; [reflexivity |]. split; [reflexivity |]. split; [exact Hne |].
  split; [reflexivity |]. split; [exact Hreg |].
  destruct (proj1 (delete_effect Demo.env0 Demo.running Scenes.delete_alice
                     "alice@example.com" Scenes.admin_session
                     eq_refl eq_refl eq_refl Hne eq_refl) Hreg) as (_ & _ & Hgone & _).
  exact Hgone.
Defined.

(** X10 on Alice's session, once her account is deleted. *)
Lemma session_outlives_account_witness :
  sessions Demo.running !! 2 = Some Scenes.alice_session
  /\ cookie Scenes.delete_alice <> 2
  /\ sessions (fst (app Demo.env0 Demo.running Scenes.delete_alice)) !! 2
     = Some Scenes.alice_session
  /\ status (snd (app Demo.env0 (fst (app Demo.env0 Demo.running Scenes.delete_alice))
                    (bare 2 GET_sensors))) = 200.
Proof.
  assert (cookie Scenes.delete_alice <> 2) as Hc by discriminate.
  destruct (session_outlives_account Demo.env0 Demo.running Scenes.delete_alice 2
              Scenes.alice_session Demo.env0 eq_refl Hc) as (Hs & _ & Hsens & _).
  split; [reflexivity |]. split; [exact Hc |]. split; [exact Hs | exact Hsens].
Defined.

(** X12 on the registration of Bob, who then logs in under cookie 5. *)
Lemma register_then_login_witness :
  target Demo.register_bob = POST_register
  /\ b_name (req_body Demo.register_bob) = JStr "Bob"
  /\ b_email (req_body Demo.register_bob) = JStr "bob@example.com"
  /\ status (snd (app Demo.env0 Demo.running Demo.register_bob)) = 200
  /\ (forall pw, b_password (req_body Demo.register_bob) = JStr pw ->
        bcrypt_compare pw (bcrypt_hash (salt Demo.env0) pw 10) = true)
  /\ exists pw,
       b_password (req_body Demo.register_bob) = JStr pw
       /\ snd (app Demo.env0 (fst (app Demo.env0 Demo.running Demo.register_bob))
                 (login_request 5 "bob@example.com" pw))
          = json 200 (JObj [("message", JStr "Login successful");
                            ("user", public_user "Bob" "bob@example.com" "user")])
       /\ status (snd (app Demo.env0
                         (fst (app Demo.env0
                                 (fst (app Demo.env0 Demo.running Demo.register_bob))
                                 (login_request 5 "bob@example.com" pw)))
                         (bare 5 GET_sensors))) = 200
       /\ snd (app Demo.env0
                 (fst (app Demo.env0
                         (fst (app Demo.env0 Demo.running Demo.register_bob))
                         (login_request 5 "bob@example.com" pw)))
                 (bare 5 GET_users))
          = json 403 (error "Admin privileges required").
Proof.
  assert (status (snd (app Demo.env0 Demo.running Demo.register_bob)) = 200) as Hok
    by reflexivity.
  assert (forall pw, b_password (req_body Demo.register_bob) = JStr pw ->
            bcrypt_compare pw (bcrypt_hash (salt Demo.env0) pw 10) = true) as Hbc.
  { intros pw Hpw. injection Hpw as <-. reflexivity. }
  split; [reflexivity |]. split; [reflexivity |]. split; [reflexivity |].
  split; [exact Hok |]. split; [exact Hbc |].
  apply (register_then_login Demo.env0 Demo.running Demo.register_bob
           Demo.env0 Demo.env0 5 "Bob" "bob@example.com" eq_refl eq_refl eq_refl Hok Hbc).
Defined.

(** X13 on Carol, added without a role by the administrator. *)
Lemma add_like_register_witness :
  sessions Demo.running !! 1 = Some Scenes.admin_session
  /\ s_role Scenes.admin_session = "admin"
  /\ js_truthy (b_role Scenes.carol) = false
  /\ fst (app Demo.env0 Demo.running (mkRequest 1 POST_users_add Scenes.carol))
     = fst (app Demo.env0 Demo.running (mkRequest 1 POST_register Scenes.carol))
  /\ status (snd (app Demo.env0 Demo.running (mkRequest 1 POST_users_add Scenes.carol)))
     = status (snd (app Demo.env0 Demo.running (mkRequest 1 POST_register Scenes.carol))).
Proof.
  split; [reflexivity |]. split; [reflexivity |]. split; [reflexivity |].
  apply (add_like_register Demo.env0 Demo.running 1 Scenes.carol Scenes.admin_session
           eq_refl eq_refl eq_refl).
Defined.

(** X14 on the registration of Bob when the file cannot be written. *)
Lemma write_failure_reported_witness :
  write_ok Scenes.env_fail = false
  /\ writes_users (target Demo.register_bob) = true
  /\ status (snd (app Demo.env0 Demo.running Demo.register_bob)) = 200
  /\ snd (app Scenes.env_fail Demo.running Demo.register_bob)
     = json 500 (error "Failed to save user").
Proof.
  assert (status (snd (app Demo.env0 Demo.running Demo.register_bob)) = 200) as Hok
    by reflexivity.
  split; [reflexivity |]. split; [reflexivity |]. split; [exact Hok |].
  destruct (write_failure_reported Scenes.env_fail Demo.running Demo.register_bob
              eq_refl eq_refl) as (_ & _ & Hans).
  destruct (Hans Demo.env0 eq_refl eq_refl) as [Hfail _].
  exact (Hfail Hok).
Defined.

(** X15 on a feed of 25 rows. *)
Lemma recent_mirrors_history_witness :
  target Demo.get_sensors = GET_sensors
  /\ sessions (Demo.with_feeds 25) !! cookie Demo.get_sensors
     = Some Scenes.admin_session
  /\ readCSV (feeds_csv (Demo.with_feeds 25)) <> []
  /\ items_of (get "recent"
       (body_of (snd (app Demo.env0 (Demo.with_feeds 25) Demo.get_sensors))))
     = firstn 10 (rev (items_of (get "history"
         (body_of (snd (app Demo.env0 (Demo.with_feeds 25) Demo.get_sensors)))))).
Proof.
  assert (readCSV (feeds_csv (Demo.with_feeds 25)) <> []) as Hne by discriminate.
  split; [reflexivity |]. split; [reflexivity |]. split; [exact Hne |].
  apply (proj1 (recent_mirrors_history Demo.env0 (Demo.with_feeds 25) Demo.get_sensors
                  Scenes.admin_session eq_refl eq_refl Hne)).
Defined.

(** X16 on a feed of 25 rows, as the client reads the answer. *)
Lemma sensor_rows_are_numbers_witness :
  target Demo.get_sensors = GET_sensors
  /\ sessions (Demo.with_feeds 25) !! cookie Demo.get_sensors
     = Some Scenes.admin_session
  /\ readCSV (feeds_csv (Demo.with_feeds 25))
     = map Demo.reading (seq 0 24) ++ [Demo.reading 24]
  /\ List.Forall2 sensor_row (slice_last 20 (readCSV (feeds_csv (Demo.with_feeds 25))))
       (items_of (get "history"
          (wire (body_of (snd (app Demo.env0 (Demo.with_feeds 25) Demo.get_sensors)))))).
Proof.
  split; [reflexivity |]. split; [reflexivity |]. split; [reflexivity |].
  apply (proj1 (sensor_rows_are_numbers Demo.env0 (Demo.with_feeds 25) Demo.get_sensors
                  Scenes.admin_session (map Demo.reading (seq 0 24)) (Demo.reading 24)
                  eq_refl eq_refl eq_refl)).
Defined.

(** X18 on the file of Alice and Pat. *)
Lemma trailing_newline_ignored_witness :
  In Csv.USERS_COLUMNS [Csv.USERS_COLUMNS; Csv.FEEDS_COLUMNS]
  /\ Forall (Csv.conforms Csv.USERS_COLUMNS) [Csv.of_user Demo.alice; Csv.of_user Demo.pat]
  /\ Csv.parse (Csv.unparse Csv.USERS_COLUMNS [Csv.of_user Demo.alice; Csv.of_user Demo.pat]
                ++ [Csv.CR; Csv.LF])
     = [Csv.of_user Demo.alice; Csv.of_user Demo.pat].
Proof.
  assert (In Csv.USERS_COLUMNS [Csv.USERS_COLUMNS; Csv.FEEDS_COLUMNS]) as Hin
    by (left; reflexivity).
  assert (Forall (Csv.conforms Csv.USERS_COLUMNS)
            [Csv.of_user Demo.alice; Csv.of_user Demo.pat]) as Hall
    by (repeat constructor).
  split; [exact Hin |]. split; [exact Hall |].
  apply (proj1 (trailing_newline_ignored Csv.USERS_COLUMNS
                  [Csv.of_user Demo.alice; Csv.of_user Demo.pat] Hin Hall)).
  discriminate.
Defined.

(** X20 on the button of Alice, shown as a [user]. *)
Lemma toggle_role_accepted_witness :
  sessions Demo.running !! 1 = Some Scenes.admin_session
  /\ s_role Scenes.admin_session = "admin"
  /\ path_segment "alice@example.com"
  /\ registered "alice@example.com" Demo.running
  /\ write_ok Demo.env0 = true
  /\ status (snd (app Demo.env0 Demo.running (toggleRole 1 "alice@example.com" "user")))
     = 200.
Proof.
  assert (registered "alice@example.com" Demo.running) as Hreg.
  { exists Demo.alice. split; [right; left; reflexivity | reflexivity]. }
  assert (path_segment "alice@example.com") as Hseg.
  { split; [discriminate | split; discriminate]. }
  split; [reflexivity |]. split; [reflexivity |]. split; [exact Hseg |].
  split; [exact Hreg |]. split; [reflexivity |].
  destruct (toggle_role_accepted Demo.env0 Demo.running 1 Scenes.admin_session
              "alice@example.com" "user" eq_refl eq_refl Hseg Hreg eq_refl)
    as (_ & Hok & _).
  exact Hok.
Defined.

(** X21 on the form filled in by Bob. *)
Lemma register_form_flow_witness :
  registerForm_submit "Bob" "bob@example.com" "hunter22" "hunter22"
  = Send (mkBody (JStr "Bob") (JStr "bob@example.com") (JStr "hunter22") JUndefined)
  /\ 6 <= String.length "hunter22".
Proof.
  split; [reflexivity |].
  destruct (register_form_flow "Bob" "bob@example.com" "hunter22" "hunter22"
              (mkBody (JStr "Bob") (JStr "bob@example.com") (JStr "hunter22") JUndefined)
              eq_refl) as (_ & Hlen & _).
  exact Hlen.
Defined.
